(** * Pink Winners linear-programming front ends: the problem normalizer

    A shallow embedding of the two interactive surfaces of the repository,
    [linear_programming_interface.py] (class [LinearProgrammingInterface], the
    Tk form) and [lp_solver_cli.py] (class [LPSolverCLI], the menu-driven
    command line), and the properties of the normalization they both carry:
    the sign flip of the objective, the routing of constraint rows into
    [A_ub]/[b_ub]/[A_eq]/[b_eq], the translation of the solver result and the
    JSON persistence.

    Python floats are IEEE 754 binary64 values: [spec_float] of the Standard
    Library, unary minus being [SFopp].  Builtins of the language and of the
    libraries the code calls ([float], [int], [str.lower], [str.strip],
    [str.title], the [.6f] format and scipy's [linprog]) are the fields of
    the class [Runtime]; everything else is translated from the source. *)

From Stdlib Require Import ZArith List String Ascii Bool Lia.
From Stdlib Require Import Floats.SpecFloat DecimalString.
Import ListNotations.
Local Open Scope string_scope.
Local Open Scope list_scope.

Set Implicit Arguments.

(** ** Python values, exceptions and the exception-state monad *)

Module Py.

Definition float := spec_float.

(** Unary minus on a float: [-x]. *)
Definition neg (x : float) : float := SFopp x.

Inductive exn_kind :=
| ValueError | IndexError | KeyError | TypeError | EOFError
| FileNotFoundError | JSONDecodeError | SolverError.

(** An exception; [exn_msg] is what [str(e)] returns. *)
Record exn := Exn { exn_kind_of : exn_kind; exn_msg : string }.

Inductive result (A : Type) :=
| Ok (a : A)
| Raise (e : exn).
Arguments Ok {A} a.
Arguments Raise {A} e.

Definition rbind {A B} (r : result A) (k : A -> result B) : result B :=
  match r with
  | Ok a => k a
  | Raise e => Raise e
  end.

(** A method of an object with state [S]: it returns or raises, and the
    mutations made before a raise stay. *)
Definition M (S A : Type) := S -> result A * S.

Definition ret {S A} (a : A) : M S A := fun s => (Ok a, s).

Definition bind {S A B} (m : M S A) (k : A -> M S B) : M S B :=
  fun s => match m s with
           | (Ok a, s') => k a s'
           | (Raise e, s') => (Raise e, s')
           end.

Definition raise {S A} (e : exn) : M S A := fun s => (Raise e, s).

Definition lift {S A} (r : result A) : M S A := fun s => (r, s).

Definition gets {S A} (f : S -> A) : M S A := fun s => (Ok (f s), s).

Definition modify {S} (f : S -> S) : M S unit := fun s => (Ok tt, f s).

(** [try: body except Exception as e: handler(e)] *)
Definition try_except {S A} (body : M S A) (handler : exn -> M S A) : M S A :=
  fun s => match body s with
           | (Ok a, s') => (Ok a, s')
           | (Raise e, s') => handler e s'
           end.

(** [for x in xs: body(x)] *)
Fixpoint for_each {S X} (xs : list X) (body : X -> M S unit) : M S unit :=
  match xs with
  | [] => ret tt
  | x :: xs' => bind (body x) (fun _ => for_each xs' body)
  end.

(** [[f(x) for x in xs]] where [f] may raise. *)
Fixpoint map_result {X A} (f : X -> result A) (xs : list X) : result (list A) :=
  match xs with
  | [] => Ok []
  | x :: xs' =>
      rbind (f x) (fun a => rbind (map_result f xs') (fun l => Ok (a :: l)))
  end.

(** A loop that threads local variables [acc] through a fallible body. *)
Fixpoint fold_result {X A} (f : A -> X -> result A) (xs : list X) (acc : A)
  : result A :=
  match xs with
  | [] => Ok acc
  | x :: xs' => rbind (f acc x) (fun acc' => fold_result f xs' acc')
  end.

(** [range(n)]: empty when [n <= 0]. *)
Definition range (n : Z) : list nat := seq 0 (Z.to_nat n).

(** [enumerate(xs)] *)
Definition enumerate {A} (xs : list A) : list (nat * A) :=
  combine (seq 0 (List.length xs)) xs.

Definition index_error : exn := Exn IndexError "list index out of range".

(** [l[i]] for [0 <= i]. *)
Definition index {A} (l : list A) (i : nat) : result A :=
  match nth_error l i with
  | Some a => Ok a
  | None => Raise index_error
  end.

(** The list [l] with position [i] replaced ([l] itself out of range). *)
Fixpoint list_set {A} (i : nat) (v : A) (l : list A) : list A :=
  match l, i with
  | [], _ => []
  | _ :: t, O => v :: t
  | h :: t, S i' => h :: list_set i' v t
  end.

(** A loop of a method that threads local variables [acc]. *)
Fixpoint fold_M {S X A} (f : A -> X -> M S A) (xs : list X) (acc : A)
  : M S A :=
  match xs with
  | [] => ret acc
  | x :: xs' => bind (f acc x) (fun acc' => fold_M f xs' acc')
  end.

(** [open(name, 'w')] and a dump into it.  [os.listdir] gives the names in
    an order of its own; the model takes one such order: a file that exists
    keeps its place in the listing of the directory, a new one is listed
    last.  What is stated about a listing holds for the listing as it is
    found, or is stated for every listing of the same files. *)
Fixpoint write_file {C} (name : string) (content : C)
  (dir : list (string * C)) : list (string * C) :=
  match dir with
  | [] => [(name, content)]
  | (n, old) :: rest =>
      if n =? name then (n, content) :: rest
      else (n, old) :: write_file name content rest
  end.

Fixpoint read_file {C} (name : string) (dir : list (string * C)) : option C :=
  match dir with
  | [] => None
  | (n, content) :: rest =>
      if n =? name then Some content else read_file name rest
  end.

Definition nl : string := String (ascii_of_nat 10) EmptyString.

(** [s * n] *)
Fixpoint str_mul (s : string) (n : nat) : string :=
  match n with
  | O => ""
  | S n' => String.append s (str_mul s n')
  end.

(** [str(z)] for an int. *)
Definition str_of_int (z : Z) : string := NilZero.string_of_int (Z.to_int z).

(** [str(b)] for a bool. *)
Definition str_of_bool (b : bool) : string := if b then "True" else "False".

Definition startswith (p s : string) : bool := String.prefix p s.

Definition endswith (suf s : string) : bool :=
  let n := String.length s in
  let k := String.length suf in
  (k <=? n)%nat && (substring (n - k) k s =? suf).

Module Notations.
Declare Scope py_scope.
Delimit Scope py_scope with py.
(** String concatenation, [s + t] and the parts of an f-string. *)
Infix "+++" := String.append (right associativity, at level 60).
Notation "x <- m ;; k" := (bind m (fun x => k))
  (at level 61, m at next level, right associativity) : py_scope.
Notation "m ;; k" := (bind m (fun _ => k))
  (at level 61, right associativity) : py_scope.
Notation "x <~ r ;; k" := (rbind r (fun x => k))
  (at level 61, r at next level, right associativity) : py_scope.
End Notations.

End Py.

Import Py Py.Notations.

(** ** The external solver's interface *)

Definition matrix := list (list float).

(** The keyword arguments of [linprog(c, A_ub=, b_ub=, A_eq=, b_eq=, bounds=,
    method='highs')]; [None] is Python's [None]. *)
Record linprog_args := LinprogArgs {
  arg_c : list float;
  arg_A_ub : option matrix;
  arg_b_ub : option (list float);
  arg_A_eq : option matrix;
  arg_b_eq : option (list float);
  arg_bounds : list (Z * option Z)
}.

(** scipy's [OptimizeResult]; [x] and [fun] are [None] when there is no
    solution. *)
Record OptimizeResult := MkResult {
  res_success : bool;
  res_message : string;
  res_fun : option float;
  res_x : option (list float);
  res_nit : Z
}.

(** Builtins and library calls, taken as they are. *)
Class Runtime := {
  py_float : string -> result float;       (* float(s) *)
  py_int : string -> result Z;             (* int(s) *)
  str_lower : string -> string;            (* s.lower() *)
  str_strip : string -> string;            (* s.strip() *)
  str_title : string -> string;            (* s.title() *)
  format_6f : float -> string;             (* f"{v:.6f}" *)
  linprog : linprog_args -> result OptimizeResult
}.

(** ** The routing of one constraint, written twice in the source

    [if constraint_type == "<=": ... elif constraint_type == ">=": ...
    else: ...] of [LPSolverCLI.input_problem] and of
    [LinearProgrammingInterface.solve_problem]; the four lists are the
    locals [A_ub], [b_ub], [A_eq], [b_eq]. *)

Record rows := Rows {
  A_ub : matrix;
  b_ub : list float;
  A_eq : matrix;
  b_eq : list float
}.

Definition no_rows : rows := Rows [] [] [] [].

Definition route (acc : rows) (constraint_row : list float) (bound : float)
  (constraint_type : string) : rows :=
  if constraint_type =? "<=" then
    Rows (A_ub acc ++ [constraint_row]) (b_ub acc ++ [bound]) (A_eq acc) (b_eq acc)
  else if constraint_type =? ">=" then
    Rows (A_ub acc ++ [map neg constraint_row]) (b_ub acc ++ [neg bound])
         (A_eq acc) (b_eq acc)
  else
    Rows (A_ub acc) (b_ub acc) (A_eq acc ++ [constraint_row]) (b_eq acc ++ [bound]).

(** ** numpy

    An array is modelled by the nested list [tolist()] gives back.
    [np.array] accepts any list of floats and any list of rows of one
    length; rows of different lengths are refused with a [ValueError]. *)

Definition inhomogeneous (rows : nat) : exn :=
  Exn ValueError
    ("setting an array element with a sequence. The requested array has an inhomogeneous shape after 1 dimensions. The detected shape was ("
     +++ str_of_int (Z.of_nat rows) +++ ",) + inhomogeneous part.").

Definition rectangular (l : matrix) : bool :=
  match l with
  | [] => true
  | r :: rest =>
      forallb (fun r' => (List.length r' =? List.length r)%nat) rest
  end.

Definition np_array2 (l : matrix) : result matrix :=
  if rectangular l then Ok l else Raise (inhomogeneous (List.length l)).

Definition np_array1 (l : list float) : result (list float) := Ok l.

(** [np.array(A) if A else None] for a list of rows. *)
Definition array2_or_none (l : matrix) : result (option matrix) :=
  match l with
  | [] => Ok None
  | _ => rbind (np_array2 l) (fun a => Ok (Some a))
  end.

(** [np.array(b) if b else None] for a list of floats. *)
Definition array1_or_none (l : list float) : result (option (list float)) :=
  match l with
  | [] => Ok None
  | _ => rbind (np_array1 l) (fun a => Ok (Some a))
  end.

(** ** [linear_programming_interface.py]: class [LinearProgrammingInterface]

    The object's state is the content of its widgets: the two [tk.IntVar]s
    and the [tk.StringVar], the text of every entry and combobox, the
    results pane and the two summary labels.  Around it the model keeps what
    the methods do to the outside: the message boxes they open, the files of
    the working directory and the calls of [linprog].

    A persisted problem is the document [save_problem] builds; a file of the
    directory either holds such a document or is not JSON at all, and
    [json.dump] followed by [json.load] gives the document back. *)

Module LinearProgrammingInterface.

Inductive dialog_kind := showerror | showwarning | showinfo.

Record dialog := Dialog {
  dlg_kind : dialog_kind;
  dlg_title : string;
  dlg_text : string
}.

(** One element of ["constraints"]: [{"coeffs": .., "type": .., "bound": ..}]. *)
Record constraint_data := ConstraintData {
  coeffs : list string;
  type_ : string;
  bound : string
}.

Record problem_data := ProblemData {
  pd_num_variables : Z;
  pd_num_constraints : Z;
  pd_objective_type : string;
  pd_objective_coeffs : list string;
  pd_constraints : list constraint_data
}.

(** A file: text that [json.load] refuses with the message [err], or a
    problem document. *)
Inductive file_content :=
| NotJson (err : string)
| Json (d : problem_data).

Record app := App {
  num_variables : Z;
  num_constraints : Z;
  objective_type : string;
  obj_entries : list string;
  constraint_entries : list (list string);
  bound_entries : list string;
  type_combos : list string;
  results_text : string;
  optimal_value_label : string;
  status_label : string;
  dialogs : list dialog;
  directory : list (string * file_content);
  solver_calls : list linprog_args
}.

Definition set_num_variables (v : Z) (st : app) : app :=
  App v (num_constraints st) (objective_type st) (obj_entries st)
    (constraint_entries st) (bound_entries st) (type_combos st)
    (results_text st) (optimal_value_label st) (status_label st)
    (dialogs st) (directory st) (solver_calls st).

Definition set_num_constraints (v : Z) (st : app) : app :=
  App (num_variables st) v (objective_type st) (obj_entries st)
    (constraint_entries st) (bound_entries st) (type_combos st)
    (results_text st) (optimal_value_label st) (status_label st)
    (dialogs st) (directory st) (solver_calls st).

Definition set_objective_type (v : string) (st : app) : app :=
  App (num_variables st) (num_constraints st) v (obj_entries st)
    (constraint_entries st) (bound_entries st) (type_combos st)
    (results_text st) (optimal_value_label st) (status_label st)
    (dialogs st) (directory st) (solver_calls st).

Definition set_obj_entries (v : list string) (st : app) : app :=
  App (num_variables st) (num_constraints st) (objective_type st) v
    (constraint_entries st) (bound_entries st) (type_combos st)
    (results_text st) (optimal_value_label st) (status_label st)
    (dialogs st) (directory st) (solver_calls st).

Definition set_constraint_entries (v : list (list string)) (st : app) : app :=
  App (num_variables st) (num_constraints st) (objective_type st)
    (obj_entries st) v (bound_entries st) (type_combos st)
    (results_text st) (optimal_value_label st) (status_label st)
    (dialogs st) (directory st) (solver_calls st).

Definition set_bound_entries (v : list string) (st : app) : app :=
  App (num_variables st) (num_constraints st) (objective_type st)
    (obj_entries st) (constraint_entries st) v (type_combos st)
    (results_text st) (optimal_value_label st) (status_label st)
    (dialogs st) (directory st) (solver_calls st).

Definition set_type_combos (v : list string) (st : app) : app :=
  App (num_variables st) (num_constraints st) (objective_type st)
    (obj_entries st) (constraint_entries st) (bound_entries st) v
    (results_text st) (optimal_value_label st) (status_label st)
    (dialogs st) (directory st) (solver_calls st).

Definition set_results_text (v : string) (st : app) : app :=
  App (num_variables st) (num_constraints st) (objective_type st)
    (obj_entries st) (constraint_entries st) (bound_entries st)
    (type_combos st) v (optimal_value_label st) (status_label st)
    (dialogs st) (directory st) (solver_calls st).

Definition set_optimal_value_label (v : string) (st : app) : app :=
  App (num_variables st) (num_constraints st) (objective_type st)
    (obj_entries st) (constraint_entries st) (bound_entries st)
    (type_combos st) (results_text st) v (status_label st)
    (dialogs st) (directory st) (solver_calls st).

Definition set_status_label (v : string) (st : app) : app :=
  App (num_variables st) (num_constraints st) (objective_type st)
    (obj_entries st) (constraint_entries st) (bound_entries st)
    (type_combos st) (results_text st) (optimal_value_label st) v
    (dialogs st) (directory st) (solver_calls st).

Definition set_dialogs (v : list dialog) (st : app) : app :=
  App (num_variables st) (num_constraints st) (objective_type st)
    (obj_entries st) (constraint_entries st) (bound_entries st)
    (type_combos st) (results_text st) (optimal_value_label st)
    (status_label st) v (directory st) (solver_calls st).

Definition set_directory (v : list (string * file_content)) (st : app) : app :=
  App (num_variables st) (num_constraints st) (objective_type st)
    (obj_entries st) (constraint_entries st) (bound_entries st)
    (type_combos st) (results_text st) (optimal_value_label st)
    (status_label st) (dialogs st) v (solver_calls st).

Definition set_solver_calls (v : list linprog_args) (st : app) : app :=
  App (num_variables st) (num_constraints st) (objective_type st)
    (obj_entries st) (constraint_entries st) (bound_entries st)
    (type_combos st) (results_text st) (optimal_value_label st)
    (status_label st) (dialogs st) (directory st) v.

(** [messagebox.showerror(title, text)] and its siblings. *)
Definition messagebox (k : dialog_kind) (title text : string) : M app unit :=
  modify (fun st => set_dialogs (dialogs st ++ [Dialog k title text]) st).

(** [update_problem_size]: every widget is destroyed and created again with
    its default text, one objective entry per variable and one row, one
    combobox and one bound entry per constraint. *)
Definition update_problem_size : M app unit :=
  modify (fun st =>
    let new_obj := map (fun _ => "1") (range (num_variables st)) in
    let st := set_obj_entries new_obj st in
    let new_rows :=
      map (fun _ => map (fun _ => "1") (range (num_variables st)))
          (range (num_constraints st)) in
    let new_types := map (fun _ => "<=") (range (num_constraints st)) in
    let new_bounds := map (fun _ => "0") (range (num_constraints st)) in
    set_bound_entries new_bounds
      (set_type_combos new_types (set_constraint_entries new_rows st))).

Section WithRuntime.
Context {RT : Runtime}.

(** *** [solve_problem] *)

(** Lines 224-230: the objective entries, negated for ["maximize"]. *)
Definition read_objective (st : app) : result (list float) :=
  (c <~ map_result py_float (obj_entries st) ;;
   Ok (if objective_type st =? "maximize" then map neg c else c))%py.

(** Lines 239-244: what one turn of the loop reads for constraint [i]. *)
Definition read_constraint (st : app) (i : nat)
  : result (list float * float * string) :=
  (constraint_row <~
     map_result (fun j =>
                   r <~ index (constraint_entries st) i ;;
                   e <~ index r j ;;
                   py_float e)
                (range (num_variables st)) ;;
   b <~ index (bound_entries st) i ;;
   bound_value <~ py_float b ;;
   constraint_type <~ index (type_combos st) i ;;
   Ok (constraint_row, bound_value, constraint_type))%py.

(** Lines 233-254: the loop over [range(self.num_constraints.get())]. *)
Definition read_constraints (st : app) : result rows :=
  fold_result
    (fun acc i =>
       (rbt <~ read_constraint st i ;;
        let '(constraint_row, bound_value, constraint_type) := rbt in
        Ok (route acc constraint_row bound_value constraint_type))%py)
    (range (num_constraints st)) no_rows.

(** Lines 223-264: everything up to the call, that is the arguments
    [linprog] is called with when no read raises. *)
Definition solver_input (st : app) : result linprog_args :=
  (c <~ read_objective st ;;
   acc <~ read_constraints st ;;
   A_ub' <~ array2_or_none (A_ub acc) ;;
   b_ub' <~ array1_or_none (b_ub acc) ;;
   A_eq' <~ array2_or_none (A_eq acc) ;;
   b_eq' <~ array1_or_none (b_eq acc) ;;
   Ok (LinprogArgs c A_ub' b_ub' A_eq' b_eq'
         (map (fun _ => (0%Z, None)) (seq 0 (List.length c)))))%py.

Definition call_linprog (args : linprog_args) : M app OptimizeResult :=
  fun st => (linprog args, set_solver_calls (solver_calls st ++ [args]) st).

Definition none_negated : exn :=
  Exn TypeError "bad operand type for unary -: 'NoneType'".
Definition none_formatted : exn :=
  Exn TypeError "unsupported format string passed to NoneType.__format__".
Definition none_iterated : exn :=
  Exn TypeError "'NoneType' object is not iterable".

(** One line of the solution, [f"  x{i+1} = {value:.6f}\n"]. *)
Definition solution_line (iv : nat * float) : string :=
  "  x" +++ str_of_int (Z.of_nat (fst iv) + 1) +++ " = "
  +++ format_6f (snd iv) +++ nl.

(** *** [display_results] *)
Definition display_results (result : OptimizeResult) (c : list float)
  : M app unit :=
  (modify (set_results_text "") ;;
   let results_str := "LINEAR PROGRAMMING SOLUTION" +++ nl in
   let results_str := results_str +++ str_mul "=" 50 +++ nl +++ nl in
   results_str <-
     (if res_success result then
        let results_str :=
          results_str +++ "Status: " +++ res_message result +++ nl +++ nl in
        ty <- gets objective_type ;;
        optimal_value <-
          lift match res_fun result with
               | Some v => Ok (if ty =? "maximize" then neg v else v)
               | None =>
                   Raise (if ty =? "maximize" then none_negated
                          else none_formatted)
               end ;;
        let results_str :=
          results_str +++ "Optimal " +++ str_title ty +++ " Value: "
          +++ format_6f optimal_value +++ nl +++ nl in
        let results_str := results_str +++ "Optimal Solution:" +++ nl in
        xs <- lift match res_x result with
                   | Some xs => Ok xs
                   | None => Raise none_iterated
                   end ;;
        let results_str :=
          fold_left (fun s iv => s +++ solution_line iv) (enumerate xs)
                    results_str in
        let results_str :=
          results_str +++ nl +++ "Number of iterations: "
          +++ str_of_int (res_nit result) +++ nl in
        modify (set_optimal_value_label
                  ("Optimal Value: " +++ format_6f optimal_value)) ;;
        modify (set_status_label ("Status: " +++ res_message result)) ;;
        ret results_str
      else
        let results_str :=
          results_str +++ "Status: " +++ res_message result +++ nl in
        let results_str :=
          results_str +++ "The problem could not be solved." +++ nl in
        let results_str := results_str +++ "This might be due to:" +++ nl in
        let results_str := results_str +++ "- Infeasible constraints" +++ nl in
        let results_str := results_str +++ "- Unbounded solution" +++ nl in
        let results_str := results_str +++ "- Numerical issues" +++ nl in
        modify (set_optimal_value_label "Optimal Value: No solution") ;;
        modify (set_status_label ("Status: " +++ res_message result)) ;;
        ret results_str) ;;
   modify (fun st => set_results_text (results_text st +++ results_str) st))%py.

Definition solve_problem : M app unit :=
  try_except
    (st <- gets (fun st => st) ;;
     args <- lift (solver_input st) ;;
     result <- call_linprog args ;;
     display_results result (arg_c args))%py
    (fun e => messagebox showerror "Error"
                ("Error solving problem: " +++ exn_msg e)).

End WithRuntime.

(** *** [save_problem] *)

(** Lines 390-394: the dict built for constraint [i]. *)
Definition constraint_to_save (st : app) (i : nat) : result constraint_data :=
  (row <~ index (constraint_entries st) i ;;
   ty <~ index (type_combos st) i ;;
   b <~ index (bound_entries st) i ;;
   Ok (ConstraintData row ty b))%py.

Definition problem_to_save (st : app) : result problem_data :=
  (cs <~ map_result (constraint_to_save st) (range (num_constraints st)) ;;
   Ok (ProblemData (num_variables st) (num_constraints st)
         (objective_type st) (obj_entries st) cs))%py.

Definition save_filename (st : app) : string :=
  "lp_problem_" +++ str_of_int (num_variables st) +++ "vars_"
  +++ str_of_int (num_constraints st) +++ "cons.json".

Definition save_problem : M app unit :=
  try_except
    (st <- gets (fun st => st) ;;
     problem_data <- lift (problem_to_save st) ;;
     let filename := save_filename st in
     modify (fun st =>
               set_directory
                 (write_file filename (Json problem_data) (directory st)) st) ;;
     messagebox showinfo "Success" ("Problem saved as " +++ filename))%py
    (fun e => messagebox showerror "Error"
                ("Error saving problem: " +++ exn_msg e)).

(** *** [load_problem] *)

(** [json.load] of the file [filename]. *)
Definition json_load (filename : string) (dir : list (string * file_content))
  : result problem_data :=
  match read_file filename dir with
  | Some (Json d) => Ok d
  | Some (NotJson err) => Raise (Exn JSONDecodeError err)
  | None =>
      Raise (Exn FileNotFoundError
               ("[Errno 2] No such file or directory: '" +++ filename +++ "'"))
  end.

(** [self.obj_entries[i].delete(0, tk.END); self.obj_entries[i].insert(0, v)] *)
Definition set_obj_entry (i : nat) (v : string) : M app unit :=
  fun st =>
    match nth_error (obj_entries st) i with
    | Some _ => (Ok tt, set_obj_entries (list_set i v (obj_entries st)) st)
    | None => (Raise index_error, st)
    end.

Definition set_constraint_entry (i j : nat) (v : string) : M app unit :=
  fun st =>
    match nth_error (constraint_entries st) i with
    | Some row =>
        match nth_error row j with
        | Some _ =>
            (Ok tt,
             set_constraint_entries
               (list_set i (list_set j v row) (constraint_entries st)) st)
        | None => (Raise index_error, st)
        end
    | None => (Raise index_error, st)
    end.

Definition set_type_combo (i : nat) (v : string) : M app unit :=
  fun st =>
    match nth_error (type_combos st) i with
    | Some _ => (Ok tt, set_type_combos (list_set i v (type_combos st)) st)
    | None => (Raise index_error, st)
    end.

Definition set_bound_entry (i : nat) (v : string) : M app unit :=
  fun st =>
    match nth_error (bound_entries st) i with
    | Some _ => (Ok tt, set_bound_entries (list_set i v (bound_entries st)) st)
    | None => (Raise index_error, st)
    end.

(** Lines 433-439: the body of the loop over the saved constraints. *)
Definition load_constraint (ic : nat * constraint_data) : M app unit :=
  (let '(i, constraint) := ic in
   for_each (enumerate (coeffs constraint))
     (fun jc => set_constraint_entry i (fst jc) (snd jc)) ;;
   set_type_combo i (type_ constraint) ;;
   set_bound_entry i (bound constraint))%py.

Definition is_saved_problem (f : string) : bool :=
  endswith ".json" f && startswith "lp_problem" f.

Definition load_problem : M app unit :=
  try_except
    (dir <- gets directory ;;
     let json_files := filter is_saved_problem (map fst dir) in
     match json_files with
     | [] => messagebox showwarning "Warning" "No saved problems found"
     | filename :: _ =>
         problem_data <- lift (json_load filename dir) ;;
         modify (set_num_variables (pd_num_variables problem_data)) ;;
         modify (set_num_constraints (pd_num_constraints problem_data)) ;;
         modify (set_objective_type (pd_objective_type problem_data)) ;;
         update_problem_size ;;
         for_each (enumerate (pd_objective_coeffs problem_data))
           (fun ic => set_obj_entry (fst ic) (snd ic)) ;;
         for_each (enumerate (pd_constraints problem_data)) load_constraint ;;
         messagebox showinfo "Success" ("Problem loaded from " +++ filename)
     end)%py
    (fun e => messagebox showerror "Error"
                ("Error loading problem: " +++ exn_msg e)).

(** The problem the form holds: everything [save_problem] writes. *)
Definition form (st : app)
  : Z * Z * string * list string * list (list string) * list string
    * list string :=
  (num_variables st, num_constraints st, objective_type st, obj_entries st,
   constraint_entries st, type_combos st, bound_entries st).

End LinearProgrammingInterface.

(** ** [lp_solver_cli.py]: class [LPSolverCLI]

    [self.problem] is a dict with at most the seven keys [input_problem]
    stores; a field is [None] when its key is absent, and the four array
    fields hold [Some None] for Python's [None].  The same record describes
    a persisted document, where the arrays are nested lists.  The lines the
    user types are [stdin], every [print] and every prompt adds one element
    to [stdout]. *)

Module LPSolverCLI.

Record problem_dict := ProblemDict {
  p_maximize : option bool;
  p_c : option (list float);
  p_A_ub : option (option matrix);
  p_b_ub : option (option (list float));
  p_A_eq : option (option matrix);
  p_b_eq : option (option (list float));
  p_num_vars : option Z
}.

(** [{}] *)
Definition empty_problem : problem_dict :=
  ProblemDict None None None None None None None.

Inductive file_content :=
| NotJson (err : string)
| Json (d : problem_dict).

Record cli := Cli {
  problem : problem_dict;
  stdin : list string;
  stdout : list string;
  directory : list (string * file_content);
  solver_calls : list linprog_args
}.

Definition set_problem (v : problem_dict) (w : cli) : cli :=
  Cli v (stdin w) (stdout w) (directory w) (solver_calls w).

Definition set_stdin (v : list string) (w : cli) : cli :=
  Cli (problem w) v (stdout w) (directory w) (solver_calls w).

Definition set_stdout (v : list string) (w : cli) : cli :=
  Cli (problem w) (stdin w) v (directory w) (solver_calls w).

Definition set_directory (v : list (string * file_content)) (w : cli) : cli :=
  Cli (problem w) (stdin w) (stdout w) v (solver_calls w).

Definition set_solver_calls (v : list linprog_args) (w : cli) : cli :=
  Cli (problem w) (stdin w) (stdout w) (directory w) v.

(** [self.problem['maximize'] = v] *)
Definition store_maximize (v : bool) (p : problem_dict) : problem_dict :=
  ProblemDict (Some v) (p_c p) (p_A_ub p) (p_b_ub p) (p_A_eq p) (p_b_eq p)
    (p_num_vars p).

(** [self.problem.update({'c': .., 'A_ub': .., 'b_ub': .., 'A_eq': ..,
    'b_eq': .., 'num_vars': ..})] *)
Definition update_problem (c : list float) (A_ub' : option matrix)
  (b_ub' : option (list float)) (A_eq' : option matrix)
  (b_eq' : option (list float)) (num_vars : Z) (p : problem_dict)
  : problem_dict :=
  ProblemDict (p_maximize p) (Some c) (Some A_ub') (Some b_ub') (Some A_eq')
    (Some b_eq') (Some num_vars).

Definition print (s : string) : M cli unit :=
  modify (fun w => set_stdout (stdout w ++ [s]) w).

(** [input(prompt)]: the prompt is written, then one line is read. *)
Definition input (prompt : string) : M cli string :=
  fun w =>
    let w := set_stdout (stdout w ++ [prompt]) w in
    match stdin w with
    | [] => (Raise (Exn EOFError "EOF when reading a line"), w)
    | line :: rest => (Ok line, set_stdin rest w)
    end.

Definition key_error (k : string) : exn := Exn KeyError ("'" +++ k +++ "'").

(** [self.problem[k]] *)
Definition getitem {A} (k : string) (field : problem_dict -> option A)
  : M cli A :=
  fun w =>
    match field (problem w) with
    | Some v => (Ok v, w)
    | None => (Raise (key_error k), w)
    end.

Section WithRuntime.
Context {RT : Runtime}.

(** Lines 31-33 and 52-54: [n] coefficients read one by one; [indent] is
    the prefix of the prompt. *)
Definition input_coefficients (indent : string) (num_vars : Z)
  : M cli (list float) :=
  fold_M
    (fun coeffs i =>
       (s <- input (indent +++ "Coefficient for x"
                    +++ str_of_int (Z.of_nat i + 1) +++ ": ") ;;
        coeff <- lift (py_float s) ;;
        ret (coeffs ++ [coeff]))%py)
    (range num_vars) [].

(** Lines 50-67: one turn of the loop over the constraints. *)
Definition input_constraint (num_vars : Z) (acc : rows) (i : nat)
  : M cli rows :=
  (print (nl +++ "Constraint " +++ str_of_int (Z.of_nat i + 1) +++ ":") ;;
   constraint_coeffs <- input_coefficients "  " num_vars ;;
   s <- input "  Constraint type (<=, >=, =): " ;;
   let constraint_type := str_strip s in
   s <- input "  Right-hand side value: " ;;
   bound <- lift (py_float s) ;;
   ret (route acc constraint_coeffs bound constraint_type))%py.

(** *** [input_problem] *)
Definition input_problem : M cli unit :=
  (print (str_mul "=" 50) ;;
   print "LINEAR PROGRAMMING SOLVER - PINK WINNERS" ;;
   print (str_mul "=" 50) ;;
   s <- input "Enter number of variables: " ;;
   num_vars <- lift (py_int s) ;;
   s <- input "Enter number of constraints: " ;;
   num_constraints <- lift (py_int s) ;;
   print (nl +++ "Objective Function:") ;;
   s <- input "Maximize or Minimize? (max/min): " ;;
   let obj_type := str_lower s in
   print "Enter coefficients for objective function:" ;;
   c <- input_coefficients "" num_vars ;;
   c <- (if startswith "max" obj_type then
           modify (fun w => set_problem (store_maximize true (problem w)) w) ;;
           ret (map neg c)
         else
           modify (fun w => set_problem (store_maximize false (problem w)) w) ;;
           ret c) ;;
   print (nl +++ "Constraints:") ;;
   acc <- fold_M (input_constraint num_vars) (range num_constraints) no_rows ;;
   A_ub' <- lift (array2_or_none (A_ub acc)) ;;
   b_ub' <- lift (array1_or_none (b_ub acc)) ;;
   A_eq' <- lift (array2_or_none (A_eq acc)) ;;
   b_eq' <- lift (array1_or_none (b_eq acc)) ;;
   modify (fun w =>
             set_problem
               (update_problem c A_ub' b_ub' A_eq' b_eq' num_vars (problem w))
               w))%py.

Definition call_linprog (args : linprog_args) : M cli OptimizeResult :=
  fun w => (linprog args, set_solver_calls (solver_calls w ++ [args]) w).

Definition none_negated : exn :=
  Exn TypeError "bad operand type for unary -: 'NoneType'".
Definition none_formatted : exn :=
  Exn TypeError "unsupported format string passed to NoneType.__format__".
Definition none_iterated : exn :=
  Exn TypeError "'NoneType' object is not iterable".

(** The float [1e-10]. *)
Definition tiny : float := S754_finite false 7737125245533627 (-86).

(** [x >= -1e-10] *)
Definition not_negative (x : float) : bool := SFleb (neg tiny) x.

(** One line of the solution, [f"  x{i+1} = {value:.6f}"]. *)
Definition solution_line (iv : nat * float) : string :=
  "  x" +++ str_of_int (Z.of_nat (fst iv) + 1) +++ " = "
  +++ format_6f (snd iv).

(** *** [display_results] *)
Definition display_results (result : OptimizeResult) : M cli unit :=
  (print (nl +++ str_mul "=" 50) ;;
   print "SOLUTION RESULTS" ;;
   print (str_mul "=" 50) ;;
   if res_success result then
     print ("Status: " +++ res_message result) ;;
     print ("Iterations: " +++ str_of_int (res_nit result)) ;;
     let optimal_value := res_fun result in
     maximize <- getitem "maximize" p_maximize ;;
     optimal_value <-
       (if maximize : bool then
          lift match optimal_value with
               | Some v => Ok (Some (neg v))
               | None => Raise none_negated
               end
        else ret optimal_value) ;;
     maximize <- getitem "maximize" p_maximize ;;
     let obj_type := if maximize : bool then "Maximum" else "Minimum" in
     value_text <- lift match optimal_value with
                        | Some v => Ok (format_6f v)
                        | None => Raise none_formatted
                        end ;;
     print (nl +++ obj_type +++ " Value: " +++ value_text) ;;
     print (nl +++ "Optimal Solution:") ;;
     xs <- lift match res_x result with
                | Some xs => Ok xs
                | None => Raise none_iterated
                end ;;
     for_each (enumerate xs) (fun iv => print (solution_line iv)) ;;
     print (nl +++ "Solution Analysis:") ;;
     print ("  - All variables are non-negative: "
            +++ str_of_bool (forallb not_negative xs)) ;;
     print "  - Solution is at vertex of feasible region"
   else
     print ("Status: " +++ res_message result) ;;
     print (nl +++ "The problem could not be solved.") ;;
     print "Possible reasons:" ;;
     print "  - Infeasible constraints (no solution exists)" ;;
     print "  - Unbounded solution (infinite optimal value)" ;;
     print "  - Numerical issues")%py.

(** *** [solve] *)
Definition solve : M cli unit :=
  (print (nl +++ str_mul "=" 50) ;;
   print "SOLVING..." ;;
   print (str_mul "=" 50) ;;
   try_except
     (num_vars <- getitem "num_vars" p_num_vars ;;
      let bounds := map (fun _ => (0%Z, @None Z)) (range num_vars) in
      c <- getitem "c" p_c ;;
      A_ub' <- getitem "A_ub" p_A_ub ;;
      b_ub' <- getitem "b_ub" p_b_ub ;;
      A_eq' <- getitem "A_eq" p_A_eq ;;
      b_eq' <- getitem "b_eq" p_b_eq ;;
      result <- call_linprog (LinprogArgs c A_ub' b_ub' A_eq' b_eq' bounds) ;;
      display_results result)
     (fun e => print ("Error solving problem: " +++ exn_msg e)))%py.

End WithRuntime.

(** *** [save_problem]

    Every array is replaced by its [tolist()], which the model identifies
    with it, so the document written is the dict itself.  The file name is
    any path the caller gives, and [open(filename, 'w')] is taken as it is:
    the operating system opens the path for writing, or it raises (a
    directory that does not exist, a path that is a directory, a missing
    permission) and nothing is written. *)
Class Files := {
  open_w : string -> result unit           (* open(filename, 'w') *)
}.

Definition save_problem {FS : Files} (filename : string) : M cli unit :=
  try_except
    (save_data <- gets problem ;;
     lift (open_w filename) ;;
     modify (fun w =>
               set_directory
                 (write_file filename (Json save_data) (directory w)) w) ;;
     print ("Problem saved to " +++ filename))%py
    (fun e => print ("Error saving problem: " +++ exn_msg e)).

(** [json.load] of the file [filename]. *)
Definition json_load (filename : string) (dir : list (string * file_content))
  : result problem_dict :=
  match read_file filename dir with
  | Some (Json d) => Ok d
  | Some (NotJson err) => Raise (Exn JSONDecodeError err)
  | None =>
      Raise (Exn FileNotFoundError
               ("[Errno 2] No such file or directory: '" +++ filename +++ "'"))
  end.

(** [if data.get(key) is not None: data[key] = np.array(data[key])] *)
Definition to_array {A} (np_array : A -> result A) (v : option (option A))
  : result (option (option A)) :=
  match v with
  | Some (Some l) => rbind (np_array l) (fun a => Ok (Some (Some a)))
  | _ => Ok v
  end.

(** Lines 165-167: the four conversions, in the order of the loop. *)
Definition arrays_of_lists (data : problem_dict) : result problem_dict :=
  (A_ub' <~ to_array np_array2 (p_A_ub data) ;;
   b_ub' <~ to_array np_array1 (p_b_ub data) ;;
   A_eq' <~ to_array np_array2 (p_A_eq data) ;;
   b_eq' <~ to_array np_array1 (p_b_eq data) ;;
   Ok (ProblemDict (p_maximize data) (p_c data) A_ub' b_ub' A_eq' b_eq'
         (p_num_vars data)))%py.

(** *** [load_problem] *)
Definition load_problem (filename : string) : M cli unit :=
  try_except
    (dir <- gets directory ;;
     data <- lift (json_load filename dir) ;;
     data <- lift (arrays_of_lists data) ;;
     modify (set_problem data) ;;
     print ("Problem loaded from " +++ filename))%py
    (fun e => print ("Error loading problem: " +++ exn_msg e)).

End LPSolverCLI.

(** ** Notions the statements are written with *)

(** A constraint as the loop has read it: coefficients, bound and the
    operator string. *)
Definition constraint : Type := list float * float * string.

Definition coefficients_of (k : constraint) : list float := fst (fst k).
Definition bound_of (k : constraint) : float := snd (fst k).
Definition operator_of (k : constraint) : string := snd k.

Definition route_step (acc : rows) (k : constraint) : rows :=
  route acc (coefficients_of k) (bound_of k) (operator_of k).

(** The four lists after the loop has routed [cs], first to last. *)
Definition normalize (cs : list constraint) : rows :=
  fold_left route_step cs no_rows.

(** The operators routed to [A_ub]/[b_ub]. *)
Definition is_inequality (op : string) : bool := (op =? "<=") || (op =? ">=").

(** The operators of the data model. *)
Definition valid_operator (op : string) : bool :=
  (op =? "<=") || (op =? ">=") || (op =? "=").

(** [None] for the empty list, the list itself otherwise. *)
Definition present {A} (l : list A) : option (list A) :=
  match l with
  | [] => None
  | _ => Some l
  end.

(** What a constraint contributes to [A_ub]/[b_ub]: nothing, or one row
    with its bound. *)
Definition ub_row (k : constraint) : list (list float * float) :=
  if operator_of k =? "<=" then [(coefficients_of k, bound_of k)]
  else if operator_of k =? ">=" then
    [(map neg (coefficients_of k), neg (bound_of k))]
  else [].

(** What a constraint contributes to [A_eq]/[b_eq]. *)
Definition eq_row (k : constraint) : list (list float * float) :=
  if is_inequality (operator_of k) then []
  else [(coefficients_of k, bound_of k)].

(** The lines typed for one constraint at the command line: the
    coefficients, the operator, the right-hand side. *)
Definition typed_constraint : Type := list string * string * string.

Definition typed_coefficients (k : typed_constraint) : list string :=
  fst (fst k).
Definition typed_operator (k : typed_constraint) : string := snd (fst k).
Definition typed_bound (k : typed_constraint) : string := snd k.

Definition constraint_lines (k : typed_constraint) : list string :=
  typed_coefficients k ++ [typed_operator k; typed_bound k].

(** The arguments the form's solver call gets, as a function of the
    objective coefficients and the constraints read. *)
Definition arguments (st : LinearProgrammingInterface.app)
  (objective : list float) (cs : list constraint) : linprog_args :=
  let c :=
    if LinearProgrammingInterface.objective_type st =? "maximize"
    then map neg objective else objective in
  LinprogArgs c
    (present (A_ub (normalize cs))) (present (b_ub (normalize cs)))
    (present (A_eq (normalize cs))) (present (b_eq (normalize cs)))
    (map (fun _ => (0%Z, None)) (seq 0 (List.length c))).

(** The constraint [input_problem] makes of those lines. *)
Definition parse_typed_constraint {RT : Runtime} (k : typed_constraint)
  : result constraint :=
  (row <~ map_result py_float (typed_coefficients k) ;;
   b <~ py_float (typed_bound k) ;;
   Ok (row, b, str_strip (typed_operator k)))%py.

(** ** A runtime to run the model on examples

    [float] and [int] of decimal integer literals, ASCII [lower], [strip]
    and [title], the [.6f] format by exact rounding to the nearest, ties to
    even, and a solver that knows the production-planning example of
    [test_solver.py], whose optimum is 3 * 20 + 2 * 60 = 180 at (20, 60),
    and refuses shapes that do not fit, as scipy does. *)

Module Sample.

Definition float_of_Z (z : Z) : float := binary_normalize 53 1024 z 0 false.

Definition digits_of (s : string) : option Z :=
  match s with
  | "" => None
  | _ => option_map Z.of_uint (NilEmpty.uint_of_string s)
  end.

Definition sample_float (s : string) : result float :=
  let bad :=
    Raise (Exn ValueError ("could not convert string to float: '" +++ s +++ "'"))
  in
  match s with
  | String "-" rest =>
      match digits_of rest with
      | Some z => Ok (neg (float_of_Z z))
      | None => bad
      end
  | _ =>
      match digits_of s with
      | Some z => Ok (float_of_Z z)
      | None => bad
      end
  end.

Definition sample_int (s : string) : result Z :=
  let bad :=
    Raise (Exn ValueError
             ("invalid literal for int() with base 10: '" +++ s +++ "'"))
  in
  match s with
  | String "-" rest =>
      match digits_of rest with
      | Some z => Ok (- z)%Z
      | None => bad
      end
  | _ =>
      match digits_of s with
      | Some z => Ok z
      | None => bad
      end
  end.

Definition is_upper (a : ascii) : bool :=
  let n := nat_of_ascii a in (65 <=? n)%nat && (n <=? 90)%nat.
Definition is_lower (a : ascii) : bool :=
  let n := nat_of_ascii a in (97 <=? n)%nat && (n <=? 122)%nat.
Definition is_space (a : ascii) : bool :=
  let n := nat_of_ascii a in ((9 <=? n)%nat && (n <=? 13)%nat) || (n =? 32)%nat.
Definition to_lower (a : ascii) : ascii :=
  if is_upper a then ascii_of_nat (nat_of_ascii a + 32) else a.
Definition to_upper (a : ascii) : ascii :=
  if is_lower a then ascii_of_nat (nat_of_ascii a - 32) else a.

Fixpoint sample_lower (s : string) : string :=
  match s with
  | EmptyString => EmptyString
  | String a t => String (to_lower a) (sample_lower t)
  end.

Fixpoint lstrip (s : string) : string :=
  match s with
  | EmptyString => EmptyString
  | String a t => if is_space a then lstrip t else s
  end.

Fixpoint rstrip (s : string) : string :=
  match s with
  | EmptyString => EmptyString
  | String a t =>
      match rstrip t with
      | EmptyString => if is_space a then EmptyString else String a EmptyString
      | t' => String a t'
      end
  end.

Definition sample_strip (s : string) : string := rstrip (lstrip s).

Fixpoint title_from (in_word : bool) (s : string) : string :=
  match s with
  | EmptyString => EmptyString
  | String a t =>
      let letter := is_upper a || is_lower a in
      String (if in_word then to_lower a else to_upper a) (title_from letter t)
  end.

Definition sample_title (s : string) : string := title_from false s.

(** [s.rjust(n, "0")] *)
Definition pad_left (n : nat) (s : string) : string :=
  str_mul "0" (n - String.length s) +++ s.

(** [n / 10^6] with six decimals, for [0 <= n]. *)
Definition fixed6 (n : Z) : string :=
  str_of_int (n / 1000000) +++ "."
  +++ pad_left 6 (str_of_int (n mod 1000000)).

(** The integer nearest to [num / den], ties to even, for [0 < den]. *)
Definition round_half_even (num den : Z) : Z :=
  let q := (num / den)%Z in
  let r := (num mod den)%Z in
  match (2 * r ?= den)%Z with
  | Lt => q
  | Gt => (q + 1)%Z
  | Eq => if Z.even q then q else (q + 1)%Z
  end.

Definition sample_format_6f (v : float) : string :=
  match v with
  | S754_zero s => (if s then "-" else "") +++ "0.000000"
  | S754_infinity s => if s then "-inf" else "inf"
  | S754_nan => "nan"
  | S754_finite s m e =>
      let scaled :=
        match e with
        | Zneg p => round_half_even (Zpos m * 1000000) (2 ^ Zpos p)
        | _ => (Zpos m * 2 ^ e * 1000000)%Z
        end in
      (if s then "-" else "") +++ fixed6 scaled
  end.

Definition widths_fit (n : nat) (A : option matrix) (b : option (list float))
  : bool :=
  match A, b with
  | None, None => true
  | Some rows, Some bs =>
      forallb (fun r => (List.length r =? n)%nat) rows
      && (List.length rows =? List.length bs)%nat
  | _, _ => false
  end.

Definition production_c : list float := [float_of_Z (-3); float_of_Z (-2)].
Definition production_A : matrix :=
  [[float_of_Z 2; float_of_Z 1]; [float_of_Z 1; float_of_Z 1];
   [float_of_Z 1; float_of_Z 0]].
Definition production_b : list float :=
  [float_of_Z 100; float_of_Z 80; float_of_Z 40].

Definition float_eqb (a b : float) : bool :=
  match a, b with
  | S754_zero s, S754_zero t => Bool.eqb s t
  | S754_infinity s, S754_infinity t => Bool.eqb s t
  | S754_nan, S754_nan => true
  | S754_finite s m e, S754_finite t n f =>
      Bool.eqb s t && Pos.eqb m n && Z.eqb e f
  | _, _ => false
  end.

Fixpoint list_eqb {A} (eqb : A -> A -> bool) (l l' : list A) : bool :=
  match l, l' with
  | [], [] => true
  | a :: t, b :: t' => eqb a b && list_eqb eqb t t'
  | _, _ => false
  end.

Definition optimal : string :=
  "Optimization terminated successfully. (HiGHS Status 7: Optimal)".

Definition sample_linprog (args : linprog_args) : result OptimizeResult :=
  let n := List.length (arg_c args) in
  if negb (widths_fit n (arg_A_ub args) (arg_b_ub args)) then
    Raise (Exn ValueError
             "Invalid input for linprog: A_ub must have exactly two dimensions, and the number of columns in A_ub must be equal to the size of c")
  else if negb (widths_fit n (arg_A_eq args) (arg_b_eq args)) then
    Raise (Exn ValueError
             "Invalid input for linprog: A_eq must have exactly two dimensions, and the number of columns in A_eq must be equal to the size of c")
  else
    match arg_A_ub args, arg_b_ub args, arg_A_eq args with
    | Some A, Some b, None =>
        if list_eqb float_eqb (arg_c args) production_c
           && list_eqb (list_eqb float_eqb) A production_A
           && list_eqb float_eqb b production_b
        then Ok (MkResult true optimal (Some (float_of_Z (-180)))
                   (Some [float_of_Z 20; float_of_Z 60]) 2)
        else Raise (Exn SolverError "problem unknown to the sample solver")
    | _, _, _ => Raise (Exn SolverError "problem unknown to the sample solver")
    end.

#[export] Instance runtime : Runtime := {
  py_float := sample_float;
  py_int := sample_int;
  str_lower := sample_lower;
  str_strip := sample_strip;
  str_title := sample_title;
  format_6f := sample_format_6f;
  linprog := sample_linprog
}.

End Sample.

(** The dict [input_problem] leaves after the answer [ty] to the
    max/min question, the objective coefficients [objective], the
    constraints [cs] and [num_vars]. *)
Definition entered_problem (maximize : bool) (objective : list float)
  (cs : list constraint) (num_vars : Z) : LPSolverCLI.problem_dict :=
  LPSolverCLI.ProblemDict (Some maximize)
    (Some (if maximize then map neg objective else objective))
    (Some (present (A_ub (normalize cs)))) (Some (present (b_ub (normalize cs))))
    (Some (present (A_eq (normalize cs)))) (Some (present (b_eq (normalize cs))))
    (Some num_vars).

(** Everything typed for a whole problem, in the order of the prompts. *)
Definition script (num_vars num_constraints sense : string)
  (objective : list string) (constraints : list typed_constraint)
  : list string :=
  num_vars :: num_constraints :: sense :: objective
  ++ flat_map constraint_lines constraints.

(** Where the row of constraint [i] lands: the number of rows the
    constraints before it have put into [A_ub], respectively [A_eq]. *)
Definition ub_index (cs : list constraint) (i : nat) : nat :=
  List.length (flat_map ub_row (firstn i cs)).

Definition eq_index (cs : list constraint) (i : nat) : nat :=
  List.length (flat_map eq_row (firstn i cs)).

(** ** Example forms and sessions *)

Module Examples.
Import LinearProgrammingInterface.

(** The form after "Production Planning" of the examples tab. *)
Definition production_form : app :=
  App 2 3 "maximize" ["3"; "2"]
    [["2"; "1"]; ["1"; "1"]; ["1"; "0"]]
    ["100"; "80"; "40"] ["<="; "<="; "<="]
    "" "Optimal Value: Not solved yet" "Status: Not solved yet" [] [] [].

(** A minimization with one constraint of each operator and one whose
    combobox holds text that is no operator. *)
Definition mixed_form : app :=
  App 3 4 "minimize" ["2"; "3"; "1"]
    [["1"; "1"; "1"]; ["2"; "1"; "3"]; ["1"; "0"; "0"]; ["0"; "1"; "0"]]
    ["100"; "200"; "5"; "7"] [">="; "<="; "="; "=="]
    "" "Optimal Value: Not solved yet" "Status: Not solved yet" [] [] [].

(** A form with equality constraints only. *)
Definition equalities_form : app :=
  App 2 1 "minimize" ["1"; "1"] [["1"; "1"]] ["4"] ["="]
    "" "Optimal Value: Not solved yet" "Status: Not solved yet" [] [] [].

Definition production_lines : list string :=
  ["2"; "3"; "max"; "3"; "2";
   "2"; "1"; "<="; "100";
   "1"; "1"; "<="; "80";
   "1"; "0"; "<="; "40"].

Definition mixed_lines : list string :=
  ["3"; "4"; "min"; "2"; "3"; "1";
   "1"; "1"; "1"; " >= "; "100";
   "2"; "1"; "3"; "<="; "200";
   "1"; "0"; "0"; "="; "5";
   "0"; "1"; "0"; "=="; "7"].

(** A fresh command-line session whose user types [lines]. *)
Definition session (lines : list string) : LPSolverCLI.cli :=
  LPSolverCLI.Cli LPSolverCLI.empty_problem lines [] [] [].

Definition f (z : Z) : float := Sample.float_of_Z z.

Definition mixed_constraints : list constraint :=
  [([f 1; f 1; f 1], f 100, ">="); ([f 2; f 1; f 3], f 200, "<=");
   ([f 1; f 0; f 0], f 5, "="); ([f 0; f 1; f 0], f 7, "==")].

Definition production_constraints : list constraint :=
  [([f 2; f 1], f 100, "<="); ([f 1; f 1], f 80, "<=");
   ([f 1; f 0], f 40, "<=")].

Definition mixed_typed : list typed_constraint :=
  [(["1"; "1"; "1"], " >= ", "100"); (["2"; "1"; "3"], "<=", "200");
   (["1"; "0"; "0"], "=", "5"); (["0"; "1"; "0"], "==", "7")].

Definition production_typed : list typed_constraint :=
  [(["2"; "1"], "<=", "100"); (["1"; "1"], "<=", "80");
   (["1"; "0"], "<=", "40")].

End Examples.

(** ** What the command line prints and passes on *)

(** The lines a successful result prints, for the stored sense [mx]. *)
Definition success_lines {RT : Runtime} (result : OptimizeResult) (mx : bool) (v : float)
  (xs : list float) : list string :=
  [nl +++ str_mul "=" 50; "SOLUTION RESULTS"; str_mul "=" 50;
   "Status: " +++ res_message result;
   "Iterations: " +++ str_of_int (res_nit result);
   nl +++ (if mx then "Maximum" else "Minimum") +++ " Value: " +++ format_6f v;
   nl +++ "Optimal Solution:"]
  ++ map LPSolverCLI.solution_line (enumerate xs)
  ++ [nl +++ "Solution Analysis:";
      "  - All variables are non-negative: "
      +++ str_of_bool (forallb LPSolverCLI.not_negative xs);
      "  - Solution is at vertex of feasible region"].

Definition failure_lines (msg : string) : list string :=
  [nl +++ str_mul "=" 50; "SOLUTION RESULTS"; str_mul "=" 50;
   "Status: " +++ msg;
   nl +++ "The problem could not be solved.";
   "Possible reasons:";
   "  - Infeasible constraints (no solution exists)";
   "  - Unbounded solution (infinite optimal value)";
   "  - Numerical issues"].

(** The arguments [solve] passes: the stored values, as they are. *)
Definition stored_arguments (c : list float) (A_ub' : option matrix)
  (b_ub' : option (list float)) (A_eq' : option matrix)
  (b_eq' : option (list float)) (num_vars : Z) : linprog_args :=
  LinprogArgs c A_ub' b_ub' A_eq' b_eq'
    (map (fun _ => (0%Z, None)) (range num_vars)).

(** ** What the form shows *)





Module Results.


(** A successful result for the production-planning example: the
    minimized value [-180] at [x = (20, 60)]. *)
Definition production : OptimizeResult :=
  MkResult true Sample.optimal (Some (Sample.float_of_Z (-180)))
    (Some [Sample.float_of_Z 20; Sample.float_of_Z 60]) 2.




End Results.

(** ** Persistence *)

(** The widgets of the form agree with its two dimension variables: one
    objective entry per variable, one row, one combobox and one bound entry
    per constraint, one entry per variable in every row.  This is what
    [update_problem_size] establishes and what the data model asks of a
    linear program. *)
Definition consistent (st : LinearProgrammingInterface.app) : Prop :=
  LinearProgrammingInterface.num_variables st
  = Z.of_nat (List.length (LinearProgrammingInterface.obj_entries st)) /\
  LinearProgrammingInterface.num_constraints st
  = Z.of_nat (List.length (LinearProgrammingInterface.constraint_entries st)) /\
  List.length (LinearProgrammingInterface.type_combos st)
  = List.length (LinearProgrammingInterface.constraint_entries st) /\
  List.length (LinearProgrammingInterface.bound_entries st)
  = List.length (LinearProgrammingInterface.constraint_entries st) /\
  Forall (fun row =>
            List.length row
            = List.length (LinearProgrammingInterface.obj_entries st))
         (LinearProgrammingInterface.constraint_entries st).

(** The dimensions of a persisted document agree with its lists. *)
Definition consistent_document (d : LinearProgrammingInterface.problem_data)
  : Prop :=
  List.length (LinearProgrammingInterface.pd_objective_coeffs d)
  = Z.to_nat (LinearProgrammingInterface.pd_num_variables d) /\
  List.length (LinearProgrammingInterface.pd_constraints d)
  = Z.to_nat (LinearProgrammingInterface.pd_num_constraints d) /\
  Forall (fun k =>
            List.length (LinearProgrammingInterface.coeffs k)
            = Z.to_nat (LinearProgrammingInterface.pd_num_variables d))
         (LinearProgrammingInterface.pd_constraints d).

(** The document [save_problem] writes for a form. *)
Definition document (st : LinearProgrammingInterface.app)
  : LinearProgrammingInterface.problem_data :=
  LinearProgrammingInterface.ProblemData
    (LinearProgrammingInterface.num_variables st)
    (LinearProgrammingInterface.num_constraints st)
    (LinearProgrammingInterface.objective_type st)
    (LinearProgrammingInterface.obj_entries st)
    (map (fun i =>
            LinearProgrammingInterface.ConstraintData
              (nth i (LinearProgrammingInterface.constraint_entries st) [])
              (nth i (LinearProgrammingInterface.type_combos st) "")
              (nth i (LinearProgrammingInterface.bound_entries st) ""))
         (range (LinearProgrammingInterface.num_constraints st))).

(** The form after a document has been loaded into it whole. *)
Definition loaded (d : LinearProgrammingInterface.problem_data)
  (st : LinearProgrammingInterface.app) : LinearProgrammingInterface.app :=
  LinearProgrammingInterface.App
    (LinearProgrammingInterface.pd_num_variables d)
    (LinearProgrammingInterface.pd_num_constraints d)
    (LinearProgrammingInterface.pd_objective_type d)
    (LinearProgrammingInterface.pd_objective_coeffs d)
    (map LinearProgrammingInterface.coeffs
       (LinearProgrammingInterface.pd_constraints d))
    (map LinearProgrammingInterface.bound
       (LinearProgrammingInterface.pd_constraints d))
    (map LinearProgrammingInterface.type_
       (LinearProgrammingInterface.pd_constraints d))
    (LinearProgrammingInterface.results_text st)
    (LinearProgrammingInterface.optimal_value_label st)
    (LinearProgrammingInterface.status_label st)
    (LinearProgrammingInterface.dialogs st)
    (LinearProgrammingInterface.directory st)
    (LinearProgrammingInterface.solver_calls st).

(** The first file [load_problem] finds. *)
Definition first_saved_problem (st : LinearProgrammingInterface.app)
  : option string :=
  hd_error (filter LinearProgrammingInterface.is_saved_problem
              (map fst (LinearProgrammingInterface.directory st))).

(** A stored matrix is an array: its rows have one length. *)
Definition is_array (v : option (option matrix)) : Prop :=
  match v with
  | Some (Some rows) => rectangular rows = true
  | _ => True
  end.

Module Stored.

(** A command-line object holding the production-planning problem. *)
Definition production : LPSolverCLI.cli :=
  LPSolverCLI.Cli
    (entered_problem true [Examples.f 3; Examples.f 2]
       Examples.production_constraints 2)
    [] [] [] [].

End Stored.

(** ** Malformed input *)

Module Malformed.
Import LinearProgrammingInterface.

(** A persisted form problem that announces one variable and holds two
    objective coefficients. *)
Definition document : problem_data :=
  ProblemData 1 1 "minimize" ["5"; "6"] [ConstraintData ["1"] "<=" "4"].

(** The production-planning form, started in a directory that holds
    [document]. *)
Definition form_with_document : app :=
  App 2 3 "maximize" ["3"; "2"]
    [["2"; "1"]; ["1"; "1"]; ["1"; "0"]]
    ["100"; "80"; "40"] ["<="; "<="; "<="]
    "" "Optimal Value: Not solved yet" "Status: Not solved yet" []
    [("lp_problem_1vars_1cons.json", Json document)] [].

(** The same form in a directory whose saved problem is not JSON. *)
Definition form_with_garbage : app :=
  App 2 3 "maximize" ["3"; "2"]
    [["2"; "1"]; ["1"; "1"]; ["1"; "0"]]
    ["100"; "80"; "40"] ["<="; "<="; "<="]
    "" "Optimal Value: Not solved yet" "Status: Not solved yet" []
    [("lp_problem_2vars_3cons.json",
      NotJson "Expecting value: line 1 column 1 (char 0)")] [].

(** A form whose number of variables was typed over in the spinbox, which
    does not rebuild the widgets: one variable announced, two objective
    entries and two entries in the row. *)
Definition typed_over : app :=
  App 1 1 "minimize" ["1"; "2"] [["1"; "1"]] ["4"] ["<="]
    "" "Optimal Value: Not solved yet" "Status: Not solved yet" [] [] [].

(** A persisted command-line problem whose [c] has two entries and whose
    only row has three. *)
Definition dict : LPSolverCLI.problem_dict :=
  LPSolverCLI.ProblemDict (Some false)
    (Some [Examples.f 1; Examples.f 2])
    (Some (Some [[Examples.f 1; Examples.f 1; Examples.f 1]]))
    (Some (Some [Examples.f 5])) (Some None) (Some None) (Some 2%Z).

Definition session : LPSolverCLI.cli :=
  LPSolverCLI.Cli LPSolverCLI.empty_problem [] []
    [("mismatch.json", LPSolverCLI.Json dict)] [].

(** What [solve] is left with once [dict] is loaded. *)
Definition loaded_session : LPSolverCLI.cli :=
  LPSolverCLI.Cli dict [] ["Problem loaded from mismatch.json"]
    [("mismatch.json", LPSolverCLI.Json dict)] [].

Definition garbled_session : LPSolverCLI.cli :=
  LPSolverCLI.Cli
    (entered_problem true [Examples.f 3; Examples.f 2]
       Examples.production_constraints 2)
    [] []
    [("problem.json",
      LPSolverCLI.NotJson "Expecting value: line 1 column 1 (char 0)")] [].

End Malformed.

Module Entered.

(** The command-line object once the user of [Examples.mixed_lines] has
    answered every prompt of [input_problem]. *)
Definition mixed : LPSolverCLI.cli :=
  Eval vm_compute in
    snd (LPSolverCLI.input_problem (RT := Sample.runtime)
           (Examples.session Examples.mixed_lines)).

End Entered.

(** ** The rest of [linear_programming_interface.py]

    [clear_problem] and the four methods of the examples tab.  The examples
    tab has one more widget than the form, the description pane
    [example_desc]; a [window] is the form together with it, and a method of
    the form runs in a window by [on_form]. *)

Module Window.
Import LinearProgrammingInterface.

(** *** [clear_problem]

    Lines 361-377.  Nothing catches an exception here: the method is a
    button callback. *)



(** *** The examples tab *)

Record window := MkWindow {
  form_of : app;
  example_desc : string
}.

Definition on_form {A} (m : M app A) : M window A :=
  fun wd =>
    let (r, st) := m (form_of wd) in (r, MkWindow st (example_desc wd)).

(** [self.example_desc.delete(1.0, tk.END);
    self.example_desc.insert(tk.END, desc)] *)
Definition describe (desc : string) : M window unit :=
  modify (fun wd => MkWindow (form_of wd) desc).

(** One row of [constraints_data]: coefficients, operator, bound. *)
Definition example_row : Type := list Z * string * Z.

(** The loop over [constraints_data], the same in the four methods. *)
Definition fill_row (ir : nat * example_row) : M window unit :=
  (let '(i, (coeffs, op, bound)) := ir in
   for_each (enumerate coeffs)
     (fun jc => on_form (set_constraint_entry i (fst jc)
                           (str_of_int (snd jc)))) ;;
   on_form (set_type_combo i op) ;;
   on_form (set_bound_entry i (str_of_int bound)))%py.

(** The common shape of the four methods: the dimensions and the sense
    are set, the widgets rebuilt, the objective entries and the rows
    filled, the description shown. *)
Definition fill_example (num_vars num_cons : Z) (sense : string)
  (objective : list string) (constraints_data : list example_row)
  (desc : string) : M window unit :=
  (on_form (modify (set_num_variables num_vars)) ;;
   on_form (modify (set_num_constraints num_cons)) ;;
   on_form (modify (set_objective_type sense)) ;;
   on_form update_problem_size ;;
   for_each (enumerate objective)
     (fun ic => on_form (set_obj_entry (fst ic) (snd ic))) ;;
   for_each (enumerate constraints_data) fill_row ;;
   describe desc)%py.

Definition production_desc : string :=
  "Production Planning Example:
        
A company produces two products (x1, x2) with profits of $3 and $2 respectively.

Constraints:
- Material: 2x1 + x2 ≤ 100 units
- Labor: x1 + x2 ≤ 80 hours  
- Machine: x1 ≤ 40 hours

Objective: Maximize profit = 3x1 + 2x2

This is a classic production optimization problem.".

Definition diet_desc : string :=
  "Diet Problem Example:
        
Minimize the cost of a diet while meeting nutritional requirements.

Foods: x1 (meat), x2 (vegetables)
Costs: $0.50 and $0.30 per unit

Constraints:
- Protein: 2x1 + x2 ≥ 10 units
- Vitamins: x1 + 3x2 ≥ 12 units

Objective: Minimize cost = 0.5x1 + 0.3x2".

Definition transportation_desc : string :=
  "Transportation Problem Example:
        
Minimize transportation costs for shipping goods.

Variables: x1, x2, x3 (shipment quantities)
Costs: $2, $3, $1 per unit

Constraints:
- Meet demand: x1 + x2 + x3 ≥ 100 units
- Supply limit: 2x1 + x2 + 3x3 ≤ 200 units

Objective: Minimize cost = 2x1 + 3x2 + x3".

Definition investment_desc : string :=
  "Investment Portfolio Example:
        
Maximize expected return on investment portfolio.

Variables: x1 (safe bonds), x2 (risky stocks)
Returns: 8% and 12% respectively

Constraints:
- Budget: x1 + x2 ≤ $10,000
- Minimum safe: x1 ≥ $3,000
- Maximum risky: x2 ≤ $5,000

Objective: Maximize return = 0.08x1 + 0.12x2".

Definition load_production_example : M window unit :=
  fill_example 2 3 "maximize" ["3"; "2"]
    [([2; 1], "<=", 100); ([1; 1], "<=", 80); ([1; 0], "<=", 40)]%Z
    production_desc.

Definition load_diet_example : M window unit :=
  fill_example 2 2 "minimize" ["0.5"; "0.3"]
    [([2; 1], ">=", 10); ([1; 3], ">=", 12)]%Z
    diet_desc.

Definition load_transportation_example : M window unit :=
  fill_example 3 2 "minimize" ["2"; "3"; "1"]
    [([1; 1; 1], ">=", 100); ([2; 1; 3], "<=", 200)]%Z
    transportation_desc.

Definition load_investment_example : M window unit :=
  fill_example 2 3 "maximize" ["0.08"; "0.12"]
    [([1; 1], "<=", 10000); ([1; 0], ">=", 3000); ([0; 1], "<=", 5000)]%Z
    investment_desc.

(** One row of [constraints_data] as [save_problem] would write it. *)
Definition as_saved (r : example_row) : constraint_data :=
  ConstraintData (map str_of_int (fst (fst r))) (snd (fst r))
    (str_of_int (snd r)).

(** The persisted document that holds the same problem as an example. *)
Definition example_document (num_vars num_cons : Z) (sense : string)
  (objective : list string) (constraints_data : list example_row)
  : problem_data :=
  ProblemData num_vars num_cons sense objective
    (map as_saved constraints_data).

End Window.

(** ** The rest of [lp_solver_cli.py]: [quick_example] and [main]

    [quick_example] formats with [.2f], one more builtin taken as it is.
    Its problem is written with Python ints, which [linprog] turns into the
    floats of the same value.  [main] is a [while True] loop; one turn of it
    is [menu_turn], which answers whether the loop goes on, and [main] runs
    at most [fuel] turns. *)

Module Menu.
Import LPSolverCLI.

Class Formats := {
  format_2f : float -> string              (* f"{v:.2f}" *)
}.

(** The float of an int. *)
Definition float_of_int (z : Z) : float := binary_normalize 53 1024 z 0 false.

(** [bool(d)] for a dict: whether it has a key. *)
Definition has_key (p : problem_dict) : bool :=
  match p_maximize p, p_c p, p_A_ub p, p_b_ub p, p_A_eq p, p_b_eq p,
        p_num_vars p with
  | None, None, None, None, None, None, None => false
  | _, _, _, _, _, _, _ => true
  end.

Definition none_subscripted : exn :=
  Exn TypeError "'NoneType' object is not subscriptable".

Definition array_index_error (i : nat) (size : nat) : exn :=
  Exn IndexError
    ("index " +++ str_of_int (Z.of_nat i) +++ " is out of bounds for axis 0 with size "
     +++ str_of_int (Z.of_nat size)).

(** [result.x[i]] *)
Definition result_x (res : OptimizeResult) (i : nat) : result float :=
  match res_x res with
  | None => Raise none_subscripted
  | Some xs =>
      match nth_error xs i with
      | Some v => Ok v
      | None => Raise (array_index_error i (List.length xs))
      end
  end.

Definition quick_example_args : linprog_args :=
  LinprogArgs [float_of_int (-3); float_of_int (-2)]
    (Some [[float_of_int 2; float_of_int 1]; [float_of_int 1; float_of_int 1];
           [float_of_int 1; float_of_int 0]])
    (Some [float_of_int 100; float_of_int 80; float_of_int 40])
    None None [(0%Z, None); (0%Z, None)].

Section WithRuntime.
Context {RT : Runtime} {FM : Formats} {FS : Files}.

(** *** [quick_example] *)
Definition quick_example : M cli unit :=
  (print "QUICK EXAMPLE: Production Planning Problem" ;;
   print "Maximize: 3x1 + 2x2 (profit)" ;;
   print "Subject to:" ;;
   print "  2x1 + x2 <= 100  (material)" ;;
   print "  x1 + x2 <= 80    (labor)" ;;
   print "  x1 <= 40         (machine)" ;;
   print "  x1, x2 >= 0" ;;
   result <- call_linprog quick_example_args ;;
   print (nl +++ "Solution:") ;;
   print ("Status: " +++ res_message result) ;;
   profit <- lift match res_fun result with
                  | Some v => Ok (neg v)
                  | None => Raise none_negated
                  end ;;
   print ("Maximum profit: " +++ format_2f profit) ;;
   x1 <- lift (result_x result 0) ;;
   print ("x1 (product 1): " +++ format_2f x1) ;;
   x2 <- lift (result_x result 1) ;;
   print ("x2 (product 2): " +++ format_2f x2))%py.

(** *** [main]

    Lines 216-238: the chain of [if] and [elif] on [choice]; [true] when
    the loop goes on, [false] at the [break]. *)
Definition menu_choice (choice : string) : M cli bool :=
  (if choice =? "1" then
     input_problem ;; ret true
   else if choice =? "2" then
     p <- gets problem ;;
     (if has_key p then solve
      else print "No problem defined. Please input a problem first.") ;;
     ret true
   else if choice =? "3" then
     p <- gets problem ;;
     (if has_key p then
        filename <- input "Enter filename (with .json extension): " ;;
        save_problem filename
      else print "No problem to save.") ;;
     ret true
   else if choice =? "4" then
     filename <- input "Enter filename: " ;;
     load_problem filename ;;
     ret true
   else if choice =? "5" then
     quick_example ;; ret true
   else if choice =? "6" then
     print "Thank you for using LP Solver!" ;; ret false
   else
     print "Invalid choice. Please try again." ;; ret true)%py.

(** Lines 204-238: one turn of the loop. *)
Definition menu_turn : M cli bool :=
  (print (nl +++ str_mul "=" 50) ;;
   print "LINEAR PROGRAMMING SOLVER MENU" ;;
   print (str_mul "=" 50) ;;
   print "1. Input new problem" ;;
   print "2. Solve current problem" ;;
   print "3. Save problem" ;;
   print "4. Load problem" ;;
   print "5. Quick example" ;;
   print "6. Exit" ;;
   s <- input (nl +++ "Enter your choice (1-6): ") ;;
   menu_choice (str_strip s))%py.

(** [main] from a given solver object, for at most [fuel] turns: [true]
    when the loop was left by its [break], [false] when the turns ran
    out. *)
Fixpoint main_loop (fuel : nat) : M cli bool :=
  match fuel with
  | O => ret false
  | S fuel' =>
      bind menu_turn
        (fun go_on => if go_on : bool then main_loop fuel' else ret true)
  end.

(** [solver = LPSolverCLI()]: the object [main] starts with, in a world
    where [lines] will be typed and [dir] is the working directory. *)
Definition fresh (lines : list string) (dir : list (string * file_content))
  : cli :=
  Cli empty_problem lines [] dir [].

Definition main (fuel : nat) (lines : list string)
  (dir : list (string * file_content)) : result bool * cli :=
  main_loop fuel (fresh lines dir).

End WithRuntime.

(** A [.2f] format for examples: the value rounded to the nearest
    hundredth, ties to even. *)
Definition sample_format_2f (v : float) : string :=
  match v with
  | S754_zero s => (if s then "-" else "") +++ "0.00"
  | S754_infinity s => if s then "-inf" else "inf"
  | S754_nan => "nan"
  | S754_finite s m e =>
      let scaled :=
        match e with
        | Zneg p => Sample.round_half_even (Zpos m * 100) (2 ^ Zpos p)
        | _ => (Zpos m * 2 ^ e * 100)%Z
        end in
      (if s then "-" else "") +++ str_of_int (scaled / 100) +++ "."
      +++ Sample.pad_left 2 (str_of_int (scaled mod 100))
  end.

#[export] Instance sample_formats : Formats := {
  format_2f := sample_format_2f
}.

End Menu.

(** ** What a method leaves alone

    [respects R m]: whatever the method [m] does, and whether it returns or
    raises, the state it leaves is related by [R] to the state it found.
    [respects_on_raise R m] asks it only of the runs that raise. *)

Definition respects {S A} (R : S -> S -> Prop) (m : M S A) : Prop :=
  forall s r s', m s = (r, s') -> R s s'.

Definition respects_on_raise {S A} (R : S -> S -> Prop) (m : M S A) : Prop :=
  forall s e s', m s = (Raise e, s') -> R s s'.

(** The problem the form holds and the files are as they were. *)
Definition same_problem (st st' : LinearProgrammingInterface.app) : Prop :=
  LinearProgrammingInterface.form st' = LinearProgrammingInterface.form st /\
  LinearProgrammingInterface.directory st'
  = LinearProgrammingInterface.directory st.

(** No line appears on the input that was not there: what is left to read
    is an end of what was left to read. *)
Definition reads_on (w w' : LPSolverCLI.cli) : Prop :=
  exists used, LPSolverCLI.stdin w = used ++ LPSolverCLI.stdin w'.

(** Of the stored problem at most ['maximize'] has changed; the files and
    the log of solver calls are as they were. *)
Definition keeps_entries (w w' : LPSolverCLI.cli) : Prop :=
  LPSolverCLI.p_c (LPSolverCLI.problem w')
  = LPSolverCLI.p_c (LPSolverCLI.problem w) /\
  LPSolverCLI.p_A_ub (LPSolverCLI.problem w')
  = LPSolverCLI.p_A_ub (LPSolverCLI.problem w) /\
  LPSolverCLI.p_b_ub (LPSolverCLI.problem w')
  = LPSolverCLI.p_b_ub (LPSolverCLI.problem w) /\
  LPSolverCLI.p_A_eq (LPSolverCLI.problem w')
  = LPSolverCLI.p_A_eq (LPSolverCLI.problem w) /\
  LPSolverCLI.p_b_eq (LPSolverCLI.problem w')
  = LPSolverCLI.p_b_eq (LPSolverCLI.problem w) /\
  LPSolverCLI.p_num_vars (LPSolverCLI.problem w')
  = LPSolverCLI.p_num_vars (LPSolverCLI.problem w) /\
  LPSolverCLI.directory w' = LPSolverCLI.directory w /\
  LPSolverCLI.solver_calls w' = LPSolverCLI.solver_calls w.

(** The first key [solve] looks up and does not find. *)
Definition first_missing (p : LPSolverCLI.problem_dict) : option string :=
  match LPSolverCLI.p_num_vars p with
  | None => Some "num_vars"
  | Some _ =>
  match LPSolverCLI.p_c p with
  | None => Some "c"
  | Some _ =>
  match LPSolverCLI.p_A_ub p with
  | None => Some "A_ub"
  | Some _ =>
  match LPSolverCLI.p_b_ub p with
  | None => Some "b_ub"
  | Some _ =>
  match LPSolverCLI.p_A_eq p with
  | None => Some "A_eq"
  | Some _ =>
  match LPSolverCLI.p_b_eq p with
  | None => Some "b_eq"
  | Some _ => None
  end end end end end end.

(** The lines [main] prints before it asks for a choice. *)
Definition menu_lines : list string :=
  [nl +++ str_mul "=" 50; "LINEAR PROGRAMMING SOLVER MENU"; str_mul "=" 50;
   "1. Input new problem"; "2. Solve current problem"; "3. Save problem";
   "4. Load problem"; "5. Quick example"; "6. Exit";
   nl +++ "Enter your choice (1-6): "].

(** The lines [solve] prints before it calls the solver. *)
Definition solving_lines : list string :=
  [nl +++ str_mul "=" 50; "SOLVING..."; str_mul "=" 50].

(** An entry that [float] reads. *)
Definition reads_as_float {RT : Runtime} (e : string) : Prop :=
  exists v, py_float e = Ok v.

(** ** More example states *)

Module Unreadable.
Import LinearProgrammingInterface.

(** The production-planning form with a word in its second objective entry
    and a word in a coefficient entry. *)
Definition form : app :=
  App 2 3 "maximize" ["3"; "two"]
    [["2"; "one"]; ["1"; "1"]; ["1"; "0"]]
    ["100"; "80"; "40"] ["<="; "<="; "<="]
    "" "Optimal Value: Not solved yet" "Status: Not solved yet" [] [] [].

End Unreadable.

Module Overwritten.
Import LinearProgrammingInterface.


(** A form in a directory that holds an older saved problem, listed
    first, and no file of the form's own dimensions. *)
Definition form_beside_older : app :=
  App 2 3 "maximize" ["3"; "2"]
    [["2"; "1"]; ["1"; "1"]; ["1"; "0"]]
    ["100"; "80"; "40"] ["<="; "<="; "<="]
    "old results" "Optimal Value: 1.000000" "Status: old" []
    [("notes.txt", NotJson "not read");
     ("lp_problem_2vars_1cons.json", Json (document Examples.equalities_form))]
    [].

End Overwritten.

(** The stored problem, the unread input and the files are as they were,
    and what has been printed is what had been printed, followed by more. *)
Definition only_prints (w w' : LPSolverCLI.cli) : Prop :=
  LPSolverCLI.problem w' = LPSolverCLI.problem w /\
  LPSolverCLI.stdin w' = LPSolverCLI.stdin w /\
  LPSolverCLI.directory w' = LPSolverCLI.directory w /\
  exists out, LPSolverCLI.stdout w' = LPSolverCLI.stdout w ++ out.

Module Sessions.
Import LPSolverCLI.

(** A solver object whose dict holds ['maximize'] and nothing else. *)
Definition sense_only : cli :=
  Cli (ProblemDict (Some true) None None None None None None) [] [] [] [].

(** A solver object that holds the production-planning problem without
    the key ['maximize'], as a file written by hand can give it. *)
Definition without_sense : cli :=
  Cli (ProblemDict None (Some Sample.production_c)
         (Some (Some Sample.production_A)) (Some (Some Sample.production_b))
         (Some None) (Some None) (Some 2%Z))
    [] [] [] [].

(** A user who types the objective of a maximization and then a word for
    the coefficient of the constraint. *)
Definition word_for_a_number : cli :=
  Cli empty_problem ["1"; "1"; "max"; "3"; "one"] [] [] [].

End Sessions.

Module Typed.
Import LPSolverCLI.

(** A user who types the production-planning problem, has it solved and
    leaves. *)
Definition input_solve_exit : list string :=
  " 1 " :: Examples.production_lines ++ ["2"; "6"; "never read"].

(** A user who asks for a solution before any problem is there, then types
    something that is no choice, then leaves. *)
Definition nothing_to_solve : cli :=
  Cli empty_problem ["2"; "3"; "seven"; "6"] [] [] [].

(** A user who chooses to input a problem and types a word for the number
    of variables. *)
Definition word_for_a_count : cli :=
  Cli empty_problem ["1"; "two"; "2"] [] [] [].

End Typed.

(** The lines [quick_example] prints before it calls the solver. *)
Definition quick_example_lines : list string :=
  ["QUICK EXAMPLE: Production Planning Problem";
   "Maximize: 3x1 + 2x2 (profit)"; "Subject to:";
   "  2x1 + x2 <= 100  (material)"; "  x1 + x2 <= 80    (labor)";
   "  x1 <= 40         (machine)"; "  x1, x2 >= 0"].

(** The lines [input_problem] prints before it reads the number of
    variables. *)
Definition input_problem_lines : list string :=
  [str_mul "=" 50; "LINEAR PROGRAMMING SOLVER - PINK WINNERS"; str_mul "=" 50;
   "Enter number of variables: "].

Module Unvalidated.
Import LinearProgrammingInterface.

(** A saved problem that announces three variables and holds two
    objective coefficients. *)
Definition short_document : problem_data :=
  ProblemData 3 1 "minimize" ["5"; "6"] [ConstraintData ["1"; "2"; "3"] ">=" "4"].

(** The production-planning form, started in a directory that holds
    [short_document]. *)
Definition form_with_short_document : app :=
  App 2 3 "maximize" ["3"; "2"]
    [["2"; "1"]; ["1"; "1"]; ["1"; "0"]]
    ["100"; "80"; "40"] ["<="; "<="; "<="]
    "" "Optimal Value: Not solved yet" "Status: Not solved yet" []
    [("lp_problem_3vars_1cons.json", Json short_document)] [].

End Unvalidated.

(** ** [demo.py] and [test_solver.py]: the problems written by hand

    Each demo and each test hands [linprog] a problem written in its body,
    already in the form the solver takes.  A Python int becomes the float of
    the same value; [0.5], [0.3], [0.08] and [0.12] are the doubles nearest
    to these decimals, and [-0.08] is the literal [0.08] negated. *)

Module Demo.

Definition fi (z : Z) : float := Menu.float_of_int z.

Definition d_0_5 : float := S754_finite false 4503599627370496 (-53).
Definition d_0_3 : float := S754_finite false 5404319552844595 (-54).
Definition d_0_08 : float := S754_finite false 5764607523034235 (-56).
Definition d_0_12 : float := S754_finite false 8646911284551352 (-56).

(** [demo_production_problem], lines 26-31. *)
Definition production_args : linprog_args :=
  LinprogArgs [fi (-3); fi (-2)]
    (Some [[fi 2; fi 1]; [fi 1; fi 1]; [fi 1; fi 0]])
    (Some [fi 100; fi 80; fi 40])
    None None [(0%Z, None); (0%Z, None)].

(** [demo_diet_problem], lines 64-69. *)
Definition diet_args : linprog_args :=
  LinprogArgs [d_0_5; d_0_3]
    (Some [[fi (-2); fi (-1)]; [fi (-1); fi (-3)]])
    (Some [fi (-10); fi (-12)])
    None None [(0%Z, None); (0%Z, None)].

(** [demo_investment_problem], lines 101-106. *)
Definition investment_args : linprog_args :=
  LinprogArgs [neg d_0_08; neg d_0_12]
    (Some [[fi 1; fi 1]; [fi (-1); fi 0]; [fi 0; fi 1]])
    (Some [fi 10000; fi (-3000); fi 5000])
    None None [(0%Z, None); (0%Z, None)].

End Demo.

Module Tests.
Import Demo.

(** [test_basic_functionality], lines 17-23. *)
Definition basic_args : linprog_args :=
  LinprogArgs [fi (-3); fi (-2)]
    (Some [[fi 2; fi 1]; [fi 1; fi 1]; [fi 1; fi 0]])
    (Some [fi 100; fi 80; fi 40])
    None None [(0%Z, None); (0%Z, None)].

(** [run_example_problems], lines 67-73 and 85-91: the diet problem. *)
Definition diet_args : linprog_args :=
  LinprogArgs [d_0_5; d_0_3]
    (Some [[fi (-2); fi (-1)]; [fi (-1); fi (-3)]])
    (Some [fi (-10); fi (-12)])
    None None [(0%Z, None); (0%Z, None)].

(** [run_example_problems], lines 74-80 and 85-91: the transportation
    problem. *)
Definition transportation_args : linprog_args :=
  LinprogArgs [fi 2; fi 3; fi 1]
    (Some [[fi (-1); fi (-1); fi (-1)]; [fi 2; fi 1; fi 3]])
    (Some [fi (-100); fi 200])
    None None [(0%Z, None); (0%Z, None); (0%Z, None)].

End Tests.

(** What [float] makes of the texts the four example buttons put into the
    entries. *)
Definition example_readings : list (string * float) :=
  [("0", Demo.fi 0); ("1", Demo.fi 1); ("2", Demo.fi 2); ("3", Demo.fi 3);
   ("10", Demo.fi 10); ("12", Demo.fi 12); ("40", Demo.fi 40);
   ("80", Demo.fi 80); ("100", Demo.fi 100); ("200", Demo.fi 200);
   ("3000", Demo.fi 3000); ("5000", Demo.fi 5000);
   ("10000", Demo.fi 10000);
   ("0.5", Demo.d_0_5); ("0.3", Demo.d_0_3);
   ("0.08", Demo.d_0_08); ("0.12", Demo.d_0_12)].

Module Decimal.

(** A [float] that reads the texts of the examples, and otherwise what
    [Sample.sample_float] reads. *)
Definition decimal_float (s : string) : result float :=
  match find (fun sv => fst sv =? s) example_readings with
  | Some sv => Ok (snd sv)
  | None => Sample.sample_float s
  end.

Definition runtime : Runtime := {|
  py_float := decimal_float;
  py_int := Sample.sample_int;
  str_lower := Sample.sample_lower;
  str_strip := Sample.sample_strip;
  str_title := Sample.sample_title;
  format_6f := Sample.sample_format_6f;
  linprog := Sample.sample_linprog
|}.

End Decimal.

(** ** The visualization tab: [plot_feasible_region] and [clear_plot]

    The axes are what has been put on them: the contour lines, the limits,
    the labels, the title and the grid.  [ax.contour] is taken as it is,
    like [linprog]: it is handed the grid and the values of
    [a1 * X1 + a2 * X2 - b] on it, which the three floats determine, and it
    returns or raises.  [canvas.draw()] is counted. *)

Module Plot.
Import LinearProgrammingInterface.

Class Matplotlib := {
  (* ax.contour(X1, X2, a1 * X1 + a2 * X2 - b, levels=[0], colors='blue',
                alpha=0.6) on the grid of lines 323-325 *)
  contour_call : float -> float -> float -> result unit
}.

Record axes := Axes {
  contours : list (float * float * float);
  xlim : option (Z * Z);
  ylim : option (Z * Z);
  xlabel : string;
  ylabel : string;
  title : string;
  grid : bool
}.

(** The axes after [ax.clear()]. *)
Definition cleared : axes := Axes [] None None "" "" "" false.

Record tab := Tab {
  form_of : app;
  ax : axes;
  draws : nat
}.

Definition on_form {A} (m : M app A) : M tab A :=
  fun t => let (r, st) := m (form_of t) in (r, Tab st (ax t) (draws t)).

Definition on_ax (f : axes -> axes) : M tab unit :=
  modify (fun t => Tab (form_of t) (f (ax t)) (draws t)).

(** [self.canvas.draw()] *)
Definition canvas_draw : M tab unit :=
  modify (fun t => Tab (form_of t) (ax t) (S (draws t))).

Definition add_contour (c : float * float * float) (a : axes) : axes :=
  Axes (contours a ++ [c]) (xlim a) (ylim a) (xlabel a) (ylabel a) (title a)
    (grid a).

(** Lines 344-349. *)
Definition decorate (a : axes) : axes :=
  Axes (contours a) (Some (0, 10)%Z) (Some (0, 10)%Z) "x1" "x2"
    "Constraint Visualization" true.

Section WithRuntime.
Context {RT : Runtime} {MP : Matplotlib}.

(** Lines 329-332: what the loop reads for constraint [i].  The operator
    is read and then used for a mask, line 334-339, that nothing reads. *)
Definition read_line (st : app) (i : nat) : result (float * float * float) :=
  (r <~ index (constraint_entries st) i ;;
   e <~ index r 0 ;;
   a1 <~ py_float e ;;
   r <~ index (constraint_entries st) i ;;
   e <~ index r 1 ;;
   a2 <~ py_float e ;;
   e <~ index (bound_entries st) i ;;
   b <~ py_float e ;;
   constraint_type <~ index (type_combos st) i ;;
   Ok (a1, a2, b))%py.

(** Lines 328-341: one turn of the loop. *)
Definition plot_constraint (i : nat) : M tab unit :=
  (st <- on_form (gets (fun st => st)) ;;
   line <- lift (read_line st i) ;;
   lift (let '(a1, a2, b) := line in contour_call a1 a2 b) ;;
   on_ax (add_contour line))%py.

(** *** [plot_feasible_region] *)
Definition plot_feasible_region : M tab unit :=
  (n <- on_form (gets num_variables) ;;
   if negb (n =? 2)%Z then
     on_form (messagebox showwarning "Warning"
                "Visualization only available for 2-variable problems")
   else
     try_except
       (on_ax (fun _ => cleared) ;;
        m <- on_form (gets num_constraints) ;;
        for_each (range m) plot_constraint ;;
        on_ax decorate ;;
        canvas_draw)
       (fun e => on_form (messagebox showerror "Error"
                            ("Error plotting: " +++ exn_msg e))))%py.

End WithRuntime.

(** *** [clear_plot] *)
Definition clear_plot : M tab unit :=
  (on_ax (fun _ => cleared) ;; canvas_draw)%py.

(** A [contour] that draws every line. *)
Definition sample_matplotlib : Matplotlib := {|
  contour_call := fun _ _ _ => Ok tt
|}.

(** [ax.contour] returns for this line. *)
Definition drawn {MP : Matplotlib} (line : float * float * float) : Prop :=
  contour_call (fst (fst line)) (snd (fst line)) (snd line) = Ok tt.

(** The tab [t'] is the tab [t] with other text in its comboboxes. *)
Definition other_operators (t t' : tab) : Prop :=
  exists tcs,
    List.length tcs = List.length (type_combos (form_of t)) /\
    form_of t' = set_type_combos tcs (form_of t) /\
    ax t' = ax t /\ draws t' = draws t.

(** The method [m] does not look at the text of the comboboxes: run on two
    tabs that differ in it, it ends the same way on tabs that differ in
    it. *)
Definition blind_to_operators {A} (m : M tab A) : Prop :=
  forall t t',
    other_operators t t' ->
    fst (m t') = fst (m t) /\ other_operators (snd (m t)) (snd (m t')).

End Plot.

Module Plotted.
Import LinearProgrammingInterface.

(** The visualization tab over the production-planning form, with a line
    left on the axes by an earlier plot. *)
Definition production_tab : Plot.tab :=
  Plot.Tab Examples.production_form
    (Plot.Axes [(Examples.f 9, Examples.f 9, Examples.f 9)] None None
       "" "" "" false)
    4.

(** The same tab over the form with three variables. *)
Definition mixed_tab : Plot.tab :=
  Plot.Tab Examples.mixed_form (Plot.ax production_tab) 4.

(** [production_tab] with other text in the three comboboxes. *)
Definition production_tab_reversed : Plot.tab :=
  Plot.Tab (set_type_combos [">="; "="; "no operator"] Examples.production_form)
    (Plot.ax production_tab) 4.

End Plotted.

(** ** A file system for examples

    The working directory can be written to and has no subdirectory: a
    path with a directory part is refused as Python refuses it. *)

Module Disk.

Definition sample_open_w (name : string) : result unit :=
  match String.index 0 "/" name with
  | Some _ =>
      Raise (Exn FileNotFoundError
               ("[Errno 2] No such file or directory: '" +++ name +++ "'"))
  | None => Ok tt
  end.

#[export] Instance files : LPSolverCLI.Files := {
  LPSolverCLI.open_w := sample_open_w
}.

End Disk.

Module Reloaded.




End Reloaded.

(** * Properties *)

Unset Implicit Arguments.

(** ** The error monad and the loops *)

Lemma rbind_ok {A B} (r : result A) (k : A -> result B) (b : B) :
  rbind r k = Ok b -> exists a, r = Ok a /\ k a = Ok b.
Proof.
  destruct r as [a|e]; simpl; intros H; [eauto | discriminate].
Qed.

Lemma map_result_length {X A} (f : X -> result A) (xs : list X) (l : list A) :
  map_result f xs = Ok l -> List.length l = List.length xs.
Proof.
  revert l; induction xs as [|x xs IH]; simpl; intros l H.
  - injection H as <-. reflexivity.
  - apply rbind_ok in H as (a & _ & H).
    apply rbind_ok in H as (l' & Hl' & H).
    injection H as <-. simpl. f_equal. auto.
Qed.

Lemma map_result_app {X A} (f : X -> result A) (xs ys : list X) :
  map_result f (xs ++ ys) =
  rbind (map_result f xs)
        (fun l => rbind (map_result f ys) (fun l' => Ok (l ++ l'))).
Proof.
  induction xs as [|x xs IH]; simpl.
  - destruct (map_result f ys); reflexivity.
  - destruct (f x) as [a|e]; simpl; [|reflexivity].
    rewrite IH. destruct (map_result f xs) as [l|e]; simpl; [|reflexivity].
    destruct (map_result f ys); reflexivity.
Qed.

Lemma map_result_nth {X A} (f : X -> result A) (xs : list X) (l : list A)
  (i : nat) (x : X) :
  map_result f xs = Ok l -> nth_error xs i = Some x ->
  exists a, f x = Ok a /\ nth_error l i = Some a.
Proof.
  revert l i; induction xs as [|y xs IH]; simpl; intros l i H Hx.
  - destruct i; discriminate.
  - apply rbind_ok in H as (a & Ha & H).
    apply rbind_ok in H as (l' & Hl' & H).
    injection H as <-.
    destruct i as [|i]; simpl in *.
    + injection Hx as ->. eauto.
    + eauto.
Qed.

Lemma map_result_ext {X A} (f g : X -> result A) (xs : list X) :
  (forall x, In x xs -> f x = g x) -> map_result f xs = map_result g xs.
Proof.
  induction xs as [|x xs IH]; simpl; intros H; [reflexivity|].
  rewrite (H x) by auto. rewrite IH by auto. reflexivity.
Qed.

(** A loop that reads and then routes is the routing of what was read. *)
Lemma fold_result_read {X K A} (read : X -> result K) (step : A -> K -> A)
  (xs : list X) (acc : A) :
  fold_result (fun acc x => rbind (read x) (fun k => Ok (step acc k))) xs acc =
  rbind (map_result read xs) (fun ks => Ok (fold_left step ks acc)).
Proof.
  revert acc; induction xs as [|x xs IH]; simpl; intros acc; [reflexivity|].
  destruct (read x) as [k|e]; simpl; [|reflexivity].
  rewrite IH. destruct (map_result read xs); reflexivity.
Qed.

(** ** The routing *)

Lemma route_le acc a b :
  route acc a b "<=" = Rows (A_ub acc ++ [a]) (b_ub acc ++ [b]) (A_eq acc) (b_eq acc).
Proof. reflexivity. Qed.

Lemma route_ge acc a b :
  route acc a b ">=" =
  Rows (A_ub acc ++ [map neg a]) (b_ub acc ++ [neg b]) (A_eq acc) (b_eq acc).
Proof. reflexivity. Qed.

Lemma route_other acc a b op :
  is_inequality op = false ->
  route acc a b op = Rows (A_ub acc) (b_ub acc) (A_eq acc ++ [a]) (b_eq acc ++ [b]).
Proof.
  unfold is_inequality, route. intros H.
  apply orb_false_iff in H as [-> ->]. reflexivity.
Qed.

Lemma route_rows acc k :
  route_step acc k =
  Rows (A_ub acc ++ map fst (ub_row k)) (b_ub acc ++ map snd (ub_row k))
       (A_eq acc ++ map fst (eq_row k)) (b_eq acc ++ map snd (eq_row k)).
Proof.
  unfold route_step, route, ub_row, eq_row, is_inequality.
  destruct (operator_of k =? "<="); simpl.
  - rewrite !app_nil_r. reflexivity.
  - destruct (operator_of k =? ">="); simpl; rewrite !app_nil_r; reflexivity.
Qed.

Lemma fold_route_rows cs acc :
  fold_left route_step cs acc =
  Rows (A_ub acc ++ map fst (flat_map ub_row cs))
       (b_ub acc ++ map snd (flat_map ub_row cs))
       (A_eq acc ++ map fst (flat_map eq_row cs))
       (b_eq acc ++ map snd (flat_map eq_row cs)).
Proof.
  revert acc; induction cs as [|k cs IH]; intros acc; simpl.
  - rewrite !app_nil_r. destruct acc; reflexivity.
  - rewrite IH, route_rows. simpl. rewrite !map_app, !app_assoc. reflexivity.
Qed.

Lemma normalize_rows cs :
  normalize cs =
  Rows (map fst (flat_map ub_row cs)) (map snd (flat_map ub_row cs))
       (map fst (flat_map eq_row cs)) (map snd (flat_map eq_row cs)).
Proof. unfold normalize. apply (fold_route_rows cs no_rows). Qed.

Lemma normalize_app cs cs' :
  normalize (cs ++ cs') =
  Rows (A_ub (normalize cs) ++ map fst (flat_map ub_row cs'))
       (b_ub (normalize cs) ++ map snd (flat_map ub_row cs'))
       (A_eq (normalize cs) ++ map fst (flat_map eq_row cs'))
       (b_eq (normalize cs) ++ map snd (flat_map eq_row cs')).
Proof.
  unfold normalize at 1. rewrite fold_left_app.
  apply (fold_route_rows cs' (normalize cs)).
Qed.

Lemma fold_result_ext {X A} (f g : A -> X -> result A) (xs : list X) (acc : A) :
  (forall a x, f a x = g a x) -> fold_result f xs acc = fold_result g xs acc.
Proof.
  intros H. revert acc; induction xs as [|x xs IH]; simpl; intros acc.
  - reflexivity.
  - rewrite H. destruct (g acc x); simpl; auto.
Qed.

(** ** numpy never refuses what the loops build *)

Lemma rectangular_widths (n : nat) (l : matrix) :
  Forall (fun r => List.length r = n) l -> rectangular l = true.
Proof.
  destruct l as [|r rest]; simpl; intros H; [reflexivity|].
  inversion H as [|? ? Hr Hrest]; subst.
  apply forallb_forall. intros r' Hin.
  rewrite Forall_forall in Hrest. rewrite (Hrest r' Hin).
  apply Nat.eqb_refl.
Qed.

Lemma array2_or_none_widths (n : nat) (l : matrix) :
  Forall (fun r => List.length r = n) l -> array2_or_none l = Ok (present l).
Proof.
  intros H. destruct l as [|r rest]; [reflexivity|].
  unfold array2_or_none, np_array2.
  rewrite (rectangular_widths n _ H). reflexivity.
Qed.

Lemma array1_or_none_present (l : list float) :
  array1_or_none l = Ok (present l).
Proof. destruct l; reflexivity. Qed.

Lemma ub_row_widths (n : nat) (k : constraint) :
  List.length (coefficients_of k) = n ->
  Forall (fun r => List.length r = n) (map fst (ub_row k)).
Proof.
  intros H. unfold ub_row.
  destruct (operator_of k =? "<="); simpl.
  - constructor; [assumption | constructor].
  - destruct (operator_of k =? ">="); simpl; constructor.
    + rewrite length_map. assumption.
    + constructor.
Qed.

Lemma eq_row_widths (n : nat) (k : constraint) :
  List.length (coefficients_of k) = n ->
  Forall (fun r => List.length r = n) (map fst (eq_row k)).
Proof.
  intros H. unfold eq_row.
  destruct (is_inequality (operator_of k)); simpl; constructor.
  - assumption.
  - constructor.
Qed.

Lemma normalize_widths (n : nat) (cs : list constraint) :
  Forall (fun k => List.length (coefficients_of k) = n) cs ->
  Forall (fun r => List.length r = n) (A_ub (normalize cs)) /\
  Forall (fun r => List.length r = n) (A_eq (normalize cs)).
Proof.
  intros H. rewrite normalize_rows. simpl.
  induction H as [|k cs Hk Hcs [IHu IHe]]; simpl.
  - split; constructor.
  - rewrite !map_app. split; apply Forall_app; split; auto.
    + apply ub_row_widths; assumption.
    + apply eq_row_widths; assumption.
Qed.

(** ** The form: what [solve_problem] reads and passes on *)

Section Interface.
Context {RT : Runtime}.
Import LinearProgrammingInterface.

Lemma read_constraint_width st i k :
  read_constraint st i = Ok k ->
  List.length (coefficients_of k) = Z.to_nat (num_variables st).
Proof.
  unfold read_constraint. intros H.
  apply rbind_ok in H as (row & Hrow & H).
  apply rbind_ok in H as (b & _ & H).
  apply rbind_ok in H as (bv & _ & H).
  apply rbind_ok in H as (ty & _ & H).
  injection H as <-. unfold coefficients_of; simpl.
  apply map_result_length in Hrow. rewrite Hrow.
  unfold range. apply length_seq.
Qed.

Lemma read_constraints_width st xs cs :
  map_result (read_constraint st) xs = Ok cs ->
  Forall (fun k => List.length (coefficients_of k) = Z.to_nat (num_variables st)) cs.
Proof.
  revert cs; induction xs as [|i xs IH]; simpl; intros cs H.
  - injection H as <-. constructor.
  - apply rbind_ok in H as (k & Hk & H).
    apply rbind_ok in H as (cs' & Hcs' & H).
    injection H as <-. constructor; auto.
    eapply read_constraint_width; eassumption.
Qed.

Lemma read_constraints_normalize st :
  read_constraints st =
  rbind (map_result (read_constraint st) (range (num_constraints st)))
        (fun cs => Ok (normalize cs)).
Proof.
  unfold read_constraints, normalize.
  rewrite <- fold_result_read. apply fold_result_ext.
  intros acc i. destruct (read_constraint st i) as [[[a b] op]|e]; reflexivity.
Qed.

Lemma solver_input_ok st objective cs :
  map_result py_float (obj_entries st) = Ok objective ->
  map_result (read_constraint st) (range (num_constraints st)) = Ok cs ->
  solver_input st = Ok (arguments st objective cs).
Proof.
  intros Hobj Hcs. unfold solver_input, read_objective.
  rewrite Hobj. simpl. rewrite read_constraints_normalize, Hcs. simpl.
  destruct (normalize_widths _ _ (read_constraints_width _ _ _ Hcs)) as [Hu He].
  rewrite (array2_or_none_widths _ _ Hu), (array2_or_none_widths _ _ He).
  rewrite !array1_or_none_present. reflexivity.
Qed.

Lemma solver_input_inv st args :
  solver_input st = Ok args ->
  exists objective cs,
    map_result py_float (obj_entries st) = Ok objective /\
    map_result (read_constraint st) (range (num_constraints st)) = Ok cs /\
    args = arguments st objective cs.
Proof.
  intros H. pose proof H as H0. unfold solver_input, read_objective in H.
  apply rbind_ok in H as (c & Hc & H).
  apply rbind_ok in Hc as (objective & Hobj & Hc).
  rewrite read_constraints_normalize in H.
  apply rbind_ok in H as (acc & Hacc & _).
  apply rbind_ok in Hacc as (cs & Hcs & _).
  exists objective, cs. repeat split; try assumption.
  rewrite (solver_input_ok _ _ _ Hobj Hcs) in H0. congruence.
Qed.

Lemma display_results_calls result c st :
  solver_calls (snd (display_results result c st)) = solver_calls st.
Proof.
  unfold display_results, bind, modify, gets, lift, ret. simpl.
  destruct (res_success result); simpl; [|reflexivity].
  destruct (res_fun result); simpl; [|reflexivity].
  destruct (res_x result); reflexivity.
Qed.

(** When every read succeeds, [linprog] is called once, with what was read. *)
Lemma solve_problem_calls st args :
  solver_input st = Ok args ->
  solver_calls (snd (solve_problem st)) = solver_calls st ++ [args].
Proof.
  intros H. unfold solve_problem, try_except, bind, gets, lift, call_linprog.
  simpl. rewrite H. simpl.
  destruct (linprog args) as [result|e]; simpl.
  - match goal with
    | |- context [display_results ?r ?c ?s] =>
        pose proof (display_results_calls r c s) as Hd;
        destruct (display_results r c s) as [[[]|e] s'] eqn:Hs
    end; simpl in *; assumption.
  - reflexivity.
Qed.

(** When a read raises, the error is shown and [linprog] is not called. *)
Lemma solve_problem_raise st e :
  solver_input st = Raise e ->
  solve_problem st =
  (Ok tt,
   set_dialogs
     (dialogs st ++ [Dialog showerror "Error"
                       ("Error solving problem: " +++ exn_msg e)]) st).
Proof.
  intros H. unfold solve_problem, try_except, bind, gets, lift.
  simpl. rewrite H. reflexivity.
Qed.

End Interface.

(** ** The command line: what [input_problem] reads and stores *)

Import LPSolverCLI.

Lemma cli_eta w :
  Cli (problem w) (stdin w) (stdout w) (directory w) (solver_calls w) = w.
Proof. destruct w; reflexivity. Qed.

Lemma input_line prompt w line rest :
  stdin w = line :: rest ->
  input prompt w =
  (Ok line,
   Cli (problem w) rest (stdout w ++ [prompt]) (directory w) (solver_calls w)).
Proof. unfold input. simpl. intros ->. reflexivity. Qed.

Lemma print_run s w :
  print s w =
  (Ok tt,
   Cli (problem w) (stdin w) (stdout w ++ [s]) (directory w) (solver_calls w)).
Proof. reflexivity. Qed.

Ltac cli_simpl :=
  cbn [LPSolverCLI.problem LPSolverCLI.stdin LPSolverCLI.stdout
       LPSolverCLI.directory LPSolverCLI.solver_calls].

Ltac cli_print :=
  unfold bind at 1; rewrite print_run; cli_simpl.

Ltac cli_input :=
  unfold bind at 1; erewrite input_line by reflexivity; cli_simpl.

Ltac cli_getitem H :=
  unfold bind at 1, LPSolverCLI.getitem at 1; cli_simpl; rewrite H.

Section CommandLine.
Context {RT : Runtime}.

(** The loop that reads coefficients, from any index and any prefix. *)
Lemma input_coefficients_from indent ss : forall fs k acc w rest,
  map_result py_float ss = Ok fs ->
  stdin w = ss ++ rest ->
  exists out,
    fold_M
      (fun coeffs i =>
         (s <- input (indent +++ "Coefficient for x"
                      +++ str_of_int (Z.of_nat i + 1) +++ ": ") ;;
          coeff <- lift (py_float s) ;;
          ret (coeffs ++ [coeff]))%py)
      (seq k (List.length ss)) acc w =
    (Ok (acc ++ fs),
     Cli (problem w) rest (stdout w ++ out) (directory w) (solver_calls w)).
Proof.
  induction ss as [|s ss IH]; cbn [fold_M map_result List.length seq app];
    intros fs k acc w rest Hfs Hin.
  - injection Hfs as <-. exists []. rewrite !app_nil_r, <- Hin.
    unfold ret. rewrite cli_eta. reflexivity.
  - apply rbind_ok in Hfs as (f & Hf & Hfs).
    apply rbind_ok in Hfs as (fs' & Hfs' & Hfs). injection Hfs as <-.
    unfold bind at 1. unfold bind at 1.
    rewrite (input_line _ _ _ _ Hin). unfold bind at 1, lift at 1.
    rewrite Hf. unfold ret at 1.
    match goal with
    | |- context [fold_M _ _ _ ?w'] =>
        destruct (IH fs' (S k) (acc ++ [f]) w' rest Hfs' eq_refl)
          as (out & Hout)
    end.
    rewrite Hout. cbn [problem stdout directory solver_calls].
    eexists (_ :: out).
    rewrite <- !app_assoc. reflexivity.
Qed.

Lemma input_coefficients_run indent n ss fs w rest :
  List.length ss = Z.to_nat n ->
  map_result py_float ss = Ok fs ->
  stdin w = ss ++ rest ->
  exists out,
    input_coefficients indent n w =
    (Ok fs,
     Cli (problem w) rest (stdout w ++ out) (directory w) (solver_calls w)).
Proof.
  intros Hlen Hfs Hin. unfold input_coefficients, range. rewrite <- Hlen.
  apply (input_coefficients_from indent ss fs 0 [] w rest Hfs Hin).
Qed.

Lemma parse_typed_constraint_width k c :
  parse_typed_constraint k = Ok c ->
  List.length (coefficients_of c) = List.length (typed_coefficients k).
Proof.
  unfold parse_typed_constraint. intros H.
  apply rbind_ok in H as (row & Hrow & H).
  apply rbind_ok in H as (b & _ & H). injection H as <-.
  apply (map_result_length _ _ _ Hrow).
Qed.

Lemma input_constraint_run n acc i k c w rest :
  List.length (typed_coefficients k) = Z.to_nat n ->
  parse_typed_constraint k = Ok c ->
  stdin w = constraint_lines k ++ rest ->
  exists out,
    input_constraint n acc i w =
    (Ok (route_step acc c),
     Cli (problem w) rest (stdout w ++ out) (directory w) (solver_calls w)).
Proof.
  intros Hlen Hc Hin. unfold parse_typed_constraint in Hc.
  apply rbind_ok in Hc as (row & Hrow & Hc).
  apply rbind_ok in Hc as (b & Hb & Hc). injection Hc as <-.
  unfold constraint_lines in Hin. rewrite <- app_assoc in Hin.
  unfold input_constraint. unfold bind at 1. rewrite print_run.
  unfold bind at 1.
  match goal with
  | |- context [input_coefficients _ _ ?w'] =>
      destruct (input_coefficients_run "  " n (typed_coefficients k) row w'
                  ([typed_operator k; typed_bound k] ++ rest) Hlen Hrow Hin)
        as (out & Hout)
  end.
  rewrite Hout. simpl problem; simpl directory; simpl solver_calls; simpl stdout.
  unfold bind at 1. erewrite input_line by reflexivity.
  unfold bind at 1. erewrite input_line by reflexivity.
  unfold bind at 1, lift at 1. rewrite Hb. unfold ret. simpl.
  eexists (_ :: out ++ [_; _]).
  rewrite <- !app_assoc. reflexivity.
Qed.

Lemma input_constraints_from n cons : forall cs k0 acc w rest,
  Forall (fun k => List.length (typed_coefficients k) = Z.to_nat n) cons ->
  map_result parse_typed_constraint cons = Ok cs ->
  stdin w = flat_map constraint_lines cons ++ rest ->
  exists out,
    fold_M (input_constraint n) (seq k0 (List.length cons)) acc w =
    (Ok (fold_left route_step cs acc),
     Cli (problem w) rest (stdout w ++ out) (directory w) (solver_calls w)).
Proof.
  induction cons as [|k cons IH];
    cbn [fold_M map_result List.length seq app flat_map fold_left];
    intros cs k0 acc w rest Hw Hcs Hin.
  - injection Hcs as <-. exists []. rewrite !app_nil_r, <- Hin.
    unfold ret. rewrite cli_eta. reflexivity.
  - apply rbind_ok in Hcs as (c & Hc & Hcs).
    apply rbind_ok in Hcs as (cs' & Hcs' & Hcs). injection Hcs as <-.
    inversion Hw as [|? ? Hk Hw']; subst.
    rewrite <- app_assoc in Hin.
    destruct (input_constraint_run n acc k0 k c w _ Hk Hc Hin) as (out1 & H1).
    unfold bind at 1. rewrite H1.
    match goal with
    | |- context [fold_M _ _ _ ?w'] =>
        destruct (IH cs' (S k0) (route_step acc c) w' rest Hw' Hcs' eq_refl)
          as (out2 & H2)
    end.
    rewrite H2. cbn [problem stdout directory solver_calls].
    exists (out1 ++ out2).
    rewrite <- !app_assoc. reflexivity.
Qed.

Lemma parsed_widths n cons cs :
  Forall (fun k => List.length (typed_coefficients k) = n) cons ->
  map_result parse_typed_constraint cons = Ok cs ->
  Forall (fun c => List.length (coefficients_of c) = n) cs.
Proof.
  intros Hw. revert cs.
  induction Hw as [|k cons Hk Hw IH]; simpl; intros cs Hcs.
  - injection Hcs as <-. constructor.
  - apply rbind_ok in Hcs as (c & Hc & Hcs).
    apply rbind_ok in Hcs as (cs' & Hcs' & Hcs). injection Hcs as <-.
    constructor; auto.
    rewrite (parse_typed_constraint_width _ _ Hc). assumption.
Qed.

(** A whole dialogue: the dict stored is [entered_problem] and exactly the
    lines of the script are consumed. *)
Lemma input_problem_run w nv nc ty objs cons rest n m objective cs :
  stdin w = script nv nc ty objs cons ++ rest ->
  py_int nv = Ok n ->
  py_int nc = Ok m ->
  List.length objs = Z.to_nat n ->
  map_result py_float objs = Ok objective ->
  List.length cons = Z.to_nat m ->
  Forall (fun k => List.length (typed_coefficients k) = Z.to_nat n) cons ->
  map_result parse_typed_constraint cons = Ok cs ->
  exists out,
    input_problem w =
    (Ok tt,
     Cli (entered_problem (startswith "max" (str_lower ty)) objective cs n)
         rest (stdout w ++ out) (directory w) (solver_calls w)).
Proof.
  intros Hin Hn Hm Hlo Hobj Hlc Hw Hcs. unfold script in Hin.
  cbn [app] in Hin. rewrite <- app_assoc in Hin.
  pose proof (parsed_widths _ _ _ Hw Hcs) as Hwc.
  destruct (normalize_widths _ _ Hwc) as [Hu He].
  unfold input_problem.
  do 3 cli_print.
  unfold bind at 1. erewrite input_line by (cli_simpl; exact Hin). cli_simpl.
  unfold bind at 1, lift at 1. rewrite Hn.
  cli_input.
  unfold bind at 1, lift at 1. rewrite Hm.
  cli_print. cli_input. cli_print.
  unfold bind at 1.
  match goal with
  | |- context [input_coefficients _ _ ?w'] =>
      destruct (input_coefficients_run "" n objs objective w'
                  (flat_map constraint_lines cons ++ rest) Hlo Hobj eq_refl)
        as (out1 & H1)
  end.
  rewrite H1. clear H1. cli_simpl.
  unfold bind at 1.
  destruct (startswith "max" (str_lower ty)) eqn:Hmax.
  - unfold bind at 1, modify at 1, ret at 1. cli_simpl.
    cli_print.
    unfold bind at 1. unfold range. rewrite <- Hlc.
    match goal with
    | |- context [fold_M _ _ _ ?w'] =>
        destruct (input_constraints_from n cons cs 0 no_rows w' rest Hw Hcs
                    eq_refl) as (out2 & H2)
    end.
    rewrite H2. clear H2. cli_simpl. fold (normalize cs).
    unfold bind, lift, modify.
    rewrite (array2_or_none_widths _ _ Hu), (array2_or_none_widths _ _ He).
    rewrite !array1_or_none_present. cli_simpl.
    eexists. unfold entered_problem, set_problem, update_problem.
    cbn [store_maximize p_maximize problem stdin stdout directory solver_calls].
    rewrite <- !app_assoc. reflexivity.
  - unfold bind at 1, modify at 1, ret at 1. cli_simpl.
    cli_print.
    unfold bind at 1. unfold range. rewrite <- Hlc.
    match goal with
    | |- context [fold_M _ _ _ ?w'] =>
        destruct (input_constraints_from n cons cs 0 no_rows w' rest Hw Hcs
                    eq_refl) as (out2 & H2)
    end.
    rewrite H2. clear H2. cli_simpl. fold (normalize cs).
    unfold bind, lift, modify.
    rewrite (array2_or_none_widths _ _ Hu), (array2_or_none_widths _ _ He).
    rewrite !array1_or_none_present. cli_simpl.
    eexists. unfold entered_problem, set_problem, update_problem.
    cbn [store_maximize p_maximize problem stdin stdout directory solver_calls].
    rewrite <- !app_assoc. reflexivity.
Qed.

End CommandLine.

(** ** Where a routed row lands *)

Lemma present_nth {A} (l : list A) (j : nat) (v : A) :
  nth_error l j = Some v -> present l = Some l.
Proof. destruct l; [destruct j; discriminate | reflexivity]. Qed.

Lemma present_none {A} (l : list A) : present l = None <-> l = [].
Proof. destruct l; simpl; split; intros H; congruence. Qed.

Lemma contribution_at (rowf : constraint -> list (list float * float))
  (cs : list constraint) : forall (i : nat) (k : constraint) r b,
  nth_error cs i = Some k ->
  rowf k = [(r, b)] ->
  nth_error (map fst (flat_map rowf cs))
            (List.length (flat_map rowf (firstn i cs))) = Some r /\
  nth_error (map snd (flat_map rowf cs))
            (List.length (flat_map rowf (firstn i cs))) = Some b.
Proof.
  induction cs as [|c cs IH]; intros i k r b Hk Hrow.
  - destruct i; discriminate.
  - destruct i as [|i]; simpl in Hk.
    + injection Hk as ->. simpl. rewrite Hrow. simpl. split; reflexivity.
    + destruct (IH i k r b Hk Hrow) as [Hr Hb].
      simpl. rewrite !map_app, !length_app.
      rewrite !nth_error_app2 by (rewrite length_map; lia).
      rewrite !length_map.
      replace (List.length (rowf c) + _ - List.length (rowf c))%nat
        with (List.length (flat_map rowf (firstn i cs))) by lia.
      split; assumption.
Qed.

(** The row and the bound a constraint contributes sit at the same index of
    [A_ub] and [b_ub]. *)
Lemma ub_row_at cs i k r b :
  nth_error cs i = Some k ->
  ub_row k = [(r, b)] ->
  nth_error (A_ub (normalize cs)) (ub_index cs i) = Some r /\
  nth_error (b_ub (normalize cs)) (ub_index cs i) = Some b.
Proof.
  intros Hk Hrow. rewrite normalize_rows. simpl.
  apply (contribution_at ub_row cs i k r b Hk Hrow).
Qed.

Lemma eq_row_at cs i k r b :
  nth_error cs i = Some k ->
  eq_row k = [(r, b)] ->
  nth_error (A_eq (normalize cs)) (eq_index cs i) = Some r /\
  nth_error (b_eq (normalize cs)) (eq_index cs i) = Some b.
Proof.
  intros Hk Hrow. rewrite normalize_rows. simpl.
  apply (contribution_at eq_row cs i k r b Hk Hrow).
Qed.

Lemma flat_map_nil_iff {A B} (f : A -> list B) (l : list A) :
  flat_map f l = [] <-> Forall (fun a => f a = []) l.
Proof.
  induction l as [|a l IH]; simpl.
  - split; intros _; [constructor | reflexivity].
  - split.
    + intros H. apply app_eq_nil in H as [Ha Hl].
      constructor; [assumption | apply IH; assumption].
    + intros H. inversion H as [|? ? Ha Hl]; subst.
      rewrite Ha. apply IH. assumption.
Qed.

Lemma map_nil_iff {A B} (f : A -> B) (l : list A) : map f l = [] <-> l = [].
Proof. destruct l; simpl; split; intros H; congruence. Qed.

Lemma ub_row_nil k : ub_row k = [] <-> is_inequality (operator_of k) = false.
Proof.
  unfold ub_row, is_inequality.
  destruct (operator_of k =? "<="); simpl; [split; discriminate|].
  destruct (operator_of k =? ">="); simpl; split; congruence.
Qed.

Lemma eq_row_nil k : eq_row k = [] <-> is_inequality (operator_of k) = true.
Proof.
  unfold eq_row. destruct (is_inequality (operator_of k)); split; congruence.
Qed.

Lemma contribution_empty (rowf : constraint -> list (list float * float))
  (P : constraint -> Prop) (cs : list constraint) :
  (forall k, rowf k = [] <-> P k) ->
  (map fst (flat_map rowf cs) = [] <-> Forall P cs) /\
  (map snd (flat_map rowf cs) = [] <-> Forall P cs).
Proof.
  intros HP.
  assert (Hflat : flat_map rowf cs = [] <-> Forall P cs).
  { split; intros H.
    - apply flat_map_nil_iff in H.
      eapply Forall_impl; [|exact H]. intros k Hk. apply HP. exact Hk.
    - apply flat_map_nil_iff.
      eapply Forall_impl; [|exact H]. intros k Hk. apply HP. exact Hk. }
  split; (split; intros H;
          [apply Hflat; apply map_nil_iff in H; exact H
          |apply map_nil_iff; apply Hflat; exact H]).
Qed.

(** [A_ub] and [b_ub] are empty exactly when no operator is ["<="] or
    [">="]; [A_eq] and [b_eq] exactly when every operator is one of them. *)
Lemma normalize_empty cs :
  (A_ub (normalize cs) = [] <->
   Forall (fun k => is_inequality (operator_of k) = false) cs) /\
  (b_ub (normalize cs) = [] <->
   Forall (fun k => is_inequality (operator_of k) = false) cs) /\
  (A_eq (normalize cs) = [] <->
   Forall (fun k => is_inequality (operator_of k) = true) cs) /\
  (b_eq (normalize cs) = [] <->
   Forall (fun k => is_inequality (operator_of k) = true) cs).
Proof.
  rewrite normalize_rows. simpl.
  destruct (contribution_empty ub_row
              (fun k => is_inequality (operator_of k) = false) cs ub_row_nil)
    as [Hua Hub].
  destruct (contribution_empty eq_row
              (fun k => is_inequality (operator_of k) = true) cs eq_row_nil)
    as [Hea Heb].
  repeat split; first [apply Hua | apply Hub | apply Hea | apply Heb]; assumption.
Qed.

Lemma is_inequality_spec op :
  is_inequality op = false <-> op <> "<=" /\ op <> ">=".
Proof.
  unfold is_inequality. rewrite orb_false_iff.
  rewrite !String.eqb_neq. reflexivity.
Qed.

Lemma valid_not_inequality op :
  valid_operator op = true -> (is_inequality op = true <-> op <> "=").
Proof.
  unfold valid_operator, is_inequality.
  destruct (String.eqb_spec op "<=") as [->|H1]; simpl.
  - intros _. split; [discriminate | reflexivity].
  - destruct (String.eqb_spec op ">=") as [->|H2]; simpl.
    + intros _. split; [discriminate | reflexivity].
    + destruct (String.eqb_spec op "=") as [->|H3]; [|discriminate].
      intros _. split; [discriminate | congruence].
Qed.

(** ** The command line: [display_results] and [solve] *)

Section CommandLineSolve.
Context {RT : Runtime}.

Lemma print_each {X} (g : X -> string) (xs : list X) : forall w,
  for_each xs (fun v => print (g v)) w =
  (Ok tt,
   Cli (problem w) (stdin w) (stdout w ++ map g xs) (directory w)
       (solver_calls w)).
Proof.
  induction xs as [|v xs IH]; intros w; cbn [for_each map].
  - unfold ret. rewrite app_nil_r, cli_eta. reflexivity.
  - cli_print. rewrite IH. cli_simpl.
    rewrite <- app_assoc. reflexivity.
Qed.

Lemma display_results_success w result mx v xs :
  res_success result = true ->
  p_maximize (problem w) = Some mx ->
  res_fun result = Some v ->
  res_x result = Some xs ->
  display_results result w =
  (Ok tt,
   Cli (problem w) (stdin w)
       (stdout w ++ success_lines result mx (if mx then neg v else v) xs)
       (directory w) (solver_calls w)).
Proof.
  intros Hs Hmx Hv Hxs. unfold display_results.
  do 3 cli_print. rewrite Hs. do 2 cli_print.
  cli_getitem Hmx. rewrite Hv.
  destruct mx.
  - unfold bind at 1, lift at 1. cli_getitem Hmx.
    unfold bind at 1, lift at 1.
    do 2 cli_print.
    unfold bind at 1, lift at 1. rewrite Hxs.
    unfold bind at 1. rewrite print_each. cli_simpl.
    do 2 cli_print. rewrite print_run. cli_simpl.
    unfold success_lines. rewrite <- !app_assoc. reflexivity.
  - unfold bind at 1, ret at 1. cli_getitem Hmx.
    unfold bind at 1, lift at 1.
    do 2 cli_print.
    unfold bind at 1, lift at 1. rewrite Hxs.
    unfold bind at 1. rewrite print_each. cli_simpl.
    do 2 cli_print. rewrite print_run. cli_simpl.
    unfold success_lines. rewrite <- !app_assoc. reflexivity.
Qed.

Lemma display_results_failure w result :
  res_success result = false ->
  display_results result w =
  (Ok tt,
   Cli (problem w) (stdin w) (stdout w ++ failure_lines (res_message result))
       (directory w) (solver_calls w)).
Proof.
  intros Hs. unfold display_results.
  do 3 cli_print. rewrite Hs.
  do 5 cli_print. rewrite print_run. cli_simpl.
  unfold failure_lines. rewrite <- !app_assoc. reflexivity.
Qed.

(** Whatever it prints, and whether it raises or not, [display_results]
    only adds lines to the output. *)
Lemma display_results_prints result w :
  exists r out,
    display_results result w =
    (r, Cli (problem w) (stdin w) (stdout w ++ out) (directory w)
            (solver_calls w)).
Proof.
  destruct (res_success result) eqn:Hs.
  2:{ rewrite (display_results_failure w result Hs). eauto. }
  destruct (p_maximize (problem w)) as [mx|] eqn:Hmx.
  2:{ do 2 eexists. unfold display_results.
      do 3 cli_print. rewrite Hs. do 2 cli_print.
      cli_getitem Hmx. rewrite <- !app_assoc. reflexivity. }
  destruct (res_fun result) as [v|] eqn:Hv.
  2:{ destruct mx; do 2 eexists; unfold display_results;
        do 3 cli_print; rewrite Hs; do 2 cli_print;
        cli_getitem Hmx; rewrite Hv.
      - unfold bind at 1, lift at 1. rewrite <- !app_assoc. reflexivity.
      - unfold bind at 1, ret at 1. cli_getitem Hmx.
        unfold bind at 1, lift at 1. rewrite <- !app_assoc. reflexivity. }
  destruct (res_x result) as [xs|] eqn:Hxs.
  - rewrite (display_results_success w result mx v xs Hs Hmx Hv Hxs). eauto.
  - destruct mx; do 2 eexists; unfold display_results;
      do 3 cli_print; rewrite Hs; do 2 cli_print;
      cli_getitem Hmx; rewrite Hv.
    + unfold bind at 1, lift at 1. cli_getitem Hmx.
      unfold bind at 1, lift at 1.
      do 2 cli_print.
      unfold bind at 1, lift at 1. rewrite Hxs.
      rewrite <- !app_assoc. reflexivity.
    + unfold bind at 1, ret at 1. cli_getitem Hmx.
      unfold bind at 1, lift at 1.
      do 2 cli_print.
      unfold bind at 1, lift at 1. rewrite Hxs.
      rewrite <- !app_assoc. reflexivity.
Qed.

Lemma solve_calls w c A_ub' b_ub' A_eq' b_eq' n :
  p_num_vars (problem w) = Some n ->
  p_c (problem w) = Some c ->
  p_A_ub (problem w) = Some A_ub' ->
  p_b_ub (problem w) = Some b_ub' ->
  p_A_eq (problem w) = Some A_eq' ->
  p_b_eq (problem w) = Some b_eq' ->
  solver_calls (snd (solve w)) =
  solver_calls w ++ [stored_arguments c A_ub' b_ub' A_eq' b_eq' n] /\
  problem (snd (solve w)) = problem w.
Proof.
  intros Hn Hc Hau Hbu Hae Hbe.
  assert (H : exists out,
             solve w =
             (Ok tt,
              Cli (problem w) (stdin w) (stdout w ++ out) (directory w)
                (solver_calls w
                 ++ [stored_arguments c A_ub' b_ub' A_eq' b_eq' n]))).
  { unfold solve. do 3 cli_print.
    unfold try_except.
    cli_getitem Hn. cli_getitem Hc. cli_getitem Hau. cli_getitem Hbu.
    cli_getitem Hae. cli_getitem Hbe.
    unfold bind at 1, call_linprog at 1, set_solver_calls. cli_simpl.
    fold (stored_arguments c A_ub' b_ub' A_eq' b_eq' n).
    destruct (linprog _) as [result|e].
    - match goal with
      | |- context [display_results ?r ?s] =>
          destruct (display_results_prints r s) as (res & out & Hd)
      end.
      rewrite Hd. cli_simpl. destruct res as [[]|e].
      + eexists. rewrite <- !app_assoc. reflexivity.
      + rewrite print_run. cli_simpl.
        eexists. rewrite <- !app_assoc. reflexivity.
    - rewrite print_run. cli_simpl.
      eexists. rewrite <- !app_assoc. reflexivity. }
  destruct H as (out & ->). split; reflexivity.
Qed.

End CommandLineSolve.

(** ** A routed row, seen from the form and from the command line *)

Section Routed.
Context {RT : Runtime}.

Lemma range_nth (m : Z) (i : nat) :
  (i < Z.to_nat m)%nat -> nth_error (range m) i = Some i.
Proof.
  intros H. unfold range.
  rewrite nth_error_nth' with (d := O) by (rewrite length_seq; exact H).
  rewrite seq_nth by exact H. reflexivity.
Qed.

(** What the form's loop reads in turn [i] is element [i] of what it has
    read in all. *)
Lemma form_constraint_at st cs i k :
  map_result (LinearProgrammingInterface.read_constraint st)
    (range (LinearProgrammingInterface.num_constraints st)) = Ok cs ->
  (i < Z.to_nat (LinearProgrammingInterface.num_constraints st))%nat ->
  LinearProgrammingInterface.read_constraint st i = Ok k ->
  nth_error cs i = Some k.
Proof.
  intros Hcs Hi Hk.
  destruct (map_result_nth _ _ _ i i Hcs (range_nth _ _ Hi)) as (k' & Hk' & Hn).
  congruence.
Qed.

Lemma form_ub st objective cs i k r b :
  map_result py_float (LinearProgrammingInterface.obj_entries st)
  = Ok objective ->
  map_result (LinearProgrammingInterface.read_constraint st)
    (range (LinearProgrammingInterface.num_constraints st)) = Ok cs ->
  nth_error cs i = Some k ->
  ub_row k = [(r, b)] ->
  exists args rows bs,
    LinearProgrammingInterface.solver_input st = Ok args /\
    LinearProgrammingInterface.solver_calls
      (snd (LinearProgrammingInterface.solve_problem st))
    = LinearProgrammingInterface.solver_calls st ++ [args] /\
    arg_A_ub args = Some rows /\ arg_b_ub args = Some bs /\
    nth_error rows (ub_index cs i) = Some r /\
    nth_error bs (ub_index cs i) = Some b.
Proof.
  intros Hobj Hcs Hk Hrow.
  destruct (ub_row_at cs i k r b Hk Hrow) as [Hr Hb].
  pose proof (solver_input_ok st objective cs Hobj Hcs) as Hin.
  exists (arguments st objective cs), (A_ub (normalize cs)), (b_ub (normalize cs)).
  split; [assumption|].
  split; [apply solve_problem_calls; assumption|].
  unfold arguments; simpl.
  split; [apply (present_nth _ _ _ Hr)|].
  split; [apply (present_nth _ _ _ Hb)|].
  split; assumption.
Qed.

Lemma form_eq st objective cs i k r b :
  map_result py_float (LinearProgrammingInterface.obj_entries st)
  = Ok objective ->
  map_result (LinearProgrammingInterface.read_constraint st)
    (range (LinearProgrammingInterface.num_constraints st)) = Ok cs ->
  nth_error cs i = Some k ->
  eq_row k = [(r, b)] ->
  exists args rows bs,
    LinearProgrammingInterface.solver_input st = Ok args /\
    LinearProgrammingInterface.solver_calls
      (snd (LinearProgrammingInterface.solve_problem st))
    = LinearProgrammingInterface.solver_calls st ++ [args] /\
    arg_A_eq args = Some rows /\ arg_b_eq args = Some bs /\
    nth_error rows (eq_index cs i) = Some r /\
    nth_error bs (eq_index cs i) = Some b.
Proof.
  intros Hobj Hcs Hk Hrow.
  destruct (eq_row_at cs i k r b Hk Hrow) as [Hr Hb].
  pose proof (solver_input_ok st objective cs Hobj Hcs) as Hin.
  exists (arguments st objective cs), (A_eq (normalize cs)), (b_eq (normalize cs)).
  split; [assumption|].
  split; [apply solve_problem_calls; assumption|].
  unfold arguments; simpl.
  split; [apply (present_nth _ _ _ Hr)|].
  split; [apply (present_nth _ _ _ Hb)|].
  split; assumption.
Qed.

Lemma session_ub w nv nc ty objs cons rest n m objective cs i k r b :
  stdin w = script nv nc ty objs cons ++ rest ->
  py_int nv = Ok n ->
  py_int nc = Ok m ->
  List.length objs = Z.to_nat n ->
  map_result py_float objs = Ok objective ->
  List.length cons = Z.to_nat m ->
  Forall (fun k => List.length (typed_coefficients k) = Z.to_nat n) cons ->
  map_result parse_typed_constraint cons = Ok cs ->
  nth_error cs i = Some k ->
  ub_row k = [(r, b)] ->
  exists w' rows bs,
    input_problem w = (Ok tt, w') /\
    p_A_ub (problem w') = Some (Some rows) /\
    p_b_ub (problem w') = Some (Some bs) /\
    nth_error rows (ub_index cs i) = Some r /\
    nth_error bs (ub_index cs i) = Some b.
Proof.
  intros Hin Hn Hm Hlo Hobj Hlc Hw Hcs Hk Hrow.
  destruct (ub_row_at cs i k r b Hk Hrow) as [Hr Hb].
  destruct (input_problem_run w nv nc ty objs cons rest n m objective cs
              Hin Hn Hm Hlo Hobj Hlc Hw Hcs) as (out & Hrun).
  eexists. exists (A_ub (normalize cs)), (b_ub (normalize cs)).
  split; [exact Hrun|]. cbn [problem entered_problem p_A_ub p_b_ub].
  rewrite (present_nth _ _ _ Hr), (present_nth _ _ _ Hb).
  repeat split; assumption.
Qed.

Lemma session_eq w nv nc ty objs cons rest n m objective cs i k r b :
  stdin w = script nv nc ty objs cons ++ rest ->
  py_int nv = Ok n ->
  py_int nc = Ok m ->
  List.length objs = Z.to_nat n ->
  map_result py_float objs = Ok objective ->
  List.length cons = Z.to_nat m ->
  Forall (fun k => List.length (typed_coefficients k) = Z.to_nat n) cons ->
  map_result parse_typed_constraint cons = Ok cs ->
  nth_error cs i = Some k ->
  eq_row k = [(r, b)] ->
  exists w' rows bs,
    input_problem w = (Ok tt, w') /\
    p_A_eq (problem w') = Some (Some rows) /\
    p_b_eq (problem w') = Some (Some bs) /\
    nth_error rows (eq_index cs i) = Some r /\
    nth_error bs (eq_index cs i) = Some b.
Proof.
  intros Hin Hn Hm Hlo Hobj Hlc Hw Hcs Hk Hrow.
  destruct (eq_row_at cs i k r b Hk Hrow) as [Hr Hb].
  destruct (input_problem_run w nv nc ty objs cons rest n m objective cs
              Hin Hn Hm Hlo Hobj Hlc Hw Hcs) as (out & Hrun).
  eexists. exists (A_eq (normalize cs)), (b_eq (normalize cs)).
  split; [exact Hrun|]. cbn [problem entered_problem p_A_eq p_b_eq].
  rewrite (present_nth _ _ _ Hr), (present_nth _ _ _ Hb).
  repeat split; assumption.
Qed.

Lemma eq_row_other a b op :
  is_inequality op = false -> eq_row (a, b, op) = [(a, b)].
Proof. unfold eq_row; simpl. intros ->. reflexivity. Qed.

End Routed.

(** * The claims *)

(** ** The objective vector *)

(** C3. The vector [c] handed to the solver is the objective as entered when
    the sense is minimize and its element-wise negation when the sense is
    maximize.  In the form: whenever the entries read as floats, [linprog]
    is called, and its [c] is the list of the objective entries, negated
    element by element exactly when the sense variable is ["maximize"].  At
    the command line: after a dialogue, the stored ['c'] is the list of the
    coefficients typed, negated exactly when the lower-cased answer starts
    with ["max"], and ['maximize'] records that sense. *)
Theorem C3_canonical_objective (RT : Runtime) :
  (forall (st : LinearProgrammingInterface.app) objective cs,
      map_result py_float (LinearProgrammingInterface.obj_entries st)
      = Ok objective ->
      map_result (LinearProgrammingInterface.read_constraint st)
        (range (LinearProgrammingInterface.num_constraints st)) = Ok cs ->
      exists args,
        LinearProgrammingInterface.solver_input st = Ok args /\
        LinearProgrammingInterface.solver_calls
          (snd (LinearProgrammingInterface.solve_problem st))
        = LinearProgrammingInterface.solver_calls st ++ [args] /\
        List.length (arg_c args) = List.length objective /\
        arg_c args =
        if LinearProgrammingInterface.objective_type st =? "maximize"
        then map neg objective else objective) /\
  (forall (w : LPSolverCLI.cli) nv nc ty objs cons rest n m objective cs,
      LPSolverCLI.stdin w = script nv nc ty objs cons ++ rest ->
      py_int nv = Ok n ->
      py_int nc = Ok m ->
      List.length objs = Z.to_nat n ->
      map_result py_float objs = Ok objective ->
      List.length cons = Z.to_nat m ->
      Forall (fun k => List.length (typed_coefficients k) = Z.to_nat n) cons ->
      map_result parse_typed_constraint cons = Ok cs ->
      exists w',
        LPSolverCLI.input_problem w = (Ok tt, w') /\
        LPSolverCLI.p_maximize (LPSolverCLI.problem w')
        = Some (startswith "max" (str_lower ty)) /\
        LPSolverCLI.p_c (LPSolverCLI.problem w')
        = Some (if startswith "max" (str_lower ty)
                then map neg objective else objective)).
Proof.
  split.
  - intros st objective cs Hobj Hcs.
    exists (arguments st objective cs).
    pose proof (solver_input_ok st objective cs Hobj Hcs) as Hin.
    split; [assumption|].
    split; [apply solve_problem_calls; assumption|].
    unfold arguments; simpl.
    split; [|reflexivity].
    destruct (LinearProgrammingInterface.objective_type st =? "maximize");
      [apply length_map | reflexivity].
  - intros w nv nc ty objs cons rest n m objective cs
           Hin Hn Hm Hlo Hobj Hlc Hw Hcs.
    destruct (input_problem_run w nv nc ty objs cons rest n m objective cs
                Hin Hn Hm Hlo Hobj Hlc Hw Hcs) as (out & Hrun).
    eexists. split; [exact Hrun|]. split; reflexivity.
Qed.

Lemma C3_canonical_objective_witness :
  (exists args,
      LinearProgrammingInterface.solver_input (RT := Sample.runtime)
        Examples.production_form = Ok args /\
      LinearProgrammingInterface.solver_calls
        (snd (LinearProgrammingInterface.solve_problem (RT := Sample.runtime)
                Examples.production_form))
      = [args] /\
      List.length (arg_c args) = 2%nat /\
      arg_c args = [Examples.f (-3); Examples.f (-2)]) /\
  (exists w',
      LPSolverCLI.input_problem (RT := Sample.runtime)
        (Examples.session Examples.mixed_lines) = (Ok tt, w') /\
      LPSolverCLI.p_maximize (LPSolverCLI.problem w') = Some false /\
      LPSolverCLI.p_c (LPSolverCLI.problem w')
      = Some [Examples.f 2; Examples.f 3; Examples.f 1]).
Proof.
  split.
  - apply (proj1 (C3_canonical_objective Sample.runtime)
             Examples.production_form [Examples.f 3; Examples.f 2]
             Examples.production_constraints); reflexivity.
  - apply (proj2 (C3_canonical_objective Sample.runtime)
             (Examples.session Examples.mixed_lines)
             "3" "4" "min" ["2"; "3"; "1"] Examples.mixed_typed [] 3%Z 4%Z
             [Examples.f 2; Examples.f 3; Examples.f 1]
             Examples.mixed_constraints);
      try reflexivity.
    repeat constructor.
Defined.

(** ** The routing of the constraints *)

(** C4. A constraint with operator [">="], coefficients [a] and bound [b]
    puts the row [-a] (every coefficient negated) into [A_ub] and [-b]
    into [b_ub], at the same index, the other two lists staying as they
    are.  This holds of one turn of the loop, of the arrays the form passes
    to [linprog], and of the arrays the command line stores. *)
Theorem C4_greater_or_equal_negated (RT : Runtime) :
  (forall acc a b,
      route acc a b ">=" =
      Rows (A_ub acc ++ [map neg a]) (b_ub acc ++ [neg b])
           (A_eq acc) (b_eq acc)) /\
  (forall (st : LinearProgrammingInterface.app) objective cs i a b,
      map_result py_float (LinearProgrammingInterface.obj_entries st)
      = Ok objective ->
      map_result (LinearProgrammingInterface.read_constraint st)
        (range (LinearProgrammingInterface.num_constraints st)) = Ok cs ->
      (i < Z.to_nat (LinearProgrammingInterface.num_constraints st))%nat ->
      LinearProgrammingInterface.read_constraint st i = Ok (a, b, ">=") ->
      exists args rows bs,
        LinearProgrammingInterface.solver_input st = Ok args /\
        LinearProgrammingInterface.solver_calls
          (snd (LinearProgrammingInterface.solve_problem st))
        = LinearProgrammingInterface.solver_calls st ++ [args] /\
        arg_A_ub args = Some rows /\ arg_b_ub args = Some bs /\
        nth_error rows (ub_index cs i) = Some (map neg a) /\
        nth_error bs (ub_index cs i) = Some (neg b)) /\
  (forall (w : cli) nv nc ty objs cons rest n m objective cs i k a b,
      stdin w = script nv nc ty objs cons ++ rest ->
      py_int nv = Ok n ->
      py_int nc = Ok m ->
      List.length objs = Z.to_nat n ->
      map_result py_float objs = Ok objective ->
      List.length cons = Z.to_nat m ->
      Forall (fun k => List.length (typed_coefficients k) = Z.to_nat n) cons ->
      map_result parse_typed_constraint cons = Ok cs ->
      nth_error cons i = Some k ->
      parse_typed_constraint k = Ok (a, b, ">=") ->
      exists w' rows bs,
        input_problem w = (Ok tt, w') /\
        p_A_ub (problem w') = Some (Some rows) /\
        p_b_ub (problem w') = Some (Some bs) /\
        nth_error rows (ub_index cs i) = Some (map neg a) /\
        nth_error bs (ub_index cs i) = Some (neg b)).
Proof.
  split; [intros; apply route_ge|]. split.
  - intros st objective cs i a b Hobj Hcs Hi Hk.
    apply (form_ub st objective cs i (a, b, ">=")); try assumption.
    + apply (form_constraint_at st cs i _ Hcs Hi Hk).
    + reflexivity.
  - intros w nv nc ty objs cons rest n m objective cs i k a b
           Hin Hn Hm Hlo Hobj Hlc Hw Hcs Hk Hp.
    apply (session_ub w nv nc ty objs cons rest n m objective cs i
             (a, b, ">=")); try assumption.
    + destruct (map_result_nth _ _ _ i k Hcs Hk) as (c & Hc & Hnth).
      congruence.
    + reflexivity.
Qed.

Lemma C4_greater_or_equal_negated_witness :
  (exists args rows bs,
      LinearProgrammingInterface.solver_input (RT := Sample.runtime)
        Examples.mixed_form = Ok args /\
      LinearProgrammingInterface.solver_calls
        (snd (LinearProgrammingInterface.solve_problem (RT := Sample.runtime)
                Examples.mixed_form))
      = [args] /\
      arg_A_ub args = Some rows /\ arg_b_ub args = Some bs /\
      nth_error rows 0 = Some [Examples.f (-1); Examples.f (-1); Examples.f (-1)] /\
      nth_error bs 0 = Some (Examples.f (-100))) /\
  (exists w' rows bs,
      input_problem (RT := Sample.runtime)
        (Examples.session Examples.mixed_lines) = (Ok tt, w') /\
      p_A_ub (problem w') = Some (Some rows) /\
      p_b_ub (problem w') = Some (Some bs) /\
      nth_error rows 0 = Some [Examples.f (-1); Examples.f (-1); Examples.f (-1)] /\
      nth_error bs 0 = Some (Examples.f (-100))).
Proof.
  split.
  - apply (proj1 (proj2 (C4_greater_or_equal_negated Sample.runtime))
             Examples.mixed_form
             [Examples.f 2; Examples.f 3; Examples.f 1]
             Examples.mixed_constraints 0%nat
             [Examples.f 1; Examples.f 1; Examples.f 1] (Examples.f 100));
      try reflexivity.
    simpl. lia.
  - apply (proj2 (proj2 (C4_greater_or_equal_negated Sample.runtime))
             (Examples.session Examples.mixed_lines)
             "3" "4" "min" ["2"; "3"; "1"] Examples.mixed_typed [] 3%Z 4%Z
             [Examples.f 2; Examples.f 3; Examples.f 1]
             Examples.mixed_constraints 0%nat
             (["1"; "1"; "1"], " >= ", "100")
             [Examples.f 1; Examples.f 1; Examples.f 1] (Examples.f 100));
      try reflexivity.
    repeat constructor.
Defined.

(** C5. A constraint with operator ["<="] puts its coefficients and its
    bound, unchanged, into [A_ub] and [b_ub]; a constraint with operator
    ["="] puts them, unchanged, into [A_eq] and [b_eq].  This holds of one
    turn of the loop, of the arrays the form passes to [linprog], and of
    the arrays the command line stores. *)
Theorem C5_unchanged_rows (RT : Runtime) :
  (forall acc a b,
      route acc a b "<=" =
      Rows (A_ub acc ++ [a]) (b_ub acc ++ [b]) (A_eq acc) (b_eq acc)) /\
  (forall acc a b,
      route acc a b "=" =
      Rows (A_ub acc) (b_ub acc) (A_eq acc ++ [a]) (b_eq acc ++ [b])) /\
  (forall (st : LinearProgrammingInterface.app) objective cs i a b,
      map_result py_float (LinearProgrammingInterface.obj_entries st)
      = Ok objective ->
      map_result (LinearProgrammingInterface.read_constraint st)
        (range (LinearProgrammingInterface.num_constraints st)) = Ok cs ->
      (i < Z.to_nat (LinearProgrammingInterface.num_constraints st))%nat ->
      (LinearProgrammingInterface.read_constraint st i = Ok (a, b, "<=") ->
       exists args rows bs,
         LinearProgrammingInterface.solver_input st = Ok args /\
         LinearProgrammingInterface.solver_calls
           (snd (LinearProgrammingInterface.solve_problem st))
         = LinearProgrammingInterface.solver_calls st ++ [args] /\
         arg_A_ub args = Some rows /\ arg_b_ub args = Some bs /\
         nth_error rows (ub_index cs i) = Some a /\
         nth_error bs (ub_index cs i) = Some b) /\
      (LinearProgrammingInterface.read_constraint st i = Ok (a, b, "=") ->
       exists args rows bs,
         LinearProgrammingInterface.solver_input st = Ok args /\
         LinearProgrammingInterface.solver_calls
           (snd (LinearProgrammingInterface.solve_problem st))
         = LinearProgrammingInterface.solver_calls st ++ [args] /\
         arg_A_eq args = Some rows /\ arg_b_eq args = Some bs /\
         nth_error rows (eq_index cs i) = Some a /\
         nth_error bs (eq_index cs i) = Some b)) /\
  (forall (w : cli) nv nc ty objs cons rest n m objective cs i k a b,
      stdin w = script nv nc ty objs cons ++ rest ->
      py_int nv = Ok n ->
      py_int nc = Ok m ->
      List.length objs = Z.to_nat n ->
      map_result py_float objs = Ok objective ->
      List.length cons = Z.to_nat m ->
      Forall (fun k => List.length (typed_coefficients k) = Z.to_nat n) cons ->
      map_result parse_typed_constraint cons = Ok cs ->
      nth_error cons i = Some k ->
      (parse_typed_constraint k = Ok (a, b, "<=") ->
       exists w' rows bs,
         input_problem w = (Ok tt, w') /\
         p_A_ub (problem w') = Some (Some rows) /\
         p_b_ub (problem w') = Some (Some bs) /\
         nth_error rows (ub_index cs i) = Some a /\
         nth_error bs (ub_index cs i) = Some b) /\
      (parse_typed_constraint k = Ok (a, b, "=") ->
       exists w' rows bs,
         input_problem w = (Ok tt, w') /\
         p_A_eq (problem w') = Some (Some rows) /\
         p_b_eq (problem w') = Some (Some bs) /\
         nth_error rows (eq_index cs i) = Some a /\
         nth_error bs (eq_index cs i) = Some b)).
Proof.
  split; [intros; apply route_le|].
  split; [intros; apply route_other; reflexivity|].
  split.
  - intros st objective cs i a b Hobj Hcs Hi. split; intros Hk.
    + apply (form_ub st objective cs i (a, b, "<=")); try assumption.
      * apply (form_constraint_at st cs i _ Hcs Hi Hk).
      * reflexivity.
    + apply (form_eq st objective cs i (a, b, "=")); try assumption.
      * apply (form_constraint_at st cs i _ Hcs Hi Hk).
      * reflexivity.
  - intros w nv nc ty objs cons rest n m objective cs i k a b
           Hin Hn Hm Hlo Hobj Hlc Hw Hcs Hk.
    destruct (map_result_nth _ _ _ i k Hcs Hk) as (c & Hc & Hnth).
    split; intros Hp.
    + apply (session_ub w nv nc ty objs cons rest n m objective cs i
               (a, b, "<=")); try assumption; [congruence | reflexivity].
    + apply (session_eq w nv nc ty objs cons rest n m objective cs i
               (a, b, "=")); try assumption; [congruence | reflexivity].
Qed.

Lemma C5_unchanged_rows_witness :
  (exists args rows bs,
      LinearProgrammingInterface.solver_input (RT := Sample.runtime)
        Examples.mixed_form = Ok args /\
      LinearProgrammingInterface.solver_calls
        (snd (LinearProgrammingInterface.solve_problem (RT := Sample.runtime)
                Examples.mixed_form))
      = [args] /\
      arg_A_ub args = Some rows /\ arg_b_ub args = Some bs /\
      nth_error rows 1 = Some [Examples.f 2; Examples.f 1; Examples.f 3] /\
      nth_error bs 1 = Some (Examples.f 200)) /\
  (exists w' rows bs,
      input_problem (RT := Sample.runtime)
        (Examples.session Examples.mixed_lines) = (Ok tt, w') /\
      p_A_eq (problem w') = Some (Some rows) /\
      p_b_eq (problem w') = Some (Some bs) /\
      nth_error rows 0 = Some [Examples.f 1; Examples.f 0; Examples.f 0] /\
      nth_error bs 0 = Some (Examples.f 5)).
Proof.
  split.
  - apply (proj1 (proj1 (proj2 (proj2 (C5_unchanged_rows Sample.runtime)))
                    Examples.mixed_form
                    [Examples.f 2; Examples.f 3; Examples.f 1]
                    Examples.mixed_constraints 1%nat
                    [Examples.f 2; Examples.f 1; Examples.f 3]
                    (Examples.f 200) eq_refl eq_refl
                    ltac:(simpl; lia)));
      reflexivity.
  - apply (proj2 (proj2 (proj2 (proj2 (C5_unchanged_rows Sample.runtime)))
                    (Examples.session Examples.mixed_lines)
                    "3" "4" "min" ["2"; "3"; "1"] Examples.mixed_typed []
                    3%Z 4%Z
                    [Examples.f 2; Examples.f 3; Examples.f 1]
                    Examples.mixed_constraints 2%nat
                    (["1"; "0"; "0"], "=", "5")
                    [Examples.f 1; Examples.f 0; Examples.f 0] (Examples.f 5)
                    eq_refl eq_refl eq_refl eq_refl eq_refl eq_refl
                    ltac:(repeat constructor) eq_refl eq_refl));
      reflexivity.
Defined.

Lemma map_result_each {X A} (f : X -> result A) (xs : list X) (l : list A) :
  map_result f xs = Ok l -> forall x, In x xs -> exists a, f x = Ok a.
Proof.
  revert l; induction xs as [|y xs IH]; simpl; intros l H x Hx; [tauto|].
  apply rbind_ok in H as (a & Ha & H).
  apply rbind_ok in H as (l' & Hl' & _).
  destruct Hx as [<-|Hx]; eauto.
Qed.

Lemma map_result_all {X A} (f : X -> result A) (xs : list X) :
  (forall x, In x xs -> exists a, f x = Ok a) ->
  exists l, map_result f xs = Ok l.
Proof.
  induction xs as [|y xs IH]; simpl; intros H; [eauto|].
  destruct (H y (or_introl eq_refl)) as (a & ->).
  destruct IH as (l & ->); [intros x Hx; apply H; auto|].
  simpl. eauto.
Qed.

(** The text of the comboboxes decides nothing about whether the form's
    loop reads a constraint. *)
Lemma read_constraint_any_operator (RT : Runtime)
  (st : LinearProgrammingInterface.app) (tcs : list string) (i : nat) k :
  List.length tcs = List.length (LinearProgrammingInterface.type_combos st) ->
  LinearProgrammingInterface.read_constraint st i = Ok k ->
  exists op,
    nth_error tcs i = Some op /\
    LinearProgrammingInterface.read_constraint
      (LinearProgrammingInterface.set_type_combos tcs st) i
    = Ok (coefficients_of k, bound_of k, op).
Proof.
  intros Hlen H. unfold LinearProgrammingInterface.read_constraint in *.
  apply rbind_ok in H as (row & Hrow & H).
  apply rbind_ok in H as (b & Hb & H).
  apply rbind_ok in H as (bv & Hbv & H).
  apply rbind_ok in H as (ty & Hty & H).
  injection H as <-.
  unfold index in Hty.
  destruct (nth_error (LinearProgrammingInterface.type_combos st) i) eqn:Hn;
    [|discriminate].
  assert (Hi : (i < List.length tcs)%nat).
  { rewrite Hlen. apply nth_error_Some. congruence. }
  destruct (nth_error tcs i) as [op|] eqn:Hop;
    [|apply nth_error_None in Hop; lia].
  exists op. split; [reflexivity|].
  cbn [LinearProgrammingInterface.set_type_combos
         LinearProgrammingInterface.constraint_entries
         LinearProgrammingInterface.bound_entries
         LinearProgrammingInterface.type_combos
         LinearProgrammingInterface.num_variables].
  rewrite Hrow. cbn [rbind]. rewrite Hb. cbn [rbind]. rewrite Hbv. cbn [rbind].
  unfold index. rewrite Hop. reflexivity.
Qed.

(** C10. An operator string that is neither ["<="] nor [">="] is never
    refused: the constraint goes, coefficients and bound unchanged, into
    [A_eq] and [b_eq], exactly as with ["="].  In the form, whatever the
    comboboxes hold, the solver is reached as soon as the numbers read; at
    the command line a constraint is read as soon as its numbers read. *)
Theorem C10_other_operators_are_equalities (RT : Runtime) :
  (forall acc a b op,
      op <> "<=" -> op <> ">=" ->
      route acc a b op =
      Rows (A_ub acc) (b_ub acc) (A_eq acc ++ [a]) (b_eq acc ++ [b]) /\
      route acc a b op = route acc a b "=") /\
  (forall (st : LinearProgrammingInterface.app) objective cs i a b op,
      op <> "<=" -> op <> ">=" ->
      map_result py_float (LinearProgrammingInterface.obj_entries st)
      = Ok objective ->
      map_result (LinearProgrammingInterface.read_constraint st)
        (range (LinearProgrammingInterface.num_constraints st)) = Ok cs ->
      (i < Z.to_nat (LinearProgrammingInterface.num_constraints st))%nat ->
      LinearProgrammingInterface.read_constraint st i = Ok (a, b, op) ->
      exists args rows bs,
        LinearProgrammingInterface.solver_input st = Ok args /\
        LinearProgrammingInterface.solver_calls
          (snd (LinearProgrammingInterface.solve_problem st))
        = LinearProgrammingInterface.solver_calls st ++ [args] /\
        arg_A_eq args = Some rows /\ arg_b_eq args = Some bs /\
        nth_error rows (eq_index cs i) = Some a /\
        nth_error bs (eq_index cs i) = Some b) /\
  (forall (st : LinearProgrammingInterface.app) tcs args,
      List.length tcs
      = List.length (LinearProgrammingInterface.type_combos st) ->
      LinearProgrammingInterface.solver_input st = Ok args ->
      exists args',
        LinearProgrammingInterface.solver_input
          (LinearProgrammingInterface.set_type_combos tcs st) = Ok args' /\
        arg_c args' = arg_c args) /\
  (forall (w : cli) nv nc ty objs cons rest n m objective cs i k a b op,
      op <> "<=" -> op <> ">=" ->
      stdin w = script nv nc ty objs cons ++ rest ->
      py_int nv = Ok n ->
      py_int nc = Ok m ->
      List.length objs = Z.to_nat n ->
      map_result py_float objs = Ok objective ->
      List.length cons = Z.to_nat m ->
      Forall (fun k => List.length (typed_coefficients k) = Z.to_nat n) cons ->
      map_result parse_typed_constraint cons = Ok cs ->
      nth_error cons i = Some k ->
      parse_typed_constraint k = Ok (a, b, op) ->
      exists w' rows bs,
        input_problem w = (Ok tt, w') /\
        p_A_eq (problem w') = Some (Some rows) /\
        p_b_eq (problem w') = Some (Some bs) /\
        nth_error rows (eq_index cs i) = Some a /\
        nth_error bs (eq_index cs i) = Some b) /\
  (forall (k : typed_constraint) row b,
      map_result py_float (typed_coefficients k) = Ok row ->
      py_float (typed_bound k) = Ok b ->
      parse_typed_constraint k = Ok (row, b, str_strip (typed_operator k))).
Proof.
  split.
  { intros acc a b op H1 H2.
    assert (Hop : is_inequality op = false)
      by (apply is_inequality_spec; split; assumption).
    rewrite (route_other acc a b op Hop).
    rewrite (route_other acc a b "=" eq_refl). split; reflexivity. }
  split.
  { intros st objective cs i a b op H1 H2 Hobj Hcs Hi Hk.
    assert (Hop : is_inequality op = false)
      by (apply is_inequality_spec; split; assumption).
    apply (form_eq st objective cs i (a, b, op)); try assumption.
    - apply (form_constraint_at st cs i _ Hcs Hi Hk).
    - apply eq_row_other; assumption. }
  split.
  { intros st tcs args Hlen Hin.
    destruct (solver_input_inv st args Hin) as (objective & cs & Hobj & Hcs & ->).
    destruct (map_result_all
                (LinearProgrammingInterface.read_constraint
                   (LinearProgrammingInterface.set_type_combos tcs st))
                (range (LinearProgrammingInterface.num_constraints st)))
      as (cs' & Hcs').
    { intros i Hi.
      destruct (map_result_each _ _ _ Hcs i Hi) as (k & Hk).
      destruct (read_constraint_any_operator RT st tcs i k Hlen Hk)
        as (op & _ & Hr).
      eauto. }
    exists (arguments (LinearProgrammingInterface.set_type_combos tcs st)
              objective cs').
    split; [|reflexivity].
    apply solver_input_ok; assumption. }
  split.
  { intros w nv nc ty objs cons rest n m objective cs i k a b op H1 H2
           Hin Hn Hm Hlo Hobj Hlc Hw Hcs Hk Hp.
    assert (Hop : is_inequality op = false)
      by (apply is_inequality_spec; split; assumption).
    destruct (map_result_nth _ _ _ i k Hcs Hk) as (c & Hc & Hnth).
    apply (session_eq w nv nc ty objs cons rest n m objective cs i
             (a, b, op)); try assumption; [congruence|].
    apply eq_row_other; assumption. }
  intros k row b Hrow Hb. unfold parse_typed_constraint.
  rewrite Hrow. cbn [rbind]. rewrite Hb. reflexivity.
Qed.

Lemma C10_other_operators_are_equalities_witness :
  (exists args rows bs,
      LinearProgrammingInterface.solver_input (RT := Sample.runtime)
        Examples.mixed_form = Ok args /\
      LinearProgrammingInterface.solver_calls
        (snd (LinearProgrammingInterface.solve_problem (RT := Sample.runtime)
                Examples.mixed_form))
      = [args] /\
      arg_A_eq args = Some rows /\ arg_b_eq args = Some bs /\
      nth_error rows 1 = Some [Examples.f 0; Examples.f 1; Examples.f 0] /\
      nth_error bs 1 = Some (Examples.f 7)) /\
  (exists w' rows bs,
      input_problem (RT := Sample.runtime)
        (Examples.session Examples.mixed_lines) = (Ok tt, w') /\
      p_A_eq (problem w') = Some (Some rows) /\
      p_b_eq (problem w') = Some (Some bs) /\
      nth_error rows 1 = Some [Examples.f 0; Examples.f 1; Examples.f 0] /\
      nth_error bs 1 = Some (Examples.f 7)).
Proof.
  split.
  - apply (proj1 (proj2 (C10_other_operators_are_equalities Sample.runtime))
             Examples.mixed_form
             [Examples.f 2; Examples.f 3; Examples.f 1]
             Examples.mixed_constraints 3%nat
             [Examples.f 0; Examples.f 1; Examples.f 0] (Examples.f 7) "==");
      try reflexivity; try discriminate.
    simpl. lia.
  - apply (proj1 (proj2 (proj2 (proj2
             (C10_other_operators_are_equalities Sample.runtime))))
             (Examples.session Examples.mixed_lines)
             "3" "4" "min" ["2"; "3"; "1"] Examples.mixed_typed [] 3%Z 4%Z
             [Examples.f 2; Examples.f 3; Examples.f 1]
             Examples.mixed_constraints 3%nat
             (["0"; "1"; "0"], "==", "7")
             [Examples.f 0; Examples.f 1; Examples.f 0] (Examples.f 7) "==");
      try reflexivity; try discriminate.
    repeat constructor.
Defined.

(** ** Absent arrays *)

Lemma Forall_iff {A} (P Q : A -> Prop) (l : list A) :
  (forall a, In a l -> (P a <-> Q a)) -> (Forall P l <-> Forall Q l).
Proof.
  intros H. rewrite !Forall_forall.
  split; intros HP a Ha; apply (H a Ha); apply HP; exact Ha.
Qed.

(** Which of the four arrays are [None], for operators of the data model. *)
Lemma present_arrays (cs : list constraint) :
  Forall (fun k => valid_operator (operator_of k) = true) cs ->
  (present (A_ub (normalize cs)) = None <->
   Forall (fun k => operator_of k <> "<=" /\ operator_of k <> ">=") cs) /\
  (present (b_ub (normalize cs)) = None <->
   Forall (fun k => operator_of k <> "<=" /\ operator_of k <> ">=") cs) /\
  (present (A_eq (normalize cs)) = None <->
   Forall (fun k => operator_of k <> "=") cs) /\
  (present (b_eq (normalize cs)) = None <->
   Forall (fun k => operator_of k <> "=") cs).
Proof.
  intros Hvalid.
  destruct (normalize_empty cs) as (Hua & Hub & Hea & Heb).
  assert (Hu : Forall (fun k => is_inequality (operator_of k) = false) cs <->
               Forall (fun k => operator_of k <> "<=" /\ operator_of k <> ">=")
                 cs).
  { apply Forall_iff. intros k _. apply is_inequality_spec. }
  assert (He : Forall (fun k => is_inequality (operator_of k) = true) cs <->
               Forall (fun k => operator_of k <> "=") cs).
  { apply Forall_iff. intros k Hk. apply valid_not_inequality.
    rewrite Forall_forall in Hvalid. apply Hvalid. exact Hk. }
  rewrite !present_none. rewrite <- Hu, <- He.
  repeat split; first [apply Hua | apply Hub | apply Hea | apply Heb];
    assumption.
Qed.

(** C9. The solver gets [None] for [A_ub] and for [b_ub] exactly when no
    constraint has operator ["<="] or [">="], and [None] for [A_eq] and for
    [b_eq] exactly when no constraint has operator ["="]; the operators are
    those of the data model.  In the form this is the call [solve_problem]
    makes; at the command line it is the call [solve] makes after
    [input_problem]. *)
Theorem C9_absent_arrays (RT : Runtime) :
  (forall (st : LinearProgrammingInterface.app) objective cs,
      map_result py_float (LinearProgrammingInterface.obj_entries st)
      = Ok objective ->
      map_result (LinearProgrammingInterface.read_constraint st)
        (range (LinearProgrammingInterface.num_constraints st)) = Ok cs ->
      Forall (fun k => valid_operator (operator_of k) = true) cs ->
      exists args,
        LinearProgrammingInterface.solver_input st = Ok args /\
        LinearProgrammingInterface.solver_calls
          (snd (LinearProgrammingInterface.solve_problem st))
        = LinearProgrammingInterface.solver_calls st ++ [args] /\
        (arg_A_ub args = None <->
         Forall (fun k => operator_of k <> "<=" /\ operator_of k <> ">=") cs) /\
        (arg_b_ub args = None <->
         Forall (fun k => operator_of k <> "<=" /\ operator_of k <> ">=") cs) /\
        (arg_A_eq args = None <-> Forall (fun k => operator_of k <> "=") cs) /\
        (arg_b_eq args = None <-> Forall (fun k => operator_of k <> "=") cs)) /\
  (forall (w : cli) nv nc ty objs cons rest n m objective cs,
      stdin w = script nv nc ty objs cons ++ rest ->
      py_int nv = Ok n ->
      py_int nc = Ok m ->
      List.length objs = Z.to_nat n ->
      map_result py_float objs = Ok objective ->
      List.length cons = Z.to_nat m ->
      Forall (fun k => List.length (typed_coefficients k) = Z.to_nat n) cons ->
      map_result parse_typed_constraint cons = Ok cs ->
      Forall (fun k => valid_operator (operator_of k) = true) cs ->
      exists w' args,
        input_problem w = (Ok tt, w') /\
        solver_calls (snd (solve w')) = solver_calls w' ++ [args] /\
        (arg_A_ub args = None <->
         Forall (fun k => operator_of k <> "<=" /\ operator_of k <> ">=") cs) /\
        (arg_b_ub args = None <->
         Forall (fun k => operator_of k <> "<=" /\ operator_of k <> ">=") cs) /\
        (arg_A_eq args = None <-> Forall (fun k => operator_of k <> "=") cs) /\
        (arg_b_eq args = None <-> Forall (fun k => operator_of k <> "=") cs)).
Proof.
  split.
  - intros st objective cs Hobj Hcs Hvalid.
    exists (arguments st objective cs).
    pose proof (solver_input_ok st objective cs Hobj Hcs) as Hin.
    split; [assumption|].
    split; [apply solve_problem_calls; assumption|].
    apply (present_arrays cs Hvalid).
  - intros w nv nc ty objs cons rest n m objective cs
           Hin Hn Hm Hlo Hobj Hlc Hw Hcs Hvalid.
    destruct (input_problem_run w nv nc ty objs cons rest n m objective cs
                Hin Hn Hm Hlo Hobj Hlc Hw Hcs) as (out & Hrun).
    eexists. eexists. split; [exact Hrun|].
    split.
    + apply solve_calls; reflexivity.
    + apply (present_arrays cs Hvalid).
Qed.

Lemma C9_absent_arrays_witness :
  (exists args,
      LinearProgrammingInterface.solver_input (RT := Sample.runtime)
        Examples.equalities_form = Ok args /\
      LinearProgrammingInterface.solver_calls
        (snd (LinearProgrammingInterface.solve_problem (RT := Sample.runtime)
                Examples.equalities_form))
      = [args] /\
      (arg_A_ub args = None <->
       Forall (fun k => operator_of k <> "<=" /\ operator_of k <> ">=")
         [([Examples.f 1; Examples.f 1], Examples.f 4, "=")]) /\
      (arg_b_ub args = None <->
       Forall (fun k => operator_of k <> "<=" /\ operator_of k <> ">=")
         [([Examples.f 1; Examples.f 1], Examples.f 4, "=")]) /\
      (arg_A_eq args = None <->
       Forall (fun k => operator_of k <> "=")
         [([Examples.f 1; Examples.f 1], Examples.f 4, "=")]) /\
      (arg_b_eq args = None <->
       Forall (fun k => operator_of k <> "=")
         [([Examples.f 1; Examples.f 1], Examples.f 4, "=")])) /\
  (exists w' args,
      input_problem (RT := Sample.runtime)
        (Examples.session Examples.production_lines) = (Ok tt, w') /\
      solver_calls (snd (solve (RT := Sample.runtime) w'))
      = solver_calls w' ++ [args] /\
      (arg_A_ub args = None <->
       Forall (fun k => operator_of k <> "<=" /\ operator_of k <> ">=")
         Examples.production_constraints) /\
      (arg_b_ub args = None <->
       Forall (fun k => operator_of k <> "<=" /\ operator_of k <> ">=")
         Examples.production_constraints) /\
      (arg_A_eq args = None <->
       Forall (fun k => operator_of k <> "=") Examples.production_constraints) /\
      (arg_b_eq args = None <->
       Forall (fun k => operator_of k <> "=") Examples.production_constraints)).
Proof.
  split.
  - apply (proj1 (C9_absent_arrays Sample.runtime)
             Examples.equalities_form [Examples.f 1; Examples.f 1]
             [([Examples.f 1; Examples.f 1], Examples.f 4, "=")]);
      try reflexivity.
    repeat constructor.
  - apply (proj2 (C9_absent_arrays Sample.runtime)
             (Examples.session Examples.production_lines)
             "2" "3" "max" ["3"; "2"] Examples.production_typed [] 2%Z 3%Z
             [Examples.f 3; Examples.f 2] Examples.production_constraints);
      try reflexivity; repeat constructor.
Defined.

(** ** The translation of the solver's result *)









(** ** A solver that reports failure *)



(** ** Saving and loading: the form *)

Module Import FormState.
Import LinearProgrammingInterface.

Ltac gui_simpl :=
  cbn [num_variables num_constraints objective_type obj_entries
       constraint_entries bound_entries type_combos results_text
       optimal_value_label status_label dialogs directory solver_calls
       set_num_variables set_num_constraints set_objective_type
       set_obj_entries set_constraint_entries set_bound_entries
       set_type_combos set_results_text set_optimal_value_label
       set_status_label set_dialogs set_directory set_solver_calls].

Ltac gui_simpl_in H :=
  cbn [num_variables num_constraints objective_type obj_entries
       constraint_entries bound_entries type_combos results_text
       optimal_value_label status_label dialogs directory solver_calls
       set_num_variables set_num_constraints set_objective_type
       set_obj_entries set_constraint_entries set_bound_entries
       set_type_combos set_results_text set_optimal_value_label
       set_status_label set_dialogs set_directory set_solver_calls] in H.

Lemma nth_error_middle {A} (pre post : list A) (v : A) :
  nth_error (pre ++ v :: post) (List.length pre) = Some v.
Proof.
  induction pre as [|a pre IH]; simpl; [reflexivity | exact IH].
Qed.

Lemma list_set_middle {A} (pre post : list A) (v v' : A) :
  list_set (List.length pre) v' (pre ++ v :: post) = pre ++ v' :: post.
Proof.
  induction pre as [|a pre IH]; simpl; [reflexivity | rewrite IH; reflexivity].
Qed.

Lemma set_obj_entry_at st pre post v v' :
  obj_entries st = pre ++ v :: post ->
  set_obj_entry (List.length pre) v' st =
  (Ok tt, set_obj_entries (pre ++ v' :: post) st).
Proof.
  intros H. unfold set_obj_entry.
  rewrite H, nth_error_middle, list_set_middle. reflexivity.
Qed.

Lemma set_type_combo_at st pre post v v' :
  type_combos st = pre ++ v :: post ->
  set_type_combo (List.length pre) v' st =
  (Ok tt, set_type_combos (pre ++ v' :: post) st).
Proof.
  intros H. unfold set_type_combo.
  rewrite H, nth_error_middle, list_set_middle. reflexivity.
Qed.

Lemma set_bound_entry_at st pre post v v' :
  bound_entries st = pre ++ v :: post ->
  set_bound_entry (List.length pre) v' st =
  (Ok tt, set_bound_entries (pre ++ v' :: post) st).
Proof.
  intros H. unfold set_bound_entry.
  rewrite H, nth_error_middle, list_set_middle. reflexivity.
Qed.

Lemma set_constraint_entry_at st preR postR pre post v v' :
  constraint_entries st = preR ++ (pre ++ v :: post) :: postR ->
  set_constraint_entry (List.length preR) (List.length pre) v' st =
  (Ok tt, set_constraint_entries (preR ++ (pre ++ v' :: post) :: postR) st).
Proof.
  intros H. unfold set_constraint_entry.
  rewrite H, nth_error_middle, nth_error_middle, !list_set_middle.
  reflexivity.
Qed.

(** The loop over the saved objective coefficients, from any position. *)
Lemma load_objective es : forall pre l st,
  obj_entries st = pre ++ l ->
  List.length l = List.length es ->
  for_each (combine (seq (List.length pre) (List.length es)) es)
    (fun ic => set_obj_entry (fst ic) (snd ic)) st =
  (Ok tt, set_obj_entries (pre ++ es) st).
Proof.
  induction es as [|e es IH]; intros pre l st Hst Hlen.
  - destruct l; [|discriminate]. simpl. unfold ret.
    rewrite <- Hst. destruct st; reflexivity.
  - destruct l as [|v l]; [discriminate|]. injection Hlen as Hlen.
    cbn [List.length seq combine for_each fst snd]. unfold bind.
    rewrite (set_obj_entry_at st pre l v e Hst).
    replace (S (List.length pre)) with (List.length (pre ++ [e]))
      by (rewrite length_app; simpl; lia).
    rewrite (IH (pre ++ [e]) l); gui_simpl.
    + rewrite <- app_assoc. reflexivity.
    + rewrite <- app_assoc. reflexivity.
    + assumption.
Qed.

(** The loop over the saved coefficients of one row, from any position. *)
Lemma load_row i todo : forall pre l preR postR st,
  constraint_entries st = preR ++ (pre ++ l) :: postR ->
  List.length preR = i ->
  List.length l = List.length todo ->
  for_each (combine (seq (List.length pre) (List.length todo)) todo)
    (fun jc => set_constraint_entry i (fst jc) (snd jc)) st =
  (Ok tt, set_constraint_entries (preR ++ (pre ++ todo) :: postR) st).
Proof.
  induction todo as [|e todo IH]; intros pre l preR postR st Hst Hi Hlen.
  - destruct l; [|discriminate]. simpl. unfold ret.
    rewrite <- Hst. destruct st; reflexivity.
  - destruct l as [|v l]; [discriminate|]. injection Hlen as Hlen.
    cbn [List.length seq combine for_each fst snd]. unfold bind.
    subst i. rewrite (set_constraint_entry_at st preR postR pre l v e Hst).
    replace (S (List.length pre)) with (List.length (pre ++ [e]))
      by (rewrite length_app; simpl; lia).
    rewrite (IH (pre ++ [e]) l preR postR); gui_simpl.
    + rewrite <- app_assoc. reflexivity.
    + rewrite <- app_assoc. reflexivity.
    + reflexivity.
    + assumption.
Qed.

(** One saved constraint, loaded over the default widgets of its row. *)
Lemma load_constraint_at st k preR r0 postR preT t0 postT preB b0 postB :
  constraint_entries st = preR ++ r0 :: postR ->
  type_combos st = preT ++ t0 :: postT ->
  bound_entries st = preB ++ b0 :: postB ->
  List.length preT = List.length preR ->
  List.length preB = List.length preR ->
  List.length r0 = List.length (coeffs k) ->
  load_constraint (List.length preR, k) st =
  (Ok tt,
   set_bound_entries (preB ++ bound k :: postB)
     (set_type_combos (preT ++ type_ k :: postT)
        (set_constraint_entries (preR ++ coeffs k :: postR) st))).
Proof.
  intros HR HT HB HlT HlB Hlr. unfold load_constraint, enumerate.
  unfold bind at 1.
  pose proof (load_row (List.length preR) (coeffs k) [] r0 preR postR st
                HR eq_refl Hlr) as Hrow.
  cbn [List.length List.app] in Hrow. rewrite Hrow. clear Hrow.
  unfold bind at 1. rewrite <- HlT.
  rewrite (set_type_combo_at _ preT postT t0 (type_ k)) by (gui_simpl; exact HT).
  rewrite HlT, <- HlB.
  rewrite (set_bound_entry_at _ preB postB b0 (bound k))
    by (gui_simpl; exact HB).
  reflexivity.
Qed.

(** The loop over the saved constraints, from any position: [done] is what
    has been loaded, [R], [T] and [B] are the rows, comboboxes and bound
    entries still holding their default text. *)
Lemma load_constraints n ks : forall done R T B st,
  constraint_entries st = map coeffs done ++ R ->
  type_combos st = map type_ done ++ T ->
  bound_entries st = map bound done ++ B ->
  List.length R = List.length ks ->
  List.length T = List.length ks ->
  List.length B = List.length ks ->
  Forall (fun r => List.length r = n) R ->
  Forall (fun k => List.length (coeffs k) = n) ks ->
  for_each (combine (seq (List.length done) (List.length ks)) ks)
    load_constraint st =
  (Ok tt,
   set_bound_entries (map bound (done ++ ks))
     (set_type_combos (map type_ (done ++ ks))
        (set_constraint_entries (map coeffs (done ++ ks)) st))).
Proof.
  induction ks as [|k ks IH];
    intros done R T B st HR HT HB HlR HlT HlB HwR Hwk.
  - destruct R; [|discriminate]. destruct T; [|discriminate].
    destruct B; [|discriminate]. rewrite !app_nil_r in *.
    simpl. unfold ret. rewrite <- HR, <- HT, <- HB. destruct st; reflexivity.
  - destruct R as [|r0 R]; [discriminate|].
    destruct T as [|t0 T]; [discriminate|].
    destruct B as [|b0 B]; [discriminate|].
    injection HlR as HlR. injection HlT as HlT. injection HlB as HlB.
    inversion HwR as [|? ? Hr0 HwR']; subst.
    inversion Hwk as [|? ? Hk Hwk']; subst.
    cbn [List.length seq combine for_each]. unfold bind.
    replace (List.length done) with (List.length (map coeffs done))
      by apply length_map.
    rewrite (load_constraint_at st k (map coeffs done) r0 R
               (map type_ done) t0 T (map bound done) b0 B HR HT HB)
      by (rewrite ?length_map; congruence).
    replace (S (List.length (map coeffs done)))
      with (List.length (done ++ [k]))
      by (rewrite length_app, length_map; simpl; lia).
    rewrite (IH (done ++ [k]) R T B); gui_simpl;
      rewrite ?map_app, <- ?app_assoc; try reflexivity; assumption.
Qed.

End FormState.

Section FormPersistence.
Import LinearProgrammingInterface.

Lemma defaults_length {A} (v : A) (n : Z) :
  List.length (map (fun _ : nat => v) (range n)) = Z.to_nat n.
Proof. unfold range. rewrite length_map, length_seq. reflexivity. Qed.

Lemma defaults_width {A B} (v : A) (l : list B) (n : Z) :
  Forall (fun r => List.length r = Z.to_nat n)
    (map (fun _ : B => map (fun _ : nat => v) (range n)) l).
Proof.
  apply Forall_forall. intros r Hr.
  apply in_map_iff in Hr as (k & <- & _). apply defaults_length.
Qed.


(** Loading a document whose dimensions agree with its lists replaces the
    problem of the form by the document, whole. *)
Lemma load_problem_document st fn others d :
  filter is_saved_problem (map fst (directory st)) = fn :: others ->
  read_file fn (directory st) = Some (Json d) ->
  consistent_document d ->
  load_problem st =
  (Ok tt,
   set_dialogs
     (dialogs st ++ [Dialog showinfo "Success" ("Problem loaded from " +++ fn)])
     (loaded d st)).
Proof.
  intros Hfilter Hread (Hobj & Hcons & Hrows).
  unfold load_problem, try_except.
  unfold bind at 1, gets at 1. rewrite Hfilter.
  unfold bind at 1, lift at 1, json_load. rewrite Hread.
  do 3 (unfold bind at 1, modify at 1).
  unfold bind at 1, update_problem_size, modify at 1. gui_simpl.
  unfold bind at 1.
  match goal with
  | |- context [for_each (enumerate ?es) ?f ?s] =>
      pose proof (load_objective es [] (obj_entries s) s eq_refl) as Ho
  end.
  gui_simpl_in Ho. cbn [List.length List.app] in Ho.
  unfold enumerate at 1. rewrite Ho by (rewrite defaults_length; congruence).
  clear Ho. gui_simpl.
  unfold bind at 1.
  match goal with
  | |- context [for_each (enumerate ?ks) load_constraint ?s] =>
      pose proof (load_constraints (Z.to_nat (pd_num_variables d)) ks []
                    (constraint_entries s) (type_combos s) (bound_entries s)
                    s eq_refl eq_refl eq_refl) as Hk
  end.
  gui_simpl_in Hk. cbn [List.length List.app] in Hk.
  unfold enumerate at 1.
  rewrite Hk;
    [ | rewrite defaults_length; congruence
      | rewrite defaults_length; congruence
      | rewrite defaults_length; congruence
      | apply defaults_width
      | assumption ].
  clear Hk. gui_simpl.
  unfold messagebox, modify. gui_simpl.
  reflexivity.
Qed.

(** A file that is not JSON: the error is shown and nothing else changes. *)
Lemma load_problem_not_json st fn others err :
  filter is_saved_problem (map fst (directory st)) = fn :: others ->
  read_file fn (directory st) = Some (NotJson err) ->
  load_problem st =
  (Ok tt,
   set_dialogs
     (dialogs st ++ [Dialog showerror "Error" ("Error loading problem: " +++ err)])
     st).
Proof.
  intros Hfilter Hread.
  unfold load_problem, try_except.
  unfold bind at 1, gets at 1. rewrite Hfilter.
  unfold bind at 1, lift at 1, json_load. rewrite Hread.
  reflexivity.
Qed.

Lemma read_write_file {C} (name : string) (content : C) dir :
  read_file name (write_file name content dir) = Some content.
Proof.
  induction dir as [|[n c] dir IH]; simpl.
  - rewrite String.eqb_refl. reflexivity.
  - destruct (n =? name) eqn:Hn; simpl; rewrite Hn; [reflexivity | exact IH].
Qed.






End FormPersistence.

(** ** Saving and loading: the command line *)

Lemma to_array_array (v : option (option matrix)) :
  is_array v -> LPSolverCLI.to_array np_array2 v = Ok v.
Proof.
  destruct v as [[rows|]|]; simpl; try reflexivity.
  intros H. unfold np_array2. rewrite H. reflexivity.
Qed.

Lemma to_array_vector (v : option (option (list float))) :
  LPSolverCLI.to_array np_array1 v = Ok v.
Proof. destruct v as [[l|]|]; reflexivity. Qed.

Lemma arrays_of_lists_arrays (d : problem_dict) :
  is_array (p_A_ub d) -> is_array (p_A_eq d) -> arrays_of_lists d = Ok d.
Proof.
  intros Hu He. unfold arrays_of_lists.
  rewrite (to_array_array _ Hu), (to_array_array _ He), !to_array_vector.
  destruct d; reflexivity.
Qed.

(** The conversion either fails or gives the document back. *)
Lemma arrays_of_lists_same (d d' : problem_dict) :
  arrays_of_lists d = Ok d' -> d' = d.
Proof.
  unfold arrays_of_lists. rewrite !to_array_vector. cbn [rbind].
  destruct (p_A_ub d) as [[ru|]|] eqn:Hu; cbn [to_array rbind];
    destruct (p_A_eq d) as [[re|]|] eqn:He; cbn [to_array rbind];
    unfold np_array2;
    repeat match goal with
      | |- context [rectangular ?l] => destruct (rectangular l)
      end; cbn [rbind]; intros H; try discriminate;
    injection H as <-; destruct d; simpl in *; subst; reflexivity.
Qed.

(** [save_problem] has written its file or shown why it could not. *)
Lemma save_problem_cases_cli (FS : Files) (fn : string) (w : cli) :
  (open_w fn = Ok tt /\
   save_problem fn w =
   (Ok tt,
    Cli (problem w) (stdin w) (stdout w ++ ["Problem saved to " +++ fn])
      (write_file fn (Json (problem w)) (directory w)) (solver_calls w))) \/
  (exists e,
      open_w fn = Raise e /\
      save_problem fn w =
      (Ok tt,
       Cli (problem w) (stdin w)
         (stdout w ++ ["Error saving problem: " +++ exn_msg e])
         (directory w) (solver_calls w))).
Proof.
  unfold save_problem, try_except, bind, gets, lift.
  destruct (open_w fn) as [[]|e].
  - left. split; reflexivity.
  - right. exists e. split; reflexivity.
Qed.



Lemma load_problem_document_cli (fn : string) (w : cli) d d' :
  read_file fn (directory w) = Some (Json d) ->
  arrays_of_lists d = Ok d' ->
  load_problem fn w =
  (Ok tt,
   Cli d' (stdin w) (stdout w ++ ["Problem loaded from " +++ fn])
     (directory w) (solver_calls w)).
Proof.
  intros Hread Hd. unfold load_problem, try_except.
  unfold bind at 1, gets at 1.
  unfold bind at 1, lift at 1, json_load. rewrite Hread.
  unfold bind at 1, lift at 1. rewrite Hd.
  reflexivity.
Qed.

Lemma load_problem_refused_cli (fn : string) (w : cli) d e :
  read_file fn (directory w) = Some (Json d) ->
  arrays_of_lists d = Raise e ->
  load_problem fn w =
  (Ok tt,
   Cli (problem w) (stdin w)
     (stdout w ++ ["Error loading problem: " +++ exn_msg e])
     (directory w) (solver_calls w)).
Proof.
  intros Hread Hd. unfold load_problem, try_except.
  unfold bind at 1, gets at 1.
  unfold bind at 1, lift at 1, json_load. rewrite Hread.
  unfold bind at 1, lift at 1. rewrite Hd.
  reflexivity.
Qed.

Lemma load_problem_not_json_cli (fn : string) (w : cli) err :
  read_file fn (directory w) = Some (NotJson err) ->
  load_problem fn w =
  (Ok tt,
   Cli (problem w) (stdin w) (stdout w ++ ["Error loading problem: " +++ err])
     (directory w) (solver_calls w)).
Proof.
  intros Hread. unfold load_problem, try_except.
  unfold bind at 1, gets at 1.
  unfold bind at 1, lift at 1, json_load. rewrite Hread.
  reflexivity.
Qed.



(** ** Round trip *)




(** ** Whatever is typed, the rows stored have one width *)

Ltac cli_simpl_in H :=
  cbn [LPSolverCLI.problem LPSolverCLI.stdin LPSolverCLI.stdout
       LPSolverCLI.directory LPSolverCLI.solver_calls] in H.

(** One bind of a hypothesis [(m ;; k) w = (Ok a, w')]: name the result of
    [m], which cannot be a raise. *)
Ltac bind_inv H v w1 E :=
  unfold bind at 1 in H;
  match type of H with
  | match ?m with _ => _ end = _ =>
      destruct m as [[v|?] w1] eqn:E; [|discriminate H]
  end.

Section Widths.
Context {RT : Runtime}.

Lemma input_inv prompt w line w1 :
  input prompt w = (Ok line, w1) -> problem w1 = problem w.
Proof.
  unfold input, set_stdout, set_stdin. cbv zeta. cli_simpl.
  destruct (stdin w); intros H; [discriminate|].
  injection H as _ <-. reflexivity.
Qed.

Lemma input_coefficients_length_from indent len : forall k acc w fs w',
  fold_M
    (fun coeffs i =>
       (s <- input (indent +++ "Coefficient for x"
                    +++ str_of_int (Z.of_nat i + 1) +++ ": ") ;;
        coeff <- lift (py_float s) ;;
        ret (coeffs ++ [coeff]))%py)
    (seq k len) acc w = (Ok fs, w') ->
  List.length fs = (List.length acc + len)%nat /\ problem w' = problem w.
Proof.
  induction len as [|len IH]; intros k acc w fs w' H;
    cbn [seq fold_M] in H.
  - injection H as <- <-. split; [lia | reflexivity].
  - bind_inv H a w1 E.
    bind_inv E s w2 Es. apply input_inv in Es.
    unfold bind at 1, lift at 1 in E.
    destruct (py_float s) as [coeff|e]; [|discriminate].
    injection E as <- <-.
    destruct (IH _ _ _ _ _ H) as [Hl Hp].
    rewrite length_app in Hl. simpl in Hl. split; [lia | congruence].
Qed.

Lemma input_coefficients_length indent n w fs w' :
  input_coefficients indent n w = (Ok fs, w') ->
  List.length fs = Z.to_nat n /\ problem w' = problem w.
Proof.
  unfold input_coefficients, range. intros H.
  apply input_coefficients_length_from in H. simpl in H. exact H.
Qed.

Lemma input_constraint_inv n acc i w acc' w' :
  input_constraint n acc i w = (Ok acc', w') ->
  (exists c,
      acc' = route_step acc c /\
      List.length (coefficients_of c) = Z.to_nat n) /\
  problem w' = problem w.
Proof.
  unfold input_constraint. intros H.
  unfold bind at 1 in H. rewrite print_run in H.
  bind_inv H row w1 Erow.
  apply input_coefficients_length in Erow as [Hrow Hp1]. cli_simpl_in Hp1.
  bind_inv H ty w2 Ety. apply input_inv in Ety.
  bind_inv H b w3 Eb. apply input_inv in Eb.
  unfold bind at 1, lift at 1 in H.
  destruct (py_float b) as [bound|e]; [|discriminate].
  injection H as <- <-. split; [|rewrite Eb, Ety; exact Hp1].
  exists (row, bound, str_strip ty). split; [reflexivity | exact Hrow].
Qed.

Lemma input_constraints_inv n xs : forall acc w acc' w',
  fold_M (input_constraint n) xs acc w = (Ok acc', w') ->
  (exists cs,
      acc' = fold_left route_step cs acc /\
      Forall (fun c => List.length (coefficients_of c) = Z.to_nat n) cs) /\
  problem w' = problem w.
Proof.
  induction xs as [|i xs IH]; intros acc w acc' w' H; cbn [fold_M] in H.
  - injection H as <- <-. split; [|reflexivity].
    exists []. split; [reflexivity | constructor].
  - bind_inv H a w1 E.
    apply input_constraint_inv in E as [(c & -> & Hc) Hp1].
    destruct (IH _ _ _ _ H) as [(cs & -> & Hcs) Hp].
    split; [|congruence].
    exists (c :: cs). split; [reflexivity | constructor; assumption].
Qed.

Lemma array2_or_none_inv (l : matrix) v :
  array2_or_none l = Ok v -> v = present l.
Proof.
  destruct l as [|r l];
    [simpl; intros H; injection H as <-; reflexivity|].
  unfold array2_or_none, np_array2.
  destruct (rectangular (r :: l)); cbn [rbind present]; intros H;
    [injection H as <-; reflexivity | discriminate].
Qed.

(** Whenever [input_problem] returns, the dict holds a vector [c] of
    [num_vars] coefficients and the routing of constraints that all have
    [num_vars] coefficients. *)
Lemma input_problem_inv w w' :
  input_problem w = (Ok tt, w') ->
  exists n c cs,
    p_num_vars (problem w') = Some n /\
    p_c (problem w') = Some c /\
    List.length c = Z.to_nat n /\
    Forall (fun k => List.length (coefficients_of k) = Z.to_nat n) cs /\
    p_A_ub (problem w') = Some (present (A_ub (normalize cs))) /\
    p_b_ub (problem w') = Some (present (b_ub (normalize cs))) /\
    p_A_eq (problem w') = Some (present (A_eq (normalize cs))) /\
    p_b_eq (problem w') = Some (present (b_eq (normalize cs))).
Proof.
  unfold input_problem. intros H.
  do 3 (unfold bind at 1 in H; rewrite print_run in H).
  bind_inv H nv w1 E1. clear E1.
  unfold bind at 1, lift at 1 in H.
  destruct (py_int nv) as [n|e]; [|discriminate].
  bind_inv H nc w2 E2. clear E2.
  unfold bind at 1, lift at 1 in H.
  destruct (py_int nc) as [m|e]; [|discriminate].
  unfold bind at 1 in H. rewrite print_run in H.
  bind_inv H ty w3 E3. clear E3.
  unfold bind at 1 in H. rewrite print_run in H.
  bind_inv H c0 w4 E4. apply input_coefficients_length in E4 as [Hc0 _].
  bind_inv H c w5 E5.
  assert (Hc : List.length c = Z.to_nat n).
  { destruct (startswith "max" (str_lower ty));
      unfold bind, modify, ret in E5; injection E5 as <- _;
      rewrite ?length_map; exact Hc0. }
  clear E5.
  unfold bind at 1 in H. rewrite print_run in H.
  bind_inv H acc w6 E6.
  apply input_constraints_inv in E6 as [(cs & -> & Hcs) _].
  fold (normalize cs) in H.
  unfold bind at 1, lift at 1 in H.
  destruct (array2_or_none (A_ub (normalize cs))) as [au|e] eqn:Hau;
    [|discriminate].
  unfold bind at 1, lift at 1 in H. rewrite array1_or_none_present in H.
  unfold bind at 1, lift at 1 in H.
  destruct (array2_or_none (A_eq (normalize cs))) as [ae|e] eqn:Hae;
    [|discriminate].
  unfold bind at 1, lift at 1 in H. rewrite array1_or_none_present in H.
  unfold modify in H. injection H as <-.
  apply array2_or_none_inv in Hau, Hae. subst au ae.
  exists n, c, cs. cbn [problem set_problem update_problem p_num_vars p_c
                        p_A_ub p_b_ub p_A_eq p_b_eq].
  repeat split; assumption.
Qed.

End Widths.

(** ** Files that cannot be loaded *)

Lemma load_problem_missing_cli (fn : string) (w : cli) :
  read_file fn (directory w) = None ->
  load_problem fn w =
  (Ok tt,
   Cli (problem w) (stdin w)
     (stdout w
      ++ ["Error loading problem: [Errno 2] No such file or directory: '"
          +++ fn +++ "'"])
     (directory w) (solver_calls w)).
Proof.
  intros Hread. unfold load_problem, try_except.
  unfold bind at 1, gets at 1.
  unfold bind at 1, lift at 1, json_load. rewrite Hread.
  reflexivity.
Qed.

(** C8, as the code has it.  A saved file that is not JSON is refused by
    both load operations with the message "Error loading problem: ..." and
    the problem held is left as it was; so is, at the command line, a file
    that does not exist.  The command line loads all or nothing: a
    document is installed whole when numpy accepts its matrices (rows of
    one length within each) and otherwise the problem held stays; no
    dimension is compared with another. *)
Theorem C8_unparseable_file_refused (RT : Runtime) :
  (forall (st : LinearProgrammingInterface.app) fn err,
      first_saved_problem st = Some fn ->
      read_file fn (LinearProgrammingInterface.directory st)
      = Some (LinearProgrammingInterface.NotJson err) ->
      LinearProgrammingInterface.load_problem st =
      (Ok tt,
       LinearProgrammingInterface.set_dialogs
         (LinearProgrammingInterface.dialogs st
          ++ [LinearProgrammingInterface.Dialog
                LinearProgrammingInterface.showerror "Error"
                ("Error loading problem: " +++ err)]) st)) /\
  (forall (w : cli) fn err,
      read_file fn (directory w) = Some (NotJson err) ->
      load_problem fn w =
      (Ok tt,
       Cli (problem w) (stdin w)
         (stdout w ++ ["Error loading problem: " +++ err])
         (directory w) (solver_calls w))) /\
  (forall (w : cli) fn,
      read_file fn (directory w) = None ->
      problem (snd (load_problem fn w)) = problem w) /\
  (forall (w : cli) fn d,
      read_file fn (directory w) = Some (Json d) ->
      (is_array (p_A_ub d) -> is_array (p_A_eq d) ->
       load_problem fn w =
       (Ok tt,
        Cli d (stdin w) (stdout w ++ ["Problem loaded from " +++ fn])
          (directory w) (solver_calls w))) /\
      (problem (snd (load_problem fn w)) = d \/
       problem (snd (load_problem fn w)) = problem w)).
Proof.
  split.
  { intros st fn err Hfirst Hread. unfold first_saved_problem in Hfirst.
    destruct (filter LinearProgrammingInterface.is_saved_problem _)
      as [|fn' others] eqn:Hfilter; [discriminate|].
    injection Hfirst as ->.
    apply (load_problem_not_json st fn others err Hfilter Hread). }
  split; [intros; apply load_problem_not_json_cli; assumption|].
  split.
  { intros w fn Hread. rewrite (load_problem_missing_cli fn w Hread).
    reflexivity. }
  intros w fn d Hread. split.
  - intros Hu He.
    apply (load_problem_document_cli fn w d d Hread).
    apply arrays_of_lists_arrays; assumption.
  - destruct (arrays_of_lists d) as [d'|e] eqn:Hd.
    + left. rewrite (load_problem_document_cli fn w d d' Hread Hd).
      apply (arrays_of_lists_same d d' Hd).
    + right. rewrite (load_problem_refused_cli fn w d e Hread Hd).
      reflexivity.
Qed.

Lemma C8_unparseable_file_refused_witness :
  LinearProgrammingInterface.load_problem Malformed.form_with_garbage =
  (Ok tt,
   LinearProgrammingInterface.set_dialogs
     [LinearProgrammingInterface.Dialog LinearProgrammingInterface.showerror
        "Error"
        "Error loading problem: Expecting value: line 1 column 1 (char 0)"]
     Malformed.form_with_garbage) /\
  load_problem "problem.json" Malformed.garbled_session =
  (Ok tt,
   Cli (problem Malformed.garbled_session) []
     ["Error loading problem: Expecting value: line 1 column 1 (char 0)"]
     (directory Malformed.garbled_session) []) /\
  load_problem "mismatch.json" Malformed.session = (Ok tt, Malformed.loaded_session).
Proof.
  split.
  - apply (proj1 (C8_unparseable_file_refused Sample.runtime)
             Malformed.form_with_garbage "lp_problem_2vars_3cons.json"
             "Expecting value: line 1 column 1 (char 0)"); reflexivity.
  - split.
    + apply (proj1 (proj2 (C8_unparseable_file_refused Sample.runtime))
               Malformed.garbled_session "problem.json"
               "Expecting value: line 1 column 1 (char 0)"); reflexivity.
    + apply (proj1 (proj2 (proj2 (proj2
               (C8_unparseable_file_refused Sample.runtime)))
               Malformed.session "mismatch.json" Malformed.dict eq_refl));
        reflexivity.
Defined.

(** C8 as stated fails.  The form loads a document whose dimensions
    disagree in part: the dimension variables, the sense and the first
    objective entry are those of the file when the [IndexError] of the
    second objective coefficient is reported.  The command line reports
    success for a document whose [c] has two entries and whose row has
    three, and installs it. *)
Lemma C8_counterexample :
  LinearProgrammingInterface.form
    (snd (LinearProgrammingInterface.load_problem Malformed.form_with_document))
  = (1%Z, 1%Z, "minimize", ["5"], [["1"]], ["<="], ["0"]) /\
  LinearProgrammingInterface.form
    (snd (LinearProgrammingInterface.load_problem Malformed.form_with_document))
  <> LinearProgrammingInterface.form Malformed.form_with_document /\
  LinearProgrammingInterface.dialogs
    (snd (LinearProgrammingInterface.load_problem Malformed.form_with_document))
  = [LinearProgrammingInterface.Dialog LinearProgrammingInterface.showerror
       "Error" "Error loading problem: list index out of range"] /\
  ~ consistent_document Malformed.document /\
  load_problem "mismatch.json" Malformed.session
  = (Ok tt,
     Cli Malformed.dict [] ["Problem loaded from mismatch.json"]
       [("mismatch.json", Json Malformed.dict)] []) /\
  option_map (@List.length float) (p_c Malformed.dict) = Some 2%nat /\
  option_map (option_map (map (@List.length float))) (p_A_ub Malformed.dict)
  = Some (Some [3%nat]).
Proof.
  split; [reflexivity|].
  split; [discriminate|].
  split; [reflexivity|].
  split; [intros (H & _); discriminate H|].
  split; [reflexivity|].
  split; reflexivity.
Qed.

(** ** Lengths that do not agree *)

Lemma present_some {A} (l rows : list A) : present l = Some rows -> rows = l.
Proof. destruct l; simpl; intros H; [discriminate | injection H as <-; reflexivity]. Qed.

Lemma solve_refused (RT : Runtime) (w : cli) c A_ub' b_ub' A_eq' b_eq' n e :
  p_num_vars (problem w) = Some n ->
  p_c (problem w) = Some c ->
  p_A_ub (problem w) = Some A_ub' ->
  p_b_ub (problem w) = Some b_ub' ->
  p_A_eq (problem w) = Some A_eq' ->
  p_b_eq (problem w) = Some b_eq' ->
  linprog (stored_arguments c A_ub' b_ub' A_eq' b_eq' n) = Raise e ->
  solve w =
  (Ok tt,
   Cli (problem w) (stdin w)
     (stdout w
      ++ [nl +++ str_mul "=" 50; "SOLVING..."; str_mul "=" 50;
          "Error solving problem: " +++ exn_msg e])
     (directory w)
     (solver_calls w ++ [stored_arguments c A_ub' b_ub' A_eq' b_eq' n])).
Proof.
  intros Hn Hc Hau Hbu Hae Hbe He. unfold solve. do 3 cli_print.
  unfold try_except.
  cli_getitem Hn. cli_getitem Hc. cli_getitem Hau. cli_getitem Hbu.
  cli_getitem Hae. cli_getitem Hbe.
  unfold bind at 1, call_linprog at 1, set_solver_calls. cli_simpl.
  fold (stored_arguments c A_ub' b_ub' A_eq' b_eq' n). rewrite He.
  rewrite print_run. cli_simpl. rewrite <- !app_assoc. reflexivity.
Qed.

Lemma solve_problem_refused (RT : Runtime)
  (st : LinearProgrammingInterface.app) args e :
  LinearProgrammingInterface.solver_input st = Ok args ->
  linprog args = Raise e ->
  LinearProgrammingInterface.solve_problem st =
  (Ok tt,
   LinearProgrammingInterface.set_dialogs
     (LinearProgrammingInterface.dialogs st
      ++ [LinearProgrammingInterface.Dialog
            LinearProgrammingInterface.showerror "Error"
            ("Error solving problem: " +++ exn_msg e)])
     (LinearProgrammingInterface.set_solver_calls
        (LinearProgrammingInterface.solver_calls st ++ [args]) st)).
Proof.
  intros Hin He.
  unfold LinearProgrammingInterface.solve_problem, try_except, bind, gets,
    lift, LinearProgrammingInterface.call_linprog.
  rewrite Hin, He. reflexivity.
Qed.

(** C1, as the code has it.  Neither surface compares lengths and there
    is no [ShapeMismatch]: [solve] passes the stored [c], [A_ub], [b_ub],
    [A_eq] and [b_eq] to [linprog] as they are, and the form passes what
    it read; when [linprog] itself raises, the message is relayed as
    "Error solving problem: ...".  What the surfaces build themselves has
    one width: the form reads [num_variables] entries of every row and as
    many objective coefficients as there are entries, and whenever
    [input_problem] returns, [c] and every stored row have [num_vars]
    coefficients. *)
Theorem C1_no_shape_check (RT : Runtime) :
  (forall (w : cli) c A_ub' b_ub' A_eq' b_eq' n,
      p_num_vars (problem w) = Some n ->
      p_c (problem w) = Some c ->
      p_A_ub (problem w) = Some A_ub' ->
      p_b_ub (problem w) = Some b_ub' ->
      p_A_eq (problem w) = Some A_eq' ->
      p_b_eq (problem w) = Some b_eq' ->
      solver_calls (snd (solve w))
      = solver_calls w ++ [stored_arguments c A_ub' b_ub' A_eq' b_eq' n] /\
      problem (snd (solve w)) = problem w /\
      (forall e,
          linprog (stored_arguments c A_ub' b_ub' A_eq' b_eq' n) = Raise e ->
          stdout (snd (solve w))
          = stdout w
            ++ [nl +++ str_mul "=" 50; "SOLVING..."; str_mul "=" 50;
                "Error solving problem: " +++ exn_msg e])) /\
  (forall (w w' : cli),
      input_problem w = (Ok tt, w') ->
      exists n c,
        p_num_vars (problem w') = Some n /\
        p_c (problem w') = Some c /\
        List.length c = Z.to_nat n /\
        (forall rows,
            p_A_ub (problem w') = Some (Some rows) ->
            Forall (fun r => List.length r = Z.to_nat n) rows) /\
        (forall rows,
            p_A_eq (problem w') = Some (Some rows) ->
            Forall (fun r => List.length r = Z.to_nat n) rows)) /\
  (forall (st : LinearProgrammingInterface.app) args,
      LinearProgrammingInterface.solver_input st = Ok args ->
      LinearProgrammingInterface.solver_calls
        (snd (LinearProgrammingInterface.solve_problem st))
      = LinearProgrammingInterface.solver_calls st ++ [args] /\
      List.length (arg_c args)
      = List.length (LinearProgrammingInterface.obj_entries st) /\
      (forall rows,
          arg_A_ub args = Some rows ->
          Forall (fun r =>
                    List.length r
                    = Z.to_nat (LinearProgrammingInterface.num_variables st))
                 rows) /\
      (forall rows,
          arg_A_eq args = Some rows ->
          Forall (fun r =>
                    List.length r
                    = Z.to_nat (LinearProgrammingInterface.num_variables st))
                 rows) /\
      (forall e,
          linprog args = Raise e ->
          LinearProgrammingInterface.dialogs
            (snd (LinearProgrammingInterface.solve_problem st))
          = LinearProgrammingInterface.dialogs st
            ++ [LinearProgrammingInterface.Dialog
                  LinearProgrammingInterface.showerror "Error"
                  ("Error solving problem: " +++ exn_msg e)])).
Proof.
  split.
  { intros w c A_ub' b_ub' A_eq' b_eq' n Hn Hc Hau Hbu Hae Hbe.
    destruct (solve_calls w c A_ub' b_ub' A_eq' b_eq' n Hn Hc Hau Hbu Hae Hbe)
      as [Hcalls Hp].
    split; [exact Hcalls|]. split; [exact Hp|].
    intros e He.
    rewrite (solve_refused RT w c A_ub' b_ub' A_eq' b_eq' n e
               Hn Hc Hau Hbu Hae Hbe He).
    reflexivity. }
  split.
  { intros w w' H.
    destruct (input_problem_inv w w' H)
      as (n & c & cs & Hn & Hc & Hlen & Hcs & Hau & _ & Hae & _).
    destruct (normalize_widths _ _ Hcs) as [Hu He].
    exists n, c. repeat split; try assumption.
    - intros rows Hrows. rewrite Hau in Hrows.
      injection Hrows as Hrows. apply present_some in Hrows. subst rows.
      exact Hu.
    - intros rows Hrows. rewrite Hae in Hrows.
      injection Hrows as Hrows. apply present_some in Hrows. subst rows.
      exact He. }
  intros st args Hin.
  destruct (solver_input_inv st args Hin) as (objective & cs & Hobj & Hcs & ->).
  destruct (normalize_widths _ _ (read_constraints_width st _ _ Hcs))
    as [Hu He].
  split; [apply solve_problem_calls; exact Hin|].
  unfold arguments; cbn [arg_c arg_A_ub arg_A_eq].
  split.
  { rewrite <- (map_result_length _ _ _ Hobj).
    destruct (LinearProgrammingInterface.objective_type st =? "maximize");
      [apply length_map | reflexivity]. }
  split.
  { intros rows Hrows. apply present_some in Hrows. subst rows. exact Hu. }
  split.
  { intros rows Hrows. apply present_some in Hrows. subst rows. exact He. }
  intros e Hraise.
  rewrite (solve_problem_refused RT st _ e Hin Hraise). reflexivity.
Qed.

Lemma C1_no_shape_check_witness :
  (solver_calls (snd (solve (RT := Sample.runtime) Malformed.loaded_session))
   = [stored_arguments [Examples.f 1; Examples.f 2]
        (Some [[Examples.f 1; Examples.f 1; Examples.f 1]])
        (Some [Examples.f 5]) None None 2] /\
   problem (snd (solve (RT := Sample.runtime) Malformed.loaded_session))
   = Malformed.dict) /\
  (input_problem (RT := Sample.runtime) (Examples.session Examples.mixed_lines)
   = (Ok tt, Entered.mixed) /\
   exists n c,
     p_num_vars (problem Entered.mixed) = Some n /\
     p_c (problem Entered.mixed) = Some c /\
     List.length c = Z.to_nat n) /\
  LinearProgrammingInterface.solver_calls
    (snd (LinearProgrammingInterface.solve_problem (RT := Sample.runtime)
            Examples.production_form))
  = [arguments Examples.production_form [Examples.f 3; Examples.f 2]
       Examples.production_constraints].
Proof.
  split.
  - destruct (proj1 (C1_no_shape_check Sample.runtime)
                Malformed.loaded_session
                [Examples.f 1; Examples.f 2]
                (Some [[Examples.f 1; Examples.f 1; Examples.f 1]])
                (Some [Examples.f 5]) None None 2%Z
                eq_refl eq_refl eq_refl eq_refl eq_refl eq_refl)
      as (Hcalls & Hp & _).
    split; [exact Hcalls | exact Hp].
  - split.
    + assert (Hrun : input_problem (RT := Sample.runtime)
                       (Examples.session Examples.mixed_lines)
                     = (Ok tt, Entered.mixed))
        by (vm_compute; reflexivity).
      split; [exact Hrun|].
      destruct (proj1 (proj2 (C1_no_shape_check Sample.runtime))
                  (Examples.session Examples.mixed_lines) Entered.mixed Hrun)
        as (n & c & Hn & Hc & Hlen & _).
      exists n, c. repeat split; assumption.
    + apply (proj1 (proj2 (proj2 (C1_no_shape_check Sample.runtime))
                      Examples.production_form
                      (arguments Examples.production_form
                         [Examples.f 3; Examples.f 2]
                         Examples.production_constraints)
                      eq_refl)).
Defined.

(** C1 as stated fails.  A problem loaded at the command line whose [c]
    has two entries and whose row has three reaches [linprog] as it is;
    the refusal shown afterwards is the solver's own.  In the form, once
    the number of variables has been typed over, the row is cut to one
    entry without a word while [c] keeps two, and that too reaches
    [linprog]. *)
Lemma C1_counterexample :
  load_problem "mismatch.json" Malformed.session
  = (Ok tt, Malformed.loaded_session) /\
  solver_calls (snd (solve (RT := Sample.runtime) Malformed.loaded_session))
  = [LinprogArgs [Examples.f 1; Examples.f 2]
       (Some [[Examples.f 1; Examples.f 1; Examples.f 1]])
       (Some [Examples.f 5]) None None [(0%Z, None); (0%Z, None)]] /\
  LinearProgrammingInterface.solver_calls
    (snd (LinearProgrammingInterface.solve_problem (RT := Sample.runtime)
            Malformed.typed_over))
  = [LinprogArgs [Examples.f 1; Examples.f 2] (Some [[Examples.f 1]])
       (Some [Examples.f 4]) None None [(0%Z, None); (0%Z, None)]] /\
  LinearProgrammingInterface.constraint_entries Malformed.typed_over
  = [["1"; "1"]].
Proof.
  split; [reflexivity|].
  split; [vm_compute; reflexivity|].
  split; [vm_compute; reflexivity | reflexivity].
Qed.

(** * More of the code *)

(** ** Relations that every step of a method respects *)

Section Respects.
Context {S : Type} (R : S -> S -> Prop).
Hypothesis R_refl : forall s, R s s.
Hypothesis R_trans : forall s1 s2 s3, R s1 s2 -> R s2 s3 -> R s1 s3.

Lemma respects_ret {A} (a : A) : respects R (ret a).
Proof. intros s r s' H. injection H as _ <-. apply R_refl. Qed.

Lemma respects_raise {A} (e : exn) : respects R (@raise S A e).
Proof. intros s r s' H. injection H as _ <-. apply R_refl. Qed.

Lemma respects_lift {A} (v : result A) : respects R (lift v).
Proof. intros s r s' H. injection H as _ <-. apply R_refl. Qed.

Lemma respects_gets {A} (f : S -> A) : respects R (gets f).
Proof. intros s r s' H. injection H as _ <-. apply R_refl. Qed.

Lemma respects_modify (f : S -> S) :
  (forall s, R s (f s)) -> respects R (modify f).
Proof. intros Hf s r s' H. injection H as _ <-. apply Hf. Qed.

Lemma respects_bind {A B} (m : M S A) (k : A -> M S B) :
  respects R m -> (forall a, respects R (k a)) -> respects R (bind m k).
Proof.
  intros Hm Hk s r s' H. unfold bind in H.
  destruct (m s) as [[a|e] s1] eqn:E.
  - apply (R_trans _ s1); [apply (Hm _ _ _ E) | apply (Hk a _ _ _ H)].
  - injection H as _ <-. apply (Hm _ _ _ E).
Qed.

Lemma respects_try_except {A} (m : M S A) (h : exn -> M S A) :
  respects R m -> (forall e, respects R (h e)) ->
  respects R (try_except m h).
Proof.
  intros Hm Hh s r s' H. unfold try_except in H.
  destruct (m s) as [[a|e] s1] eqn:E.
  - injection H as _ <-. apply (Hm _ _ _ E).
  - apply (R_trans _ s1); [apply (Hm _ _ _ E) | apply (Hh e _ _ _ H)].
Qed.

Lemma respects_for_each {X} (xs : list X) (body : X -> M S unit) :
  (forall x, respects R (body x)) -> respects R (for_each xs body).
Proof.
  intros Hb. induction xs as [|x xs IH]; cbn [for_each].
  - apply respects_ret.
  - apply respects_bind; [apply Hb | intros _; exact IH].
Qed.

Lemma respects_fold_M {X A} (f : A -> X -> M S A) (xs : list X) :
  (forall acc x, respects R (f acc x)) ->
  forall acc, respects R (fold_M f xs acc).
Proof.
  intros Hf. induction xs as [|x xs IH]; intros acc; cbn [fold_M].
  - apply respects_ret.
  - apply respects_bind; [apply Hf | intros acc'; apply IH].
Qed.

(** A run that raises stops inside one step: the steps before it respect
    [R], the steps that would follow need not. *)
Lemma respects_on_raise_bind {A B} (m : M S A) (k : A -> M S B) :
  respects R m -> (forall a, respects_on_raise R (k a)) ->
  respects_on_raise R (bind m k).
Proof.
  intros Hm Hk s e s' H. unfold bind in H.
  destruct (m s) as [[a|e'] s1] eqn:E.
  - apply (R_trans _ s1); [apply (Hm _ _ _ E) | apply (Hk a _ _ _ H)].
  - injection H as _ <-. apply (Hm _ _ _ E).
Qed.

Lemma respects_on_raise_modify (f : S -> S) : respects_on_raise R (modify f).
Proof. intros s e s' H. discriminate H. Qed.

Lemma respects_weaken {A} (m : M S A) :
  respects R m -> respects_on_raise R m.
Proof. intros H s e s' E. apply (H _ _ _ E). Qed.

End Respects.

Ltac respects_go Rr Rt leaf :=
  repeat first
    [ match goal with |- forall _, _ => intro end
    | apply (respects_bind _ Rt)
    | apply (respects_try_except _ Rt)
    | apply (respects_ret _ Rr)
    | apply (respects_lift _ Rr)
    | apply (respects_gets _ Rr)
    | apply (respects_for_each _ Rr Rt)
    | apply (respects_fold_M _ Rr Rt)
    | match goal with |- respects _ (if ?b then _ else _) => destruct b end
    | match goal with
      | |- respects _ (match ?x with _ => _ end) => destruct x
      end
    | progress cbv zeta
    | leaf ].

(** ** The form: what [update_problem_size] builds *)

Lemma map_const_seq {A} (v : A) (k n : nat) :
  map (fun _ : nat => v) (seq k n) = repeat v n.
Proof.
  revert k; induction n as [|n IH]; intros k; simpl; [reflexivity|].
  rewrite IH. reflexivity.
Qed.

Lemma Forall_repeat {A} (P : A -> Prop) (v : A) (n : nat) :
  P v -> Forall P (repeat v n).
Proof. intros H. induction n; simpl; constructor; assumption. Qed.

Lemma update_problem_size_run (st : LinearProgrammingInterface.app) :
  LinearProgrammingInterface.update_problem_size st =
  (Ok tt,
   LinearProgrammingInterface.set_bound_entries
     (repeat "0" (Z.to_nat (LinearProgrammingInterface.num_constraints st)))
     (LinearProgrammingInterface.set_type_combos
        (repeat "<=" (Z.to_nat (LinearProgrammingInterface.num_constraints st)))
        (LinearProgrammingInterface.set_constraint_entries
           (repeat
              (repeat "1"
                 (Z.to_nat (LinearProgrammingInterface.num_variables st)))
              (Z.to_nat (LinearProgrammingInterface.num_constraints st)))
           (LinearProgrammingInterface.set_obj_entries
              (repeat "1"
                 (Z.to_nat (LinearProgrammingInterface.num_variables st)))
              st)))).
Proof.
  unfold LinearProgrammingInterface.update_problem_size, modify, range.
  cbv zeta. gui_simpl. rewrite !map_const_seq. reflexivity.
Qed.

(** X1. [update_problem_size] rebuilds every widget from the two
    dimension variables alone: one objective entry "1" per variable, and per
    constraint one row of "1", one combobox "<=" and one bound entry "0";
    the dimensions, the sense, the results, the dialogs and the files are
    untouched.  With non-negative dimensions the form it leaves is
    consistent, whatever the widgets were before. *)
Theorem update_problem_size_rebuilds (st : LinearProgrammingInterface.app) :
  let n := Z.to_nat (LinearProgrammingInterface.num_variables st) in
  let m := Z.to_nat (LinearProgrammingInterface.num_constraints st) in
  LinearProgrammingInterface.update_problem_size st =
  (Ok tt,
   LinearProgrammingInterface.set_bound_entries (repeat "0" m)
     (LinearProgrammingInterface.set_type_combos (repeat "<=" m)
        (LinearProgrammingInterface.set_constraint_entries
           (repeat (repeat "1" n) m)
           (LinearProgrammingInterface.set_obj_entries (repeat "1" n) st)))) /\
  ((0 <= LinearProgrammingInterface.num_variables st)%Z ->
   (0 <= LinearProgrammingInterface.num_constraints st)%Z ->
   consistent (snd (LinearProgrammingInterface.update_problem_size st))).
Proof.
  intros n m. pose proof (update_problem_size_run st) as H.
  split; [exact H|].
  intros Hn Hm. rewrite H. cbn [snd]. unfold consistent. gui_simpl.
  rewrite !repeat_length. rewrite !Z2Nat.id by assumption.
  repeat split; try reflexivity.
  apply Forall_repeat. apply repeat_length.
Qed.

Lemma update_problem_size_rebuilds_witness :
  consistent
    (snd (LinearProgrammingInterface.update_problem_size Malformed.typed_over)).
Proof.
  apply (proj2 (update_problem_size_rebuilds Malformed.typed_over));
    simpl; lia.
Defined.

(** ** The form: [solve_problem] changes no problem *)

Lemma same_problem_refl st : same_problem st st.
Proof. split; reflexivity. Qed.

Lemma same_problem_trans s1 s2 s3 :
  same_problem s1 s2 -> same_problem s2 s3 -> same_problem s1 s3.
Proof. intros [H1 H2] [H3 H4]. split; congruence. Qed.

Ltac same_problem_leaf :=
  first
    [ apply respects_modify; intros []; split; reflexivity
    | intros [] ? ? H; injection H as _ <-; split; reflexivity ].

Lemma display_results_same_problem (RT : Runtime) result c :
  respects same_problem (LinearProgrammingInterface.display_results result c).
Proof.
  unfold LinearProgrammingInterface.display_results.
  respects_go same_problem_refl same_problem_trans same_problem_leaf.
Qed.

Lemma solve_problem_same_problem (RT : Runtime) :
  respects same_problem LinearProgrammingInterface.solve_problem.
Proof.
  unfold LinearProgrammingInterface.solve_problem.
  apply (respects_try_except _ same_problem_trans).
  - apply (respects_bind _ same_problem_trans);
      [apply (respects_gets _ same_problem_refl)|]. intros st0.
    apply (respects_bind _ same_problem_trans);
      [apply (respects_lift _ same_problem_refl)|]. intros args.
    apply (respects_bind _ same_problem_trans).
    + intros [] ? ? H. injection H as _ <-. split; reflexivity.
    + intros result. apply display_results_same_problem.
  - intros e. unfold LinearProgrammingInterface.messagebox.
    apply respects_modify. intros []. split; reflexivity.
Qed.

Lemma try_except_returns {S} (m : M S unit) (h : exn -> M S unit) s :
  (forall e s1, fst (h e s1) = Ok tt) -> fst (try_except m h s) = Ok tt.
Proof.
  intros Hh. unfold try_except. destruct (m s) as [[[]|e] s1]; simpl.
  - reflexivity.
  - apply Hh.
Qed.

(** X2. [solve_problem] never raises and never touches the problem: the
    dimension variables, the sense, every entry and combobox and the files
    are, after it, what they were before, whatever the entries hold and
    whatever the solver answers or raises. *)
Theorem solve_problem_keeps_the_problem (RT : Runtime)
  (st : LinearProgrammingInterface.app) :
  fst (LinearProgrammingInterface.solve_problem st) = Ok tt /\
  LinearProgrammingInterface.form
    (snd (LinearProgrammingInterface.solve_problem st))
  = LinearProgrammingInterface.form st /\
  LinearProgrammingInterface.directory
    (snd (LinearProgrammingInterface.solve_problem st))
  = LinearProgrammingInterface.directory st.
Proof.
  split.
  - unfold LinearProgrammingInterface.solve_problem.
    apply try_except_returns. reflexivity.
  - apply (solve_problem_same_problem RT st
             (fst (LinearProgrammingInterface.solve_problem st))).
    destruct (LinearProgrammingInterface.solve_problem st); reflexivity.
Qed.

(** ** The form: when [solve_problem] reaches the solver *)

Section FormReads.
Import LinearProgrammingInterface.
Context (RT : Runtime).

Lemma index_in_range {A} (l : list A) (i : nat) :
  (i < List.length l)%nat ->
  exists v, nth_error l i = Some v /\ index l i = Ok v.
Proof.
  intros H. unfold index. destruct (nth_error l i) as [v|] eqn:E.
  - exists v. split; reflexivity.
  - apply nth_error_None in E. lia.
Qed.

Lemma map_result_reads (es : list string) :
  Forall reads_as_float es -> exists fs, map_result py_float es = Ok fs.
Proof.
  intros H. apply map_result_all. intros e He.
  rewrite Forall_forall in H. exact (H e He).
Qed.

Lemma read_constraint_reads (st : app) (i : nat) :
  consistent st ->
  Forall (Forall reads_as_float) (constraint_entries st) ->
  Forall reads_as_float (bound_entries st) ->
  (i < Z.to_nat (num_constraints st))%nat ->
  exists k, read_constraint st i = Ok k.
Proof.
  intros (Hn & Hm & Ht & Hb & Hw) Hrows Hbounds Hi.
  rewrite Hm, Nat2Z.id in Hi.
  destruct (index_in_range (constraint_entries st) i Hi) as (row & Erow & Irow).
  assert (Hi' := Hi). rewrite <- Hb in Hi'.
  destruct (index_in_range (bound_entries st) i Hi') as (b & Eb & Ib).
  assert (Hi'' := Hi). rewrite <- Ht in Hi''.
  destruct (index_in_range (type_combos st) i Hi'') as (t & Et & It).
  rewrite Forall_forall in Hw, Hrows, Hbounds.
  pose proof (Hw row (nth_error_In _ _ Erow)) as Hwidth.
  pose proof (Hrows row (nth_error_In _ _ Erow)) as Hrow.
  destruct (Hbounds b (nth_error_In _ _ Eb)) as (bv & Ebv).
  destruct (map_result_all
              (fun j => rbind (index (constraint_entries st) i)
                          (fun r => rbind (index r j) (fun e => py_float e)))
              (range (num_variables st))) as (fs & Efs).
  { intros j Hj. unfold range in Hj. apply in_seq in Hj.
    rewrite Hn, Nat2Z.id, <- Hwidth in Hj.
    destruct (index_in_range row j) as (e & Ee & Ie); [lia|].
    rewrite Irow. cbn [rbind]. rewrite Ie. cbn [rbind].
    rewrite Forall_forall in Hrow. exact (Hrow e (nth_error_In _ _ Ee)). }
  exists (fs, bv, t). unfold read_constraint.
  rewrite Efs. cbn [rbind]. rewrite Ib. cbn [rbind]. rewrite Ebv. cbn [rbind].
  rewrite It. reflexivity.
Qed.

(** X3. On a consistent form whose objective, coefficient and bound entries
    all read as floats, [solve_problem] cannot fail before the call: no
    index is out of range and no [float] raises, so the solver is called,
    once, with one objective coefficient and one bound [(0, None)] per
    variable of the form. *)
Theorem solve_problem_reaches_the_solver (st : app) :
  consistent st ->
  Forall reads_as_float (obj_entries st) ->
  Forall (Forall reads_as_float) (constraint_entries st) ->
  Forall reads_as_float (bound_entries st) ->
  exists args,
    solver_input st = Ok args /\
    solver_calls (snd (solve_problem st)) = solver_calls st ++ [args] /\
    List.length (arg_c args) = Z.to_nat (num_variables st) /\
    arg_bounds args = repeat (0%Z, None) (Z.to_nat (num_variables st)).
Proof.
  intros Hc Hobj Hrows Hbounds.
  destruct (map_result_reads _ Hobj) as (objective & Eobj).
  destruct (map_result_all (read_constraint st) (range (num_constraints st)))
    as (cs & Ecs).
  { intros i Hi. unfold range in Hi. apply in_seq in Hi.
    apply read_constraint_reads; try assumption. lia. }
  pose proof (solver_input_ok st objective cs Eobj Ecs) as Hin.
  exists (arguments st objective cs).
  split; [exact Hin|]. split; [apply solve_problem_calls; exact Hin|].
  assert (Hlen : List.length (arg_c (arguments st objective cs))
                 = Z.to_nat (num_variables st)).
  { unfold arguments. cbn [arg_c].
    pose proof (map_result_length _ _ _ Eobj) as Hl.
    destruct Hc as (Hn & _). rewrite Hn, Nat2Z.id.
    destruct (objective_type st =? "maximize");
      [rewrite length_map|]; exact Hl. }
  split; [exact Hlen|].
  unfold arguments in *. cbn [arg_bounds arg_c] in *.
  rewrite map_const_seq, Hlen. reflexivity.
Qed.

(** X4. A form that cannot be read is refused with one dialog and nothing
    else: whenever reading the entries raises, [solve_problem] appends the
    dialog "Error solving problem: <message>" and leaves every other part
    of the state, the log of solver calls included, as it was.  The
    objective entries are read first: the first of them that [float]
    refuses decides the message, whatever the constraints hold. *)
Theorem solve_problem_unreadable_form (st : app) :
  (forall e,
      solver_input st = Raise e ->
      solve_problem st =
      (Ok tt,
       set_dialogs
         (dialogs st
          ++ [Dialog showerror "Error"
                ("Error solving problem: " +++ exn_msg e)]) st)) /\
  (forall pre entry post e,
      obj_entries st = pre ++ entry :: post ->
      Forall reads_as_float pre ->
      py_float entry = Raise e ->
      solver_input st = Raise e).
Proof.
  split.
  - intros e He. apply solve_problem_raise. exact He.
  - intros pre entry post e Hobj Hpre He.
    destruct (map_result_reads _ Hpre) as (fs & Efs).
    unfold solver_input, read_objective.
    rewrite Hobj, map_result_app, Efs. cbn [rbind map_result].
    rewrite He. reflexivity.
Qed.

End FormReads.

Lemma solve_problem_reaches_the_solver_witness :
  exists args,
    LinearProgrammingInterface.solver_input (RT := Sample.runtime) Examples.mixed_form = Ok args /\
    LinearProgrammingInterface.solver_calls
      (snd (LinearProgrammingInterface.solve_problem (RT := Sample.runtime)
              Examples.mixed_form))
    = [args] /\
    List.length (arg_c args) = 3%nat /\
    arg_bounds args = repeat (0%Z, None) 3.
Proof.
  apply (solve_problem_reaches_the_solver Sample.runtime Examples.mixed_form).
  - unfold consistent. simpl. repeat split; repeat constructor.
  - repeat constructor; eexists; vm_compute; reflexivity.
  - repeat constructor; eexists; vm_compute; reflexivity.
  - repeat constructor; eexists; vm_compute; reflexivity.
Defined.

Lemma solve_problem_unreadable_form_witness :
  LinearProgrammingInterface.solve_problem (RT := Sample.runtime)
    Unreadable.form =
  (Ok tt,
   LinearProgrammingInterface.set_dialogs
     [LinearProgrammingInterface.Dialog LinearProgrammingInterface.showerror
        "Error"
        "Error solving problem: could not convert string to float: 'two'"]
     Unreadable.form).
Proof.
  destruct (solve_problem_unreadable_form Sample.runtime Unreadable.form)
    as [Hshow Hfirst].
  apply (Hshow (Exn ValueError "could not convert string to float: 'two'")).
  apply (Hfirst ["3"] "two" []).
  - reflexivity.
  - repeat constructor. eexists. vm_compute. reflexivity.
  - vm_compute. reflexivity.
Defined.

(** ** Both surfaces: the bounds of the variables *)

(** X5. Every variable is bounded below by 0 and not bounded above, on both
    surfaces.  The form passes one bound [(0, None)] per objective
    coefficient it has read; the command line passes one per stored
    ['num_vars'], which after [input_problem] is again one per objective
    coefficient. *)
Theorem bounds_are_non_negativity (RT : Runtime) :
  (forall (st : LinearProgrammingInterface.app) args,
      LinearProgrammingInterface.solver_input st = Ok args ->
      arg_bounds args = repeat (0%Z, None) (List.length (arg_c args))) /\
  (forall (w w' : cli),
      input_problem w = (Ok tt, w') ->
      exists args,
        solver_calls (snd (solve w')) = solver_calls w' ++ [args] /\
        p_c (problem w') = Some (arg_c args) /\
        arg_bounds args = repeat (0%Z, None) (List.length (arg_c args))).
Proof.
  split.
  - intros st args H.
    apply solver_input_inv in H as (objective & cs & _ & _ & ->).
    unfold arguments. cbn [arg_bounds arg_c]. apply map_const_seq.
  - intros w w' H.
    destruct (input_problem_inv w w' H)
      as (n & c & cs & Hn & Hc & Hlen & _ & HA & Hb & HA' & Hb').
    exists (stored_arguments c (present (A_ub (normalize cs)))
              (present (b_ub (normalize cs))) (present (A_eq (normalize cs)))
              (present (b_eq (normalize cs))) n).
    split; [apply (solve_calls w' _ _ _ _ _ n Hn Hc HA Hb HA' Hb')|].
    split; [exact Hc|].
    unfold stored_arguments, range. cbn [arg_bounds arg_c].
    rewrite map_const_seq, Hlen. reflexivity.
Qed.

Lemma bounds_are_non_negativity_witness :
  (exists args,
      LinearProgrammingInterface.solver_input (RT := Sample.runtime)
        Examples.mixed_form = Ok args /\
      arg_bounds args = [(0%Z, None); (0%Z, None); (0%Z, None)]) /\
  (exists args,
      solver_calls (snd (solve (RT := Sample.runtime) Entered.mixed))
      = solver_calls Entered.mixed ++ [args] /\
      arg_bounds args = [(0%Z, None); (0%Z, None); (0%Z, None)]).
Proof.
  destruct (bounds_are_non_negativity Sample.runtime) as [Hform Hcli].
  split.
  - eexists. split; [vm_compute; reflexivity|].
    etransitivity;
      [apply (Hform Examples.mixed_form); vm_compute; reflexivity|].
    reflexivity.
  - destruct (Hcli (Examples.session Examples.mixed_lines) Entered.mixed)
      as (args & Hcalls & Hc & Hb); [vm_compute; reflexivity|].
    exists args. split; [exact Hcalls|].
    rewrite Hb.
    assert (Hl : option_map (@List.length float) (p_c (problem Entered.mixed))
                 = Some 3%nat) by reflexivity.
    rewrite Hc in Hl. injection Hl as ->. reflexivity.
Defined.

(** ** The form: [clear_problem] *)

Section FormClear.
Import LinearProgrammingInterface.





End FormClear.


(** ** The form: what [save_problem] and [load_problem] touch *)

Section FormFiles.
Import LinearProgrammingInterface.

Lemma read_write_other {C} (name other : string) (content : C) dir :
  other <> name ->
  read_file other (write_file name content dir) = read_file other dir.
Proof.
  intros Hne. induction dir as [|[n old] dir IH]; simpl.
  - destruct (String.eqb_spec name other); [congruence | reflexivity].
  - destruct (String.eqb_spec n name) as [->|Hn]; simpl.
    + destruct (String.eqb_spec name other); [congruence | reflexivity].
    + destruct (String.eqb_spec n other); [reflexivity | exact IH].
Qed.



(** X8. [load_problem] reads the first saved problem of the listing and no
    other.  With no file named [lp_problem...json] it shows a warning and
    changes nothing else.  When the first such file holds a consistent
    document, the problem of the form becomes the document, whole, whatever
    the form held; the results pane and the two labels keep what they
    showed, and with non-negative dimensions the form is consistent. *)
Theorem load_problem_first_file (st : app) :
  (first_saved_problem st = None ->
   load_problem st =
   (Ok tt,
    set_dialogs
      (dialogs st ++ [Dialog showwarning "Warning" "No saved problems found"])
      st)) /\
  (forall fn d,
      first_saved_problem st = Some fn ->
      read_file fn (directory st) = Some (Json d) ->
      consistent_document d ->
      load_problem st =
      (Ok tt,
       set_dialogs
         (dialogs st
          ++ [Dialog showinfo "Success" ("Problem loaded from " +++ fn)])
         (loaded d st)) /\
      form (snd (load_problem st))
      = (pd_num_variables d, pd_num_constraints d, pd_objective_type d,
         pd_objective_coeffs d, map coeffs (pd_constraints d),
         map type_ (pd_constraints d), map bound (pd_constraints d)) /\
      results_text (snd (load_problem st)) = results_text st /\
      ((0 <= pd_num_variables d)%Z -> (0 <= pd_num_constraints d)%Z ->
       consistent (snd (load_problem st)))).
Proof.
  split.
  - unfold first_saved_problem. intros H.
    unfold load_problem, try_except, bind at 1, gets at 1.
    destruct (filter is_saved_problem (map fst (directory st)));
      [reflexivity | discriminate].
  - intros fn d Hfirst Hread Hd. unfold first_saved_problem in Hfirst.
    destruct (filter is_saved_problem (map fst (directory st)))
      as [|fn' others] eqn:Hfilter; [discriminate|].
    injection Hfirst as ->.
    pose proof (load_problem_document st fn others d Hfilter Hread Hd) as Hrun.
    split; [exact Hrun|]. rewrite Hrun. cbn [snd].
    split; [reflexivity|]. split; [reflexivity|].
    intros Hn Hm. destruct Hd as (Hobj & Hcons & Hrows).
    unfold consistent, loaded. gui_simpl.
    rewrite !length_map, Hobj, Hcons, !Z2Nat.id by assumption.
    repeat split; try reflexivity.
    apply Forall_forall. intros r Hr.
    apply in_map_iff in Hr as (k & <- & Hk).
    rewrite Forall_forall in Hrows. exact (Hrows k Hk).
Qed.

End FormFiles.


Lemma load_problem_first_file_witness :
  LinearProgrammingInterface.form
    (snd (LinearProgrammingInterface.load_problem Overwritten.form_beside_older))
  = (2%Z, 1%Z, "minimize", ["1"; "1"], [["1"; "1"]], ["="], ["4"]) /\
  LinearProgrammingInterface.results_text
    (snd (LinearProgrammingInterface.load_problem Overwritten.form_beside_older))
  = "old results".
Proof.
  destruct (proj2 (load_problem_first_file Overwritten.form_beside_older)
              "lp_problem_2vars_1cons.json" (document Examples.equalities_form))
    as (_ & Hform & Hres & _).
  - reflexivity.
  - reflexivity.
  - unfold consistent_document. simpl. repeat split; repeat constructor.
  - split; [rewrite Hform; reflexivity | exact Hres].
Defined.

(** ** The examples tab *)

Section ExamplesTab.
Import LinearProgrammingInterface.
Import Window.

Lemma on_form_run {A} (m : M app A) (wd : window) r st :
  m (form_of wd) = (r, st) ->
  on_form m wd = (r, MkWindow st (example_desc wd)).
Proof. unfold on_form. intros ->. reflexivity. Qed.

Lemma for_each_on_form {X} (xs : list X) (g : X -> M app unit) : forall wd,
  for_each xs (fun x => on_form (g x)) wd = on_form (for_each xs g) wd.
Proof.
  induction xs as [|x xs IH]; intros wd.
  - destruct wd; reflexivity.
  - cbn [for_each]. unfold bind, on_form.
    destruct (g x (form_of wd)) as [[[]|e] st1]; [|reflexivity].
    exact (IH _).
Qed.

Lemma for_each_converted {S X Y} (f : X -> Y) (h : nat -> Y -> M S unit)
  (l : list X) : forall k,
  for_each (combine (seq k (List.length l)) l)
    (fun jc => h (fst jc) (f (snd jc))) =
  for_each (combine (seq k (List.length (map f l))) (map f l))
    (fun jc => h (fst jc) (snd jc)).
Proof.
  induction l as [|x l IH]; intros k; [reflexivity|].
  cbn [List.length map seq combine for_each fst snd]. rewrite IH. reflexivity.
Qed.

Lemma fill_row_loads (i : nat) (r : example_row) (wd : window) :
  fill_row (i, r) wd = on_form (load_constraint (i, as_saved r)) wd.
Proof.
  destruct r as [[zs op] b]. unfold fill_row, load_constraint, as_saved.
  cbn [fst snd coeffs type_ bound].
  unfold enumerate.
  rewrite <- (for_each_converted str_of_int
                (fun j v => set_constraint_entry i j v) zs 0).
  unfold bind at 1. rewrite for_each_on_form.
  unfold bind, on_form.
  destruct (for_each _ _ (form_of wd)) as [[[]|e] st1]; [|reflexivity].
  cbn [form_of example_desc].
  destruct (set_type_combo i op st1) as [[[]|e] st2]; [|reflexivity].
  reflexivity.
Qed.

Lemma fill_rows_load (rows : list example_row) : forall k wd,
  for_each (combine (seq k (List.length rows)) rows) fill_row wd =
  on_form
    (for_each (combine (seq k (List.length (map as_saved rows)))
                 (map as_saved rows)) load_constraint) wd.
Proof.
  induction rows as [|r rows IH]; intros k wd.
  - destruct wd; reflexivity.
  - cbn [List.length map seq combine for_each]. unfold bind at 1.
    rewrite fill_row_loads. unfold on_form at 1.
    pose proof (IH (S k)) as IH'. unfold on_form in IH'.
    unfold on_form, bind.
    destruct (load_constraint (k, as_saved r) (form_of wd)) as [[[]|e] st1];
      [|reflexivity].
    exact (IH' _).
Qed.

Lemma fill_example_run n m sense objective rows desc (wd : window) :
  List.length objective = Z.to_nat n ->
  List.length rows = Z.to_nat m ->
  Forall (fun r : example_row => List.length (fst (fst r)) = Z.to_nat n) rows ->
  fill_example n m sense objective rows desc wd =
  (Ok tt,
   MkWindow (loaded (example_document n m sense objective rows) (form_of wd))
     desc).
Proof.
  intros Hobj Hrows Hwidth. unfold fill_example.
  do 3 (unfold bind at 1, on_form at 1, modify at 1;
        cbn [form_of example_desc]).
  unfold bind at 1, on_form at 1. rewrite update_problem_size_run.
  cbn [form_of example_desc]. gui_simpl.
  unfold bind at 1. rewrite for_each_on_form.
  match goal with
  | |- context [for_each (enumerate ?es) ?f] =>
      match goal with
      | |- context [on_form _ (MkWindow ?s ?x)] =>
          pose proof (load_objective es [] (obj_entries s) s eq_refl) as Ho
      end
  end.
  gui_simpl_in Ho. cbn [List.length List.app] in Ho.
  unfold enumerate at 1.
  erewrite on_form_run;
    [|cbn [form_of]; apply Ho; rewrite repeat_length; congruence].
  clear Ho. cbn [form_of example_desc]. gui_simpl.
  unfold bind at 1. unfold enumerate at 1. rewrite fill_rows_load.
  match goal with
  | |- context [on_form _ (MkWindow ?s ?x)] =>
      pose proof (load_constraints (Z.to_nat n) (map as_saved rows) []
                    (constraint_entries s) (type_combos s) (bound_entries s)
                    s eq_refl eq_refl eq_refl) as Hk
  end.
  gui_simpl_in Hk. cbn [List.length List.app] in Hk.
  erewrite on_form_run;
    [|cbn [form_of]; apply Hk;
      [ rewrite repeat_length, length_map; congruence
      | rewrite repeat_length, length_map; congruence
      | rewrite repeat_length, length_map; congruence
      | apply Forall_repeat; apply repeat_length
      | apply Forall_forall; intros k Hin;
        apply in_map_iff in Hin as (r & <- & Hr);
        rewrite Forall_forall in Hwidth; unfold as_saved; cbn [coeffs];
        rewrite length_map; exact (Hwidth r Hr) ]].
  clear Hk. cbn [form_of example_desc]. gui_simpl.
  unfold describe, modify. cbn [form_of]. reflexivity.
Qed.

End ExamplesTab.

(** X10. Each button of the examples tab replaces the problem of the form,
    whatever it was, by the problem of the example, and shows its
    description.  The results pane, the two labels, the dialogs and the
    files are not touched, so a solution shown before stays on display; the
    form is left consistent. *)
Theorem examples_replace_the_problem (wd : Window.window) :
  let st := Window.form_of wd in
  let kept n m sense objective rows types bounds :=
    LinearProgrammingInterface.App n m sense objective rows bounds types
      (LinearProgrammingInterface.results_text st)
      (LinearProgrammingInterface.optimal_value_label st)
      (LinearProgrammingInterface.status_label st)
      (LinearProgrammingInterface.dialogs st)
      (LinearProgrammingInterface.directory st)
      (LinearProgrammingInterface.solver_calls st) in
  (Window.load_production_example wd =
   (Ok tt,
    Window.MkWindow
      (kept 2%Z 3%Z "maximize" ["3"; "2"]
         [["2"; "1"]; ["1"; "1"]; ["1"; "0"]]
         ["<="; "<="; "<="] ["100"; "80"; "40"])
      Window.production_desc)) /\
  (Window.load_diet_example wd =
   (Ok tt,
    Window.MkWindow
      (kept 2%Z 2%Z "minimize" ["0.5"; "0.3"]
         [["2"; "1"]; ["1"; "3"]]
         [">="; ">="] ["10"; "12"])
      Window.diet_desc)) /\
  (Window.load_transportation_example wd =
   (Ok tt,
    Window.MkWindow
      (kept 3%Z 2%Z "minimize" ["2"; "3"; "1"]
         [["1"; "1"; "1"]; ["2"; "1"; "3"]]
         [">="; "<="] ["100"; "200"])
      Window.transportation_desc)) /\
  (Window.load_investment_example wd =
   (Ok tt,
    Window.MkWindow
      (kept 2%Z 3%Z "maximize" ["0.08"; "0.12"]
         [["1"; "1"]; ["1"; "0"]; ["0"; "1"]]
         ["<="; ">="; "<="] ["10000"; "3000"; "5000"])
      Window.investment_desc)) /\
  consistent (Window.form_of (snd (Window.load_production_example wd))) /\
  consistent (Window.form_of (snd (Window.load_diet_example wd))) /\
  consistent (Window.form_of (snd (Window.load_transportation_example wd))) /\
  consistent (Window.form_of (snd (Window.load_investment_example wd))).
Proof.
  intros st kept.
  assert (H1 : Window.load_production_example wd =
               (Ok tt,
                Window.MkWindow
                  (kept 2%Z 3%Z "maximize" ["3"; "2"]
                     [["2"; "1"]; ["1"; "1"]; ["1"; "0"]]
                     ["<="; "<="; "<="] ["100"; "80"; "40"])
                  Window.production_desc)).
  { unfold Window.load_production_example.
    rewrite fill_example_run by (try reflexivity; repeat constructor).
    reflexivity. }
  assert (H2 : Window.load_diet_example wd =
               (Ok tt,
                Window.MkWindow
                  (kept 2%Z 2%Z "minimize" ["0.5"; "0.3"]
                     [["2"; "1"]; ["1"; "3"]]
                     [">="; ">="] ["10"; "12"])
                  Window.diet_desc)).
  { unfold Window.load_diet_example.
    rewrite fill_example_run by (try reflexivity; repeat constructor).
    reflexivity. }
  assert (H3 : Window.load_transportation_example wd =
               (Ok tt,
                Window.MkWindow
                  (kept 3%Z 2%Z "minimize" ["2"; "3"; "1"]
                     [["1"; "1"; "1"]; ["2"; "1"; "3"]]
                     [">="; "<="] ["100"; "200"])
                  Window.transportation_desc)).
  { unfold Window.load_transportation_example.
    rewrite fill_example_run by (try reflexivity; repeat constructor).
    reflexivity. }
  assert (H4 : Window.load_investment_example wd =
               (Ok tt,
                Window.MkWindow
                  (kept 2%Z 3%Z "maximize" ["0.08"; "0.12"]
                     [["1"; "1"]; ["1"; "0"]; ["0"; "1"]]
                     ["<="; ">="; "<="] ["10000"; "3000"; "5000"])
                  Window.investment_desc)).
  { unfold Window.load_investment_example.
    rewrite fill_example_run by (try reflexivity; repeat constructor).
    reflexivity. }
  rewrite H1, H2, H3, H4.
  repeat split; repeat constructor.
Qed.

(** ** The command line: what each method leaves alone *)

Section CliSteps.
Context {RT : Runtime} {FM : Menu.Formats} {FS : Files}.
Context (R : cli -> cli -> Prop).
Hypothesis R_refl : forall w, R w w.
Hypothesis R_trans : forall w1 w2 w3, R w1 w2 -> R w2 w3 -> R w1 w3.
Hypothesis R_out : forall w s, R w (set_stdout (stdout w ++ [s]) w).
Hypothesis R_in :
  forall w line rest, stdin w = line :: rest -> R w (set_stdin rest w).
Hypothesis R_calls : forall w calls, R w (set_solver_calls calls w).
Hypothesis R_sense :
  forall w v, R w (set_problem (store_maximize v (problem w)) w).
Hypothesis R_problem : forall w p, R w (set_problem p w).
Hypothesis R_files : forall w dir, R w (set_directory dir w).

Lemma respects_print s : respects R (print s).
Proof. apply respects_modify. intros w. apply R_out. Qed.

Lemma respects_input prompt : respects R (input prompt).
Proof.
  intros w r w' H. unfold input in H. cbv zeta in H.
  destruct (stdin (set_stdout (stdout w ++ [prompt]) w)) as [|line rest] eqn:E;
    injection H as _ <-.
  - apply R_out.
  - apply (R_trans _ (set_stdout (stdout w ++ [prompt]) w));
      [apply R_out | apply (R_in _ line rest E)].
Qed.

Lemma respects_getitem {A} k (field : problem_dict -> option A) :
  respects R (getitem k field).
Proof.
  intros w r w' H. unfold getitem in H.
  destruct (field (problem w)); injection H as _ <-; apply R_refl.
Qed.

Lemma respects_call_linprog args : respects R (call_linprog args).
Proof. intros w r w' H. injection H as _ <-. apply R_calls. Qed.

Ltac cli_respects_with leaf :=
  repeat first
    [ match goal with |- forall _, _ => intro end
    | leaf
    | apply (respects_bind _ R_trans)
    | apply (respects_try_except _ R_trans)
    | apply (respects_ret _ R_refl)
    | apply (respects_lift _ R_refl)
    | apply (respects_gets _ R_refl)
    | apply (respects_for_each _ R_refl R_trans)
    | apply (respects_fold_M _ R_refl R_trans)
    | apply respects_print
    | apply respects_input
    | apply respects_getitem
    | apply respects_call_linprog
    | match goal with |- respects _ (if ?b then _ else _) => destruct b end
    | progress cbv zeta ].

Ltac cli_respects := cli_respects_with fail.

Lemma respects_display_results result : respects R (display_results result).
Proof. unfold display_results. cli_respects. Qed.

Lemma respects_solve : respects R solve.
Proof. unfold solve. cli_respects. Qed.

Lemma respects_quick_example : respects R Menu.quick_example.
Proof. unfold Menu.quick_example. cli_respects. Qed.

Lemma respects_input_coefficients indent n :
  respects R (input_coefficients indent n).
Proof. unfold input_coefficients. cli_respects. Qed.

Lemma respects_input_constraint n acc i :
  respects R (input_constraint n acc i).
Proof.
  unfold input_constraint. cli_respects.
Qed.

Lemma respects_store_maximize v :
  respects R (modify (fun w => set_problem (store_maximize v (problem w)) w)).
Proof. apply respects_modify. intros w. apply R_sense. Qed.

(** Every step of [input_problem] but the last, which stores the six
    entries and cannot raise. *)
Lemma respects_on_raise_input_problem : respects_on_raise R input_problem.
Proof.
  unfold input_problem.
  repeat first
    [ apply respects_on_raise_modify
    | apply (respects_on_raise_bind _ R_trans); [|intro]
    | progress cbv zeta ];
    cli_respects;
    first [ apply respects_input_coefficients
          | apply respects_store_maximize
          | apply respects_input_constraint ].
Qed.

Lemma respects_input_problem : respects R input_problem.
Proof.
  unfold input_problem. cli_respects;
    first [ apply respects_input_coefficients
          | apply respects_store_maximize
          | apply respects_input_constraint
          | apply respects_modify; intros w; apply R_problem ].
Qed.

Lemma respects_save_problem fn : respects R (save_problem fn).
Proof.
  unfold save_problem. cli_respects.
  apply respects_modify. intros w. apply R_files.
Qed.

Lemma respects_load_problem fn : respects R (load_problem fn).
Proof.
  unfold load_problem. cli_respects.
  apply respects_modify. intros w. apply R_problem.
Qed.

Lemma respects_menu_choice choice : respects R (Menu.menu_choice choice).
Proof.
  unfold Menu.menu_choice.
  cli_respects_with
    ltac:(first [ apply respects_input_problem | apply respects_solve
                | apply respects_save_problem | apply respects_load_problem
                | apply respects_quick_example ]).
Qed.

End CliSteps.

Lemma only_prints_refl w : only_prints w w.
Proof.
  repeat split. exists []. rewrite app_nil_r. reflexivity.
Qed.

Lemma only_prints_trans w1 w2 w3 :
  only_prints w1 w2 -> only_prints w2 w3 -> only_prints w1 w3.
Proof.
  intros (Hp & Hi & Hd & out & Ho) (Hp' & Hi' & Hd' & out' & Ho').
  repeat split; try congruence.
  exists (out ++ out'). rewrite Ho', Ho, app_assoc. reflexivity.
Qed.

Lemma only_prints_out w s : only_prints w (set_stdout (stdout w ++ [s]) w).
Proof. repeat split. exists [s]. reflexivity. Qed.

Lemma only_prints_calls w calls : only_prints w (set_solver_calls calls w).
Proof. repeat split. exists []. cbn. rewrite app_nil_r. reflexivity. Qed.

Lemma keeps_entries_refl w : keeps_entries w w.
Proof. repeat split. Qed.

Lemma keeps_entries_trans w1 w2 w3 :
  keeps_entries w1 w2 -> keeps_entries w2 w3 -> keeps_entries w1 w3.
Proof.
  unfold keeps_entries. intros H1 H2.
  decompose [and] H1. decompose [and] H2. repeat split; congruence.
Qed.

(** ** The command line: [solve] and the keys of the dict *)

Section CliSolve.
Context (RT : Runtime).

(** X11. [solve] looks up six keys before it calls the solver, in the order
    ['num_vars'], ['c'], ['A_ub'], ['b_ub'], ['A_eq'], ['b_eq'].  When one
    is missing, the first missing one is named in the one line "Error
    solving problem: '<key>'", the solver is not called and nothing but the
    output changes; when none is missing the solver is called. *)
Theorem solve_needs_six_keys (w : cli) :
  (forall k,
      first_missing (problem w) = Some k ->
      solve w =
      (Ok tt,
       Cli (problem w) (stdin w)
         (stdout w ++ solving_lines
          ++ ["Error solving problem: '" +++ k +++ "'"])
         (directory w) (solver_calls w))) /\
  (first_missing (problem w) = None ->
   exists args, solver_calls (snd (solve w)) = solver_calls w ++ [args]).
Proof.
  destruct w as [[mx c A b A' b' n] i o d calls].
  unfold first_missing. cbn [problem p_num_vars p_c p_A_ub p_b_ub p_A_eq p_b_eq].
  split.
  - intros k Hk.
    unfold solve. do 3 cli_print. unfold try_except, bind, getitem.
    cli_simpl. cbn [p_num_vars p_c p_A_ub p_b_ub p_A_eq p_b_eq].
    destruct n; [destruct c; [destruct A; [destruct b; [destruct A';
      [destruct b'; [discriminate|]|]|]|]|]|];
      injection Hk as <-;
      cbn [problem stdin stdout directory solver_calls
           p_num_vars p_c p_A_ub p_b_ub p_A_eq p_b_eq];
      rewrite print_run; cli_simpl; rewrite <- !app_assoc; reflexivity.
  - intros Hk.
    destruct n as [n|]; [|discriminate]. destruct c as [c|]; [|discriminate].
    destruct A as [A|]; [|discriminate]. destruct b as [b|]; [|discriminate].
    destruct A' as [A'|]; [|discriminate].
    destruct b' as [b'|]; [|discriminate].
    exists (stored_arguments c A b A' b' n).
    apply (solve_calls _ c A b A' b' n); reflexivity.
Qed.

End CliSolve.

Lemma solve_needs_six_keys_witness :
  solve (RT := Sample.runtime) Sessions.sense_only =
  (Ok tt,
   Cli (problem Sessions.sense_only) []
     (solving_lines ++ ["Error solving problem: 'num_vars'"]) [] []).
Proof.
  apply (proj1 (solve_needs_six_keys Sample.runtime Sessions.sense_only)
           "num_vars").
  reflexivity.
Defined.

Section CliSolveSense.
Context (RT : Runtime) (FS : Files).

(** X12. The key ['maximize'] is looked up only after the solver has
    answered, and only for a successful result.  Without it a successful
    result is not shown: after the status and the number of iterations the
    one line "Error solving problem: 'maximize'" follows; a result that is
    no success is reported in full. *)
Theorem solve_without_sense (w : cli) c A_ub' b_ub' A_eq' b_eq' n res :
  p_maximize (problem w) = None ->
  p_num_vars (problem w) = Some n ->
  p_c (problem w) = Some c ->
  p_A_ub (problem w) = Some A_ub' ->
  p_b_ub (problem w) = Some b_ub' ->
  p_A_eq (problem w) = Some A_eq' ->
  p_b_eq (problem w) = Some b_eq' ->
  linprog (stored_arguments c A_ub' b_ub' A_eq' b_eq' n) = Ok res ->
  (res_success res = true ->
   solve w =
   (Ok tt,
    Cli (problem w) (stdin w)
      (stdout w ++ solving_lines
       ++ [nl +++ str_mul "=" 50; "SOLUTION RESULTS"; str_mul "=" 50;
           "Status: " +++ res_message res;
           "Iterations: " +++ str_of_int (res_nit res);
           "Error solving problem: 'maximize'"])
      (directory w)
      (solver_calls w ++ [stored_arguments c A_ub' b_ub' A_eq' b_eq' n]))) /\
  (res_success res = false ->
   solve w =
   (Ok tt,
    Cli (problem w) (stdin w)
      (stdout w ++ solving_lines ++ failure_lines (res_message res))
      (directory w)
      (solver_calls w ++ [stored_arguments c A_ub' b_ub' A_eq' b_eq' n]))).
Proof.
  intros Hmx Hn Hc Hau Hbu Hae Hbe Hres.
  split; intros Hs; unfold solve; do 3 cli_print; unfold try_except;
    cli_getitem Hn; cli_getitem Hc; cli_getitem Hau; cli_getitem Hbu;
    cli_getitem Hae; cli_getitem Hbe;
    unfold bind at 1, call_linprog at 1, set_solver_calls; cli_simpl;
    fold (stored_arguments c A_ub' b_ub' A_eq' b_eq' n); rewrite Hres.
  - unfold display_results. do 3 cli_print. rewrite Hs. do 2 cli_print.
    cli_getitem Hmx. rewrite print_run. cli_simpl.
    rewrite <- !app_assoc. reflexivity.
  - rewrite (display_results_failure _ res Hs). cli_simpl.
    rewrite <- !app_assoc. reflexivity.
Qed.

(** X13. [solve], [save_problem] and [load_problem] catch every exception:
    each returns normally whatever the dict, the files, the path and the
    solver's answer are.  [solve] changes neither the stored problem nor the
    files and reads no input.  [save_problem] changes at most the file it is
    given: when the path cannot be opened for writing it prints "Error
    saving problem: <message>" and no file changes, otherwise the file holds
    the stored dict and "Problem saved to <path>" is printed.
    [load_problem] changes only the stored problem. *)
Theorem command_line_methods_catch (w : cli) (fn : string) :
  (fst (solve w) = Ok tt /\ only_prints w (snd (solve w))) /\
  (fst (save_problem fn w) = Ok tt /\
   problem (snd (save_problem fn w)) = problem w /\
   stdin (snd (save_problem fn w)) = stdin w /\
   solver_calls (snd (save_problem fn w)) = solver_calls w /\
   (forall other,
       other <> fn ->
       read_file other (directory (snd (save_problem fn w)))
       = read_file other (directory w)) /\
   (forall e,
       open_w fn = Raise e ->
       directory (snd (save_problem fn w)) = directory w /\
       stdout (snd (save_problem fn w))
       = stdout w ++ ["Error saving problem: " +++ exn_msg e]) /\
   (open_w fn = Ok tt ->
    read_file fn (directory (snd (save_problem fn w)))
    = Some (Json (problem w)) /\
    stdout (snd (save_problem fn w))
    = stdout w ++ ["Problem saved to " +++ fn])) /\
  (fst (load_problem fn w) = Ok tt /\
   stdin (snd (load_problem fn w)) = stdin w /\
   directory (snd (load_problem fn w)) = directory w /\
   solver_calls (snd (load_problem fn w)) = solver_calls w).
Proof.
  split; [|split].
  - split.
    + unfold solve. do 3 cli_print. apply try_except_returns. reflexivity.
    + apply (respects_solve only_prints only_prints_refl only_prints_trans
               only_prints_out only_prints_calls w (fst (solve w))).
      destruct (solve w); reflexivity.
  - split; [unfold save_problem; apply try_except_returns; reflexivity|].
    destruct (save_problem_cases_cli FS fn w)
      as [[Hopen Hrun]|(e & Hopen & Hrun)]; rewrite Hrun; cbn [snd];
      cli_simpl.
    + split; [reflexivity|]. split; [reflexivity|]. split; [reflexivity|].
      split; [intros other Hne; apply read_write_other; exact Hne|].
      split; [intros e He; congruence|].
      intros _. split; [apply read_write_file | reflexivity].
    + split; [reflexivity|]. split; [reflexivity|]. split; [reflexivity|].
      split; [reflexivity|].
      split; [|intros He; congruence].
      intros e' He. rewrite Hopen in He. injection He as <-.
      split; reflexivity.
  - split.
    + unfold load_problem. apply try_except_returns. reflexivity.
    + apply (respects_load_problem
               (fun w w' => stdin w' = stdin w /\ directory w' = directory w /\
                            solver_calls w' = solver_calls w)
               ltac:(intros; repeat split)
               ltac:(intros ? ? ? (? & ? & ?) (? & ? & ?);
                     repeat split; congruence)
               ltac:(intros; repeat split)
               ltac:(intros; repeat split)
               fn w (fst (load_problem fn w))).
      destruct (load_problem fn w); reflexivity.
Qed.

(** X14. [input_problem] stores the objective and the constraints in one
    step, its last: a run that raises, on a word typed for a number or at
    the end of the input, leaves the entries ['c'], ['A_ub'], ['b_ub'],
    ['A_eq'], ['b_eq'] and ['num_vars'] of the dict, the files and the log
    of solver calls as they were.  Only ['maximize'] may already hold the
    new answer. *)
Theorem input_problem_raise_keeps_entries (w w' : cli) (e : exn) :
  input_problem w = (Raise e, w') -> keeps_entries w w'.
Proof.
  apply (respects_on_raise_input_problem keeps_entries keeps_entries_refl
           keeps_entries_trans).
  - intros. repeat split.
  - intros. repeat split.
  - intros. repeat split.
Qed.

End CliSolveSense.

Lemma solve_without_sense_witness :
  solve (RT := Sample.runtime) Sessions.without_sense =
  (Ok tt,
   Cli (problem Sessions.without_sense) []
     (solving_lines
      ++ [nl +++ str_mul "=" 50; "SOLUTION RESULTS"; str_mul "=" 50;
          "Status: " +++ Sample.optimal; "Iterations: 2";
          "Error solving problem: 'maximize'"])
     []
     [stored_arguments Sample.production_c (Some Sample.production_A)
        (Some Sample.production_b) None None 2]).
Proof.
  apply (proj1 (solve_without_sense Sample.runtime Sessions.without_sense
                  Sample.production_c (Some Sample.production_A)
                  (Some Sample.production_b) None None 2
                  (MkResult true Sample.optimal (Some (Sample.float_of_Z (-180)))
                     (Some [Sample.float_of_Z 20; Sample.float_of_Z 60]) 2)
                  eq_refl eq_refl eq_refl eq_refl eq_refl eq_refl eq_refl
                  ltac:(vm_compute; reflexivity))).
  reflexivity.
Defined.

Lemma input_problem_raise_keeps_entries_witness :
  fst (input_problem (RT := Sample.runtime) Sessions.word_for_a_number)
  = Raise (Exn ValueError "could not convert string to float: 'one'") /\
  keeps_entries Sessions.word_for_a_number
    (snd (input_problem (RT := Sample.runtime) Sessions.word_for_a_number)) /\
  p_maximize
    (problem (snd (input_problem (RT := Sample.runtime)
                     Sessions.word_for_a_number)))
  = Some true.
Proof.
  split; [vm_compute; reflexivity|].
  split; [|vm_compute; reflexivity].
  apply (input_problem_raise_keeps_entries Sample.runtime
           Sessions.word_for_a_number _
           (Exn ValueError "could not convert string to float: 'one'")).
  vm_compute. reflexivity.
Defined.

(** ** The command line: the menu loop *)

Lemma reads_on_refl w : reads_on w w.
Proof. exists []. reflexivity. Qed.

Lemma reads_on_trans w1 w2 w3 : reads_on w1 w2 -> reads_on w2 w3 -> reads_on w1 w3.
Proof.
  intros (u & Hu) (u' & Hu'). exists (u ++ u').
  rewrite Hu, Hu', app_assoc. reflexivity.
Qed.

Section MenuLoop.
Context (RT : Runtime) (FM : Menu.Formats) (FS : Files).

Lemma menu_choice_reads_on choice : respects reads_on (Menu.menu_choice choice).
Proof.
  apply (respects_menu_choice reads_on reads_on_refl reads_on_trans).
  - intros w s. exists []. reflexivity.
  - intros w line rest H. exists [line]. exact H.
  - intros w calls. exists []. reflexivity.
  - intros w v. exists []. reflexivity.
  - intros w p. exists []. reflexivity.
  - intros w dir. exists []. reflexivity.
Qed.

Lemma menu_turn_run (w : cli) line rest :
  stdin w = line :: rest ->
  Menu.menu_turn w =
  Menu.menu_choice (str_strip line)
    (Cli (problem w) rest (stdout w ++ menu_lines) (directory w)
       (solver_calls w)).
Proof.
  intros H. unfold Menu.menu_turn. do 9 cli_print.
  unfold bind at 1. erewrite input_line by (cli_simpl; exact H). cli_simpl.
  rewrite <- !app_assoc. reflexivity.
Qed.

Lemma menu_turn_eof (w : cli) :
  stdin w = [] ->
  Menu.menu_turn w =
  (Raise (Exn EOFError "EOF when reading a line"),
   Cli (problem w) [] (stdout w ++ menu_lines) (directory w) (solver_calls w)).
Proof.
  intros H. unfold Menu.menu_turn. do 9 cli_print.
  unfold bind at 1, input at 1. cbv zeta. cli_simpl. unfold set_stdout.
  cli_simpl. rewrite H. rewrite <- !app_assoc. reflexivity.
Qed.

Lemma menu_turn_consumes (w : cli) go w' :
  Menu.menu_turn w = (Ok go, w') ->
  (List.length (stdin w') < List.length (stdin w))%nat.
Proof.
  intros H. destruct (stdin w) as [|line rest] eqn:E.
  - rewrite (menu_turn_eof w E) in H. discriminate.
  - rewrite (menu_turn_run w line rest E) in H.
    apply menu_choice_reads_on in H as (used & Hu). cli_simpl_in Hu.
    apply (f_equal (@List.length string)) in Hu.
    rewrite length_app in Hu. simpl. lia.
Qed.

(** X15. [main] cannot loop for ever on a finite input.  Every turn of the
    loop that goes on has read at least one line, so with more turns allowed
    than there are lines typed the loop is left by its [break] or by an
    exception, and allowing more turns changes nothing. *)
Theorem main_loop_ends (fuel : nat) (w : cli) :
  (List.length (stdin w) < fuel)%nat ->
  fst (Menu.main_loop fuel w) <> Ok false /\
  forall fuel', (fuel <= fuel')%nat ->
    Menu.main_loop fuel' w = Menu.main_loop fuel w.
Proof.
  revert w. induction fuel as [|fuel IH]; intros w Hlen; [lia|].
  cbn [Menu.main_loop]. unfold bind.
  destruct (Menu.menu_turn w) as [[go|e] w1] eqn:E.
  - destruct go.
    + pose proof (menu_turn_consumes w true w1 E) as Hlt.
      destruct (IH w1 ltac:(lia)) as [Hend Hmore].
      split; [exact Hend|].
      intros fuel' Hle. destruct fuel' as [|fuel']; [lia|].
      cbn [Menu.main_loop]. unfold bind. rewrite E.
      apply Hmore. lia.
    + split; [discriminate|].
      intros fuel' Hle. destruct fuel' as [|fuel']; [lia|].
      cbn [Menu.main_loop]. unfold bind. rewrite E. reflexivity.
  - split; [discriminate|].
    intros fuel' Hle. destruct fuel' as [|fuel']; [lia|].
    cbn [Menu.main_loop]. unfold bind. rewrite E. reflexivity.
Qed.

End MenuLoop.

Lemma main_loop_ends_witness :
  fst (Menu.main_loop (RT := Sample.runtime) (FM := Menu.sample_formats) (FS := Disk.files) 5
         Typed.nothing_to_solve) <> Ok false /\
  Menu.main_loop (RT := Sample.runtime) (FM := Menu.sample_formats) (FS := Disk.files) 9
    Typed.nothing_to_solve
  = Menu.main_loop (RT := Sample.runtime) (FM := Menu.sample_formats) (FS := Disk.files) 5
      Typed.nothing_to_solve.
Proof.
  destruct (main_loop_ends Sample.runtime Menu.sample_formats
              Disk.files 5
              Typed.nothing_to_solve) as [Hend Hmore].
  - simpl. lia.
  - split; [exact Hend | apply Hmore; lia].
Defined.

Section MenuChoices.
Context (RT : Runtime) (FM : Menu.Formats) (FS : Files).

Lemma solve_run (w : cli) c A_ub' b_ub' A_eq' b_eq' n :
  p_num_vars (problem w) = Some n ->
  p_c (problem w) = Some c ->
  p_A_ub (problem w) = Some A_ub' ->
  p_b_ub (problem w) = Some b_ub' ->
  p_A_eq (problem w) = Some A_eq' ->
  p_b_eq (problem w) = Some b_eq' ->
  exists out,
    solve w =
    (Ok tt,
     Cli (problem w) (stdin w) (stdout w ++ out) (directory w)
       (solver_calls w ++ [stored_arguments c A_ub' b_ub' A_eq' b_eq' n])).
Proof.
  intros Hn Hc Hau Hbu Hae Hbe.
  unfold solve. do 3 cli_print.
  unfold try_except.
  cli_getitem Hn. cli_getitem Hc. cli_getitem Hau. cli_getitem Hbu.
  cli_getitem Hae. cli_getitem Hbe.
  unfold bind at 1, call_linprog at 1, set_solver_calls. cli_simpl.
  fold (stored_arguments c A_ub' b_ub' A_eq' b_eq' n).
  destruct (linprog _) as [result|e].
  - match goal with
    | |- context [display_results ?r ?s] =>
        destruct (display_results_prints r s) as (res & out & Hd)
    end.
    rewrite Hd. cli_simpl. destruct res as [[]|e].
    + eexists. rewrite <- !app_assoc. reflexivity.
    + rewrite print_run. cli_simpl.
      eexists. rewrite <- !app_assoc. reflexivity.
  - rewrite print_run. cli_simpl.
    eexists. rewrite <- !app_assoc. reflexivity.
Qed.

Ltac choose H :=
  unfold Menu.menu_choice; rewrite H;
  cbn [String.eqb Ascii.eqb Bool.eqb].

(** X16. The menu keeps [solve] and [save_problem] away from an empty dict,
    and understands the six choices only.  On a dict without a key, choice 2
    prints "No problem defined. Please input a problem first." and choice 3
    prints "No problem to save." without asking for a file name; neither
    calls the solver or touches a file.  Any answer that, stripped, is none
    of "1" to "6" prints "Invalid choice. Please try again.".  In the three
    cases the loop goes on; choice 6 prints the farewell and leaves it. *)
Theorem menu_guards (w : cli) (line : string) (rest : list string) :
  stdin w = line :: rest ->
  let said text :=
    Cli (problem w) rest (stdout w ++ menu_lines ++ [text]) (directory w)
      (solver_calls w) in
  (Menu.has_key (problem w) = false ->
   str_strip line = "2" ->
   Menu.menu_turn w =
   (Ok true, said "No problem defined. Please input a problem first.")) /\
  (Menu.has_key (problem w) = false ->
   str_strip line = "3" ->
   Menu.menu_turn w = (Ok true, said "No problem to save.")) /\
  (~ In (str_strip line) ["1"; "2"; "3"; "4"; "5"; "6"] ->
   Menu.menu_turn w = (Ok true, said "Invalid choice. Please try again.")) /\
  (str_strip line = "6" ->
   Menu.menu_turn w = (Ok false, said "Thank you for using LP Solver!")).
Proof.
  intros Hin said. subst said. cbv beta.
  rewrite (menu_turn_run RT FM FS w line rest Hin).
  split; [|split; [|split]].
  - intros Hkey H. choose H.
    unfold bind at 1, gets at 1. cli_simpl. rewrite Hkey.
    unfold bind. rewrite print_run. cli_simpl.
    rewrite <- !app_assoc. reflexivity.
  - intros Hkey H. choose H.
    unfold bind at 1, gets at 1. cli_simpl. rewrite Hkey.
    unfold bind. rewrite print_run. cli_simpl.
    rewrite <- !app_assoc. reflexivity.
  - intros Hnone. unfold Menu.menu_choice.
    repeat match goal with
           | |- context [str_strip line =? ?c] =>
               destruct (String.eqb_spec (str_strip line) c) as [Heq|_];
               [exfalso; apply Hnone; rewrite Heq; simpl; tauto|]
           end.
    unfold bind. rewrite print_run. cli_simpl.
    rewrite <- !app_assoc. reflexivity.
  - intros H. choose H.
    unfold bind. rewrite print_run. cli_simpl.
    rewrite <- !app_assoc. reflexivity.
Qed.

End MenuChoices.

Lemma menu_guards_witness :
  Menu.menu_turn (RT := Sample.runtime) (FM := Menu.sample_formats) (FS := Disk.files)
    Typed.nothing_to_solve
  = (Ok true,
     Cli empty_problem ["3"; "seven"; "6"]
       (menu_lines ++ ["No problem defined. Please input a problem first."])
       [] []).
Proof.
  apply (proj1 (menu_guards Sample.runtime Menu.sample_formats
              Disk.files
                  Typed.nothing_to_solve "2" ["3"; "seven"; "6"] eq_refl)).
  - reflexivity.
  - reflexivity.
Defined.

Section MenuSession.
Context (RT : Runtime) (FM : Menu.Formats) (FS : Files).

Lemma has_key_entered mx objective cs n :
  Menu.has_key (entered_problem mx objective cs n) = true.
Proof. reflexivity. Qed.

(** X17. A whole session of [main].  The user chooses 1 and types a
    problem, chooses 2, chooses 6: the loop is left by its [break] after
    exactly one call of the solver, made with the problem as typed and one
    bound per variable; the dict holds that problem, the files are as they
    were, the lines typed after the 6 are not read, and the last line
    printed is the farewell. *)
Theorem session_input_solve_exit (w : cli) l1 l2 l3 nv nc ty objs cons rest
  n m objective cs (fuel : nat) :
  stdin w = l1 :: script nv nc ty objs cons ++ l2 :: l3 :: rest ->
  str_strip l1 = "1" -> str_strip l2 = "2" -> str_strip l3 = "6" ->
  py_int nv = Ok n ->
  py_int nc = Ok m ->
  List.length objs = Z.to_nat n ->
  map_result py_float objs = Ok objective ->
  List.length cons = Z.to_nat m ->
  Forall (fun k => List.length (typed_coefficients k) = Z.to_nat n) cons ->
  map_result parse_typed_constraint cons = Ok cs ->
  (3 <= fuel)%nat ->
  let mx := startswith "max" (str_lower ty) in
  exists out,
    Menu.main_loop fuel w =
    (Ok true,
     Cli (entered_problem mx objective cs n) rest
       (stdout w ++ out ++ ["Thank you for using LP Solver!"])
       (directory w)
       (solver_calls w
        ++ [stored_arguments (if mx then map neg objective else objective)
              (present (A_ub (normalize cs))) (present (b_ub (normalize cs)))
              (present (A_eq (normalize cs))) (present (b_eq (normalize cs)))
              n])).
Proof.
  intros Hin H1 H2 H3 Hnv Hnc Hobjs Hobj Hcons Hw Hcs Hfuel mx.
  destruct fuel as [|[|[|fuel]]]; try lia.
  (* the first turn *)
  cbn [Menu.main_loop]. unfold bind at 1.
  rewrite (menu_turn_run RT FM FS w l1 _ Hin).
  unfold Menu.menu_choice at 1. rewrite H1. cbn [String.eqb Ascii.eqb Bool.eqb].
  unfold bind at 1.
  match goal with
  | |- context [input_problem ?s] =>
      destruct (input_problem_run s nv nc ty objs cons (l2 :: l3 :: rest)
                  n m objective cs eq_refl Hnv Hnc Hobjs Hobj Hcons Hw Hcs)
        as (out1 & Hrun)
  end.
  rewrite Hrun. clear Hrun. cli_simpl. unfold ret at 1.
  (* the second turn *)
  unfold bind at 1.
  erewrite (menu_turn_run RT FM FS _ l2 (l3 :: rest)) by reflexivity. cli_simpl.
  unfold Menu.menu_choice at 1. rewrite H2. cbn [String.eqb Ascii.eqb Bool.eqb].
  unfold bind at 1, gets at 1. cli_simpl. rewrite has_key_entered.
  unfold bind at 1.
  match goal with
  | |- context [solve ?s] =>
      destruct (solve_run RT s
                  (if mx then map neg objective else objective)
                  (present (A_ub (normalize cs)))
                  (present (b_ub (normalize cs)))
                  (present (A_eq (normalize cs)))
                  (present (b_eq (normalize cs))) n
                  eq_refl eq_refl eq_refl eq_refl eq_refl eq_refl)
        as (out2 & Hsolve)
  end.
  rewrite Hsolve. clear Hsolve. cli_simpl. unfold ret at 1.
  (* the third turn *)
  unfold bind at 1.
  erewrite (menu_turn_run RT FM FS _ l3 rest) by reflexivity. cli_simpl.
  unfold Menu.menu_choice at 1. rewrite H3. cbn [String.eqb Ascii.eqb Bool.eqb].
  unfold bind at 1. rewrite print_run. cli_simpl. unfold ret.
  exists (menu_lines ++ out1 ++ menu_lines ++ out2 ++ menu_lines).
  rewrite <- !app_assoc. reflexivity.
Qed.

End MenuSession.

Lemma session_input_solve_exit_witness :
  exists out,
    Menu.main (RT := Sample.runtime) (FM := Menu.sample_formats) (FS := Disk.files) 3
      Typed.input_solve_exit []
    = (Ok true,
       Cli (entered_problem true [Examples.f 3; Examples.f 2]
              Examples.production_constraints 2)
         ["never read"] (out ++ ["Thank you for using LP Solver!"]) []
         [stored_arguments Sample.production_c (Some Sample.production_A)
            (Some Sample.production_b) None None 2]).
Proof.
  apply (session_input_solve_exit Sample.runtime Menu.sample_formats
              Disk.files
           (Menu.fresh Typed.input_solve_exit []) " 1 " "2" "6"
           "2" "3" "max" ["3"; "2"] Examples.production_typed ["never read"]
           2 3 [Examples.f 3; Examples.f 2] Examples.production_constraints 3).
  - reflexivity.
  - reflexivity.
  - reflexivity.
  - reflexivity.
  - reflexivity.
  - reflexivity.
  - reflexivity.
  - vm_compute. reflexivity.
  - reflexivity.
  - repeat constructor.
  - vm_compute. reflexivity.
  - lia.
Defined.

(** ** The command line: [quick_example] *)

Section QuickExample.
Context (RT : Runtime) (FM : Menu.Formats) (FS : Files).

Lemma quick_example_call (w : cli) :
  Menu.quick_example w =
  match linprog Menu.quick_example_args with
  | Raise e =>
      (Raise e,
       Cli (problem w) (stdin w) (stdout w ++ quick_example_lines)
         (directory w) (solver_calls w ++ [Menu.quick_example_args]))
  | Ok res =>
      let said lines :=
        Cli (problem w) (stdin w)
          (stdout w ++ quick_example_lines
           ++ [nl +++ "Solution:"; "Status: " +++ res_message res] ++ lines)
          (directory w) (solver_calls w ++ [Menu.quick_example_args]) in
      match res_fun res with
      | None => (Raise none_negated, said [])
      | Some v =>
          let profit := "Maximum profit: " +++ Menu.format_2f (neg v) in
          match Menu.result_x res 0 with
          | Raise e => (Raise e, said [profit])
          | Ok x1 =>
              let first := "x1 (product 1): " +++ Menu.format_2f x1 in
              match Menu.result_x res 1 with
              | Raise e => (Raise e, said [profit; first])
              | Ok x2 =>
                  (Ok tt,
                   said [profit; first;
                         "x2 (product 2): " +++ Menu.format_2f x2])
              end
          end
      end
  end.
Proof.
  unfold Menu.quick_example. do 7 cli_print.
  unfold bind at 1, call_linprog at 1, set_solver_calls. cli_simpl.
  destruct (linprog Menu.quick_example_args) as [res|e];
    [|rewrite <- !app_assoc; reflexivity].
  do 2 cli_print. unfold bind at 1, lift at 1.
  destruct (res_fun res) as [v|]; [|rewrite <- !app_assoc; reflexivity].
  cli_print. unfold bind at 1, lift at 1.
  destruct (Menu.result_x res 0) as [x1|e];
    [|rewrite <- !app_assoc; reflexivity].
  cli_print. unfold bind at 1, lift at 1.
  destruct (Menu.result_x res 1) as [x2|e];
    [|rewrite <- !app_assoc; reflexivity].
  rewrite print_run. cli_simpl. rewrite <- !app_assoc. reflexivity.
Qed.

(** X18. [quick_example] does not look at the stored problem and does not
    change it: whatever the dict holds, it calls the solver once, with the
    production-planning problem written in its body, and leaves the dict,
    the input and the files alone.  Nothing is caught and the success flag
    is not read: an exception of the solver and the [TypeError] of negating
    an absent optimal value leave the function, while a result that has a
    value and two coordinates is printed as a maximum profit, successful or
    not. *)
Theorem quick_example_stands_alone (w : cli) :
  (solver_calls (snd (Menu.quick_example w))
   = solver_calls w ++ [Menu.quick_example_args] /\
   problem (snd (Menu.quick_example w)) = problem w /\
   stdin (snd (Menu.quick_example w)) = stdin w /\
   directory (snd (Menu.quick_example w)) = directory w) /\
  (forall e,
      linprog Menu.quick_example_args = Raise e ->
      fst (Menu.quick_example w) = Raise e) /\
  (forall res,
      linprog Menu.quick_example_args = Ok res ->
      res_fun res = None ->
      fst (Menu.quick_example w) = Raise none_negated) /\
  (forall res v x1 x2 more,
      linprog Menu.quick_example_args = Ok res ->
      res_fun res = Some v ->
      res_x res = Some (x1 :: x2 :: more) ->
      fst (Menu.quick_example w) = Ok tt /\
      stdout (snd (Menu.quick_example w))
      = stdout w ++ quick_example_lines
        ++ [nl +++ "Solution:"; "Status: " +++ res_message res;
            "Maximum profit: " +++ Menu.format_2f (neg v);
            "x1 (product 1): " +++ Menu.format_2f x1;
            "x2 (product 2): " +++ Menu.format_2f x2]).
Proof.
  rewrite quick_example_call.
  split; [|split; [|split]].
  - destruct (linprog Menu.quick_example_args) as [res|e];
      [|repeat split].
    cbv zeta. destruct (res_fun res); [|repeat split].
    destruct (Menu.result_x res 0); [|repeat split].
    destruct (Menu.result_x res 1); repeat split.
  - intros e ->. reflexivity.
  - intros res -> ->. reflexivity.
  - intros res v x1 x2 more -> Hv Hx. cbv zeta. rewrite Hv.
    unfold Menu.result_x. rewrite Hx. cbn [nth_error]. split; reflexivity.
Qed.

Lemma solve_returns (w : cli) : fst (solve w) = Ok tt.
Proof.
  unfold solve. do 3 cli_print. apply try_except_returns. reflexivity.
Qed.

(** X19. What ends [main] other than choice 6.  The menu itself catches
    nothing: the end of the input at the prompt, a word typed for the number
    of variables and an exception of the solver inside [quick_example] each
    leave [main] as an exception, the dict being as it was.  An error inside
    [solve] does not: after choice 2 the loop always goes on. *)
Theorem main_stops_on_uncaught (w : cli) (fuel : nat) :
  (stdin w = [] ->
   Menu.main_loop (S fuel) w =
   (Raise (Exn EOFError "EOF when reading a line"),
    Cli (problem w) [] (stdout w ++ menu_lines) (directory w)
      (solver_calls w))) /\
  (forall l1 l2 rest e,
      stdin w = l1 :: l2 :: rest ->
      str_strip l1 = "1" ->
      py_int l2 = Raise e ->
      Menu.main_loop (S fuel) w =
      (Raise e,
       Cli (problem w) rest (stdout w ++ menu_lines ++ input_problem_lines)
         (directory w) (solver_calls w))) /\
  (forall l1 rest e,
      stdin w = l1 :: rest ->
      str_strip l1 = "5" ->
      linprog Menu.quick_example_args = Raise e ->
      Menu.main_loop (S fuel) w =
      (Raise e,
       Cli (problem w) rest (stdout w ++ menu_lines ++ quick_example_lines)
         (directory w) (solver_calls w ++ [Menu.quick_example_args]))) /\
  (forall l1 rest,
      stdin w = l1 :: rest ->
      str_strip l1 = "2" ->
      fst (Menu.menu_turn w) = Ok true).
Proof.
  split; [|split; [|split]].
  - intros H. cbn [Menu.main_loop]. unfold bind.
    rewrite (menu_turn_eof RT FM FS w H). reflexivity.
  - intros l1 l2 rest e Hin H1 He. cbn [Menu.main_loop]. unfold bind at 1.
    rewrite (menu_turn_run RT FM FS w l1 _ Hin).
    unfold Menu.menu_choice. rewrite H1. cbn [String.eqb Ascii.eqb Bool.eqb].
    unfold bind at 1. unfold input_problem. do 3 cli_print. cli_input.
    unfold bind at 1, lift at 1. rewrite He.
    rewrite <- !app_assoc. reflexivity.
  - intros l1 rest e Hin H1 He. cbn [Menu.main_loop]. unfold bind at 1.
    rewrite (menu_turn_run RT FM FS w l1 _ Hin).
    unfold Menu.menu_choice. rewrite H1. cbn [String.eqb Ascii.eqb Bool.eqb].
    unfold bind at 1. rewrite quick_example_call, He. cli_simpl.
    rewrite <- !app_assoc. reflexivity.
  - intros l1 rest Hin H1.
    rewrite (menu_turn_run RT FM FS w l1 _ Hin).
    unfold Menu.menu_choice. rewrite H1. cbn [String.eqb Ascii.eqb Bool.eqb].
    unfold bind at 1, gets at 1. cli_simpl.
    unfold bind.
    destruct (Menu.has_key (problem w)).
    + match goal with
      | |- context [solve ?s] =>
          pose proof (solve_returns s) as Hs; destruct (solve s) as [r s']
      end.
      cbn [fst] in Hs. rewrite Hs. reflexivity.
    + rewrite print_run. reflexivity.
Qed.

End QuickExample.

Lemma quick_example_stands_alone_witness :
  fst (Menu.quick_example (RT := Sample.runtime) (FM := Menu.sample_formats)
         Sessions.sense_only) = Ok tt /\
  stdout (snd (Menu.quick_example (RT := Sample.runtime)
                 (FM := Menu.sample_formats) Sessions.sense_only))
  = quick_example_lines
    ++ [nl +++ "Solution:"; "Status: " +++ Sample.optimal;
        "Maximum profit: 180.00"; "x1 (product 1): 20.00";
        "x2 (product 2): 60.00"].
Proof.
  apply (proj2 (proj2 (proj2
           (quick_example_stands_alone Sample.runtime Menu.sample_formats
              Sessions.sense_only)))
           (MkResult true Sample.optimal (Some (Sample.float_of_Z (-180)))
              (Some [Sample.float_of_Z 20; Sample.float_of_Z 60]) 2)
           (Sample.float_of_Z (-180)) (Sample.float_of_Z 20)
           (Sample.float_of_Z 60) []).
  - vm_compute. reflexivity.
  - reflexivity.
  - reflexivity.
Defined.

Lemma main_stops_on_uncaught_witness :
  Menu.main_loop (RT := Sample.runtime) (FM := Menu.sample_formats) (FS := Disk.files) 4
    Typed.word_for_a_count
  = (Raise (Exn ValueError "invalid literal for int() with base 10: 'two'"),
     Cli empty_problem ["2"] (menu_lines ++ input_problem_lines) [] []).
Proof.
  apply (proj1 (proj2
           (main_stops_on_uncaught Sample.runtime Menu.sample_formats
              Disk.files
              Typed.word_for_a_count 3)) "1" "two" ["2"]).
  - reflexivity.
  - reflexivity.
  - vm_compute. reflexivity.
Defined.

(** ** The form: documents whose lists do not fit their dimensions *)

Section FormUnvalidated.
Import LinearProgrammingInterface.

Lemma for_each_app {S X} (xs ys : list X) (g : X -> M S unit) (s : S) :
  for_each (xs ++ ys) g s = bind (for_each xs g) (fun _ => for_each ys g) s.
Proof.
  revert s. induction xs as [|x xs IH]; intros s; cbn [List.app for_each].
  - reflexivity.
  - unfold bind. destruct (g x s) as [[[]|e] s1]; [|reflexivity].
    rewrite IH. reflexivity.
Qed.

Lemma combine_parts {A B} (l1 l1' : list A) (l2 l2' : list B) :
  List.length l1 = List.length l2 ->
  combine (l1 ++ l1') (l2 ++ l2') = combine l1 l2 ++ combine l1' l2'.
Proof.
  revert l2. induction l1 as [|a l1 IH]; intros [|b l2] H; try discriminate.
  - reflexivity.
  - simpl. rewrite IH by (injection H as H; exact H). reflexivity.
Qed.

Lemma enumerate_app {A} (xs ys : list A) :
  enumerate (xs ++ ys) =
  enumerate xs ++ combine (seq (List.length xs) (List.length ys)) ys.
Proof.
  unfold enumerate. rewrite length_app, seq_app.
  rewrite combine_parts by (rewrite length_seq; reflexivity). reflexivity.
Qed.

(** The loop over the saved objective coefficients when more entries
    follow those it fills. *)
Lemma load_objective_prefix es : forall pre l tail st,
  obj_entries st = pre ++ l ++ tail ->
  List.length l = List.length es ->
  for_each (combine (seq (List.length pre) (List.length es)) es)
    (fun ic => set_obj_entry (fst ic) (snd ic)) st =
  (Ok tt, set_obj_entries (pre ++ es ++ tail) st).
Proof.
  induction es as [|e es IH]; intros pre l tail st Hst Hlen.
  - destruct l; [|discriminate]. simpl. unfold ret.
    simpl in Hst. rewrite <- Hst. destruct st; reflexivity.
  - destruct l as [|v l]; [discriminate|]. injection Hlen as Hlen.
    cbn [List.length seq combine for_each fst snd]. unfold bind.
    rewrite (set_obj_entry_at st pre (l ++ tail) v e Hst).
    replace (S (List.length pre)) with (List.length (pre ++ [e]))
      by (rewrite length_app; simpl; lia).
    rewrite (IH (pre ++ [e]) l tail); gui_simpl.
    + rewrite <- app_assoc. reflexivity.
    + rewrite <- app_assoc. reflexivity.
    + assumption.
Qed.

(** The form once the dimensions and the sense of a document are set and
    the widgets rebuilt. *)
Lemma rebuilt_for_run (d : problem_data) (st : app) :
  update_problem_size
    (set_objective_type (pd_objective_type d)
       (set_num_constraints (pd_num_constraints d)
          (set_num_variables (pd_num_variables d) st)))
  = (Ok tt,
     App (pd_num_variables d) (pd_num_constraints d) (pd_objective_type d)
       (repeat "1" (Z.to_nat (pd_num_variables d)))
       (repeat (repeat "1" (Z.to_nat (pd_num_variables d)))
          (Z.to_nat (pd_num_constraints d)))
       (repeat "0" (Z.to_nat (pd_num_constraints d)))
       (repeat "<=" (Z.to_nat (pd_num_constraints d)))
       (results_text st) (optimal_value_label st) (status_label st)
       (dialogs st) (directory st) (solver_calls st)).
Proof. rewrite update_problem_size_run. reflexivity. Qed.

(** X9. [load_problem] does not compare the lists of a document with its
    dimensions.  A document with more objective coefficients than variables
    is refused half way: the error "list index out of range" is shown, and
    the form is left with the dimensions and the sense of the document, its
    first coefficients, and every constraint widget at its default.  A
    document with fewer objective coefficients than variables, and fitting
    constraints, is accepted: the entries it does not name keep the default
    "1". *)
Theorem load_problem_lists_not_checked (st : app) fn d :
  first_saved_problem st = Some fn ->
  read_file fn (directory st) = Some (Json d) ->
  let n := Z.to_nat (pd_num_variables d) in
  let m := Z.to_nat (pd_num_constraints d) in
  let half objective rows types bounds :=
    App (pd_num_variables d) (pd_num_constraints d) (pd_objective_type d)
      objective rows bounds types
      (results_text st) (optimal_value_label st) (status_label st) in
  (forall pre extra post,
      pd_objective_coeffs d = pre ++ extra :: post ->
      List.length pre = n ->
      load_problem st =
      (Ok tt,
       half pre (repeat (repeat "1" n) m) (repeat "<=" m) (repeat "0" m)
         (dialogs st
          ++ [Dialog showerror "Error"
                "Error loading problem: list index out of range"])
         (directory st) (solver_calls st))) /\
  ((List.length (pd_objective_coeffs d) <= n)%nat ->
   List.length (pd_constraints d) = m ->
   Forall (fun k => List.length (coeffs k) = n) (pd_constraints d) ->
   load_problem st =
   (Ok tt,
    half
      (pd_objective_coeffs d
       ++ repeat "1" (n - List.length (pd_objective_coeffs d)))
      (map coeffs (pd_constraints d)) (map type_ (pd_constraints d))
      (map bound (pd_constraints d))
      (dialogs st
       ++ [Dialog showinfo "Success" ("Problem loaded from " +++ fn)])
      (directory st) (solver_calls st))).
Proof.
  intros Hfirst Hread n m half. unfold first_saved_problem in Hfirst.
  destruct (filter is_saved_problem (map fst (directory st)))
    as [|fn' others] eqn:Hfilter; [discriminate|].
  injection Hfirst as ->.
  split.
  - intros pre extra post Hobj Hpre.
    unfold load_problem, try_except.
    unfold bind at 1, gets at 1. rewrite Hfilter.
    unfold bind at 1, lift at 1, json_load. rewrite Hread.
    do 3 (unfold bind at 1, modify at 1).
    unfold bind at 1. rewrite rebuilt_for_run.
    unfold bind at 1. rewrite Hobj, enumerate_app, for_each_app.
    unfold bind at 1.
    match goal with
    | |- context [for_each (enumerate pre) ?f ?s] =>
        pose proof (load_objective pre [] (obj_entries s) s eq_refl) as Ho
    end.
    gui_simpl_in Ho. cbn [List.length List.app] in Ho.
    unfold enumerate at 1. rewrite Ho by (rewrite repeat_length; symmetry; exact Hpre).
    clear Ho. cbn [List.length seq combine for_each fst snd].
    unfold bind at 1. unfold set_obj_entry at 1. gui_simpl.
    replace (nth_error pre (List.length pre)) with (@None string)
      by (symmetry; apply nth_error_None; lia).
    unfold messagebox, modify. gui_simpl. reflexivity.
  - intros Hobj Hcons Hrows.
    unfold load_problem, try_except.
    unfold bind at 1, gets at 1. rewrite Hfilter.
    unfold bind at 1, lift at 1, json_load. rewrite Hread.
    do 3 (unfold bind at 1, modify at 1).
    unfold bind at 1. rewrite rebuilt_for_run.
    unfold bind at 1.
    match goal with
    | |- context [for_each (enumerate ?es) ?f ?s] =>
        pose proof (load_objective_prefix es []
                      (repeat "1" (List.length es))
                      (repeat "1" (n - List.length es)) s) as Ho
    end.
    gui_simpl_in Ho. cbn [List.length List.app] in Ho.
    unfold enumerate at 1.
    rewrite Ho;
      [ | rewrite <- repeat_app; f_equal; subst n; lia
        | apply repeat_length ].
    clear Ho. gui_simpl.
    unfold bind at 1.
    match goal with
    | |- context [for_each (enumerate ?ks) load_constraint ?s] =>
        pose proof (load_constraints n ks []
                      (constraint_entries s) (type_combos s) (bound_entries s)
                      s eq_refl eq_refl eq_refl) as Hk
    end.
    gui_simpl_in Hk. cbn [List.length List.app] in Hk.
    unfold enumerate at 1.
    rewrite Hk;
      [ | rewrite repeat_length; symmetry; exact Hcons
        | rewrite repeat_length; symmetry; exact Hcons
        | rewrite repeat_length; symmetry; exact Hcons
        | apply Forall_repeat; apply repeat_length
        | exact Hrows ].
    clear Hk. gui_simpl.
    unfold messagebox, modify. gui_simpl. reflexivity.
Qed.

End FormUnvalidated.

Lemma load_problem_lists_not_checked_witness :
  LinearProgrammingInterface.form
    (snd (LinearProgrammingInterface.load_problem
            Unvalidated.form_with_short_document))
  = (3%Z, 1%Z, "minimize", ["5"; "6"; "1"], [["1"; "2"; "3"]], [">="], ["4"]) /\
  LinearProgrammingInterface.dialogs
    (snd (LinearProgrammingInterface.load_problem
            Unvalidated.form_with_short_document))
  = [LinearProgrammingInterface.Dialog LinearProgrammingInterface.showinfo
       "Success" "Problem loaded from lp_problem_3vars_1cons.json"].
Proof.
  rewrite (proj2 (load_problem_lists_not_checked
                    Unvalidated.form_with_short_document
                    "lp_problem_3vars_1cons.json" Unvalidated.short_document
                    eq_refl eq_refl)).
  - split; reflexivity.
  - simpl. lia.
  - reflexivity.
  - repeat constructor.
Defined.

(** ** The examples of the form and the problems written by hand *)

Section ExamplesAgree.
Import LinearProgrammingInterface.
Context (RT : Runtime).
Hypothesis readings :
  Forall (fun sv => py_float (fst sv) = Ok (snd sv)) example_readings.

Lemma reads_example (s : string) (v : float) :
  In (s, v) example_readings -> py_float s = Ok v.
Proof.
  intros Hin. rewrite Forall_forall in readings. exact (readings (s, v) Hin).
Qed.

Ltac read_entries :=
  repeat match goal with
         | |- context [py_float ?s] =>
             erewrite (reads_example s)
               by (simpl; repeat (first [left; reflexivity | right]))
         end.

Lemma solved_example n m sense objective rows desc (wd : Window.window)
  (args : linprog_args) :
  List.length objective = Z.to_nat n ->
  List.length rows = Z.to_nat m ->
  Forall (fun r : Window.example_row =>
            List.length (fst (fst r)) = Z.to_nat n) rows ->
  solver_input
    (loaded (Window.example_document n m sense objective rows)
       (Window.form_of wd)) = Ok args ->
  solver_calls
    (snd (solve_problem
            (Window.form_of
               (snd (Window.fill_example n m sense objective rows desc wd)))))
  = solver_calls (Window.form_of wd) ++ [args].
Proof.
  intros Hobj Hrows Hw Hin.
  rewrite (fill_example_run n m sense objective rows desc wd Hobj Hrows Hw).
  cbn [snd Window.form_of].
  rewrite (solve_problem_calls _ args Hin). reflexivity.
Qed.

Lemma production_input (st : app) :
  solver_input
    (loaded (Window.example_document 2 3 "maximize" ["3"; "2"]
               [([2; 1], "<=", 100); ([1; 1], "<=", 80); ([1; 0], "<=", 40)]%Z)
       st) = Ok Demo.production_args.
Proof.
  cbv -[py_float]. repeat (progress read_entries; cbv -[py_float]).
  reflexivity.
Qed.

End ExamplesAgree.

Section ExamplesAgreeAll.
Import LinearProgrammingInterface.
Context (RT : Runtime).
Hypothesis readings :
  Forall (fun sv => py_float (fst sv) = Ok (snd sv)) example_readings.

Ltac read_the_entries :=
  repeat match goal with
         | |- context [py_float ?s] =>
             erewrite (reads_example RT readings s)
               by (simpl; repeat (first [left; reflexivity | right]))
         end.

Ltac run_the_reading :=
  cbv -[py_float]; repeat (progress read_the_entries; cbv -[py_float]);
  reflexivity.

Lemma diet_input (st : app) :
  solver_input
    (loaded (Window.example_document 2 2 "minimize" ["0.5"; "0.3"]
               [([2; 1], ">=", 10); ([1; 3], ">=", 12)]%Z)
       st) = Ok Demo.diet_args.
Proof. run_the_reading. Qed.

Lemma transportation_input (st : app) :
  solver_input
    (loaded (Window.example_document 3 2 "minimize" ["2"; "3"; "1"]
               [([1; 1; 1], ">=", 100); ([2; 1; 3], "<=", 200)]%Z)
       st) = Ok Tests.transportation_args.
Proof. run_the_reading. Qed.

Lemma investment_input (st : app) :
  solver_input
    (loaded (Window.example_document 2 3 "maximize" ["0.08"; "0.12"]
               [([1; 1], "<=", 10000); ([1; 0], ">=", 3000);
                ([0; 1], "<=", 5000)]%Z)
       st)
  = Ok (LinprogArgs (arg_c Demo.investment_args)
          (Some [[Demo.fi 1; Demo.fi 1]; [Demo.fi (-1); neg (Demo.fi 0)];
                 [Demo.fi 0; Demo.fi 1]])
          (arg_b_ub Demo.investment_args) None None
          (arg_bounds Demo.investment_args)).
Proof. run_the_reading. Qed.

(** X20. The four examples of the form are the problems that [demo.py],
    [test_solver.py] and [quick_example] write by hand in the solver's
    form.  Where [float] reads the texts of the examples as Python reads
    them, pressing an example button and then "Solve Problem" calls the
    solver with exactly the arrays written there: the objective negated for
    a maximization, the rows and bounds of every [>=] constraint negated.
    The one difference is a sign of zero: negating the investment row
    [[1, 0]] gives [-0.0] where [demo.py] writes [0], two floats that
    compare equal. *)
Theorem examples_agree_with_the_demos (wd : Window.window) :
  let solved load :=
    solver_calls (snd (solve_problem (Window.form_of (snd (load wd))))) in
  let called args := solver_calls (Window.form_of wd) ++ [args] in
  (solved Window.load_production_example = called Demo.production_args /\
   Demo.production_args = Menu.quick_example_args /\
   Tests.basic_args = Menu.quick_example_args) /\
  (solved Window.load_diet_example = called Demo.diet_args /\
   Tests.diet_args = Demo.diet_args) /\
  solved Window.load_transportation_example
  = called Tests.transportation_args /\
  (solved Window.load_investment_example
   = called
       (LinprogArgs (arg_c Demo.investment_args)
          (Some [[Demo.fi 1; Demo.fi 1]; [Demo.fi (-1); neg (Demo.fi 0)];
                 [Demo.fi 0; Demo.fi 1]])
          (arg_b_ub Demo.investment_args) None None
          (arg_bounds Demo.investment_args)) /\
   neg (Demo.fi 0) <> Demo.fi 0 /\
   SFeqb (neg (Demo.fi 0)) (Demo.fi 0) = true).
Proof.
  intros solved called. subst solved called. cbv beta.
  split; [split; [|split; reflexivity]|split; [split; [|reflexivity]|split]].
  - apply solved_example; try reflexivity; [repeat constructor|].
    apply (production_input RT readings).
  - apply solved_example; try reflexivity; [repeat constructor|].
    apply diet_input.
  - apply solved_example; try reflexivity; [repeat constructor|].
    apply transportation_input.
  - split; [|split; [discriminate | reflexivity]].
    apply solved_example; try reflexivity; [repeat constructor|].
    apply investment_input.
Qed.

End ExamplesAgreeAll.

Lemma examples_agree_with_the_demos_witness :
  LinearProgrammingInterface.solver_calls
    (snd (LinearProgrammingInterface.solve_problem (RT := Decimal.runtime)
            (Window.form_of
               (snd (Window.load_diet_example
                       (Window.MkWindow Examples.mixed_form ""))))))
  = [Demo.diet_args].
Proof.
  apply (proj1 (proj1 (proj2
           (examples_agree_with_the_demos Decimal.runtime
              ltac:(repeat constructor)
              (Window.MkWindow Examples.mixed_form ""))))).
Defined.

(** ** The visualization tab *)

Section PlotLines.
Import LinearProgrammingInterface.
Context (RT : Runtime) (MP : Plot.Matplotlib).

Ltac tab_simpl :=
  cbn [Plot.form_of Plot.ax Plot.draws Plot.contours Plot.xlim Plot.ylim
       Plot.xlabel Plot.ylabel Plot.title Plot.grid].

Lemma plot_constraint_run (t : Plot.tab) (i : nat) line :
  Plot.read_line (Plot.form_of t) i = Ok line ->
  Plot.drawn line ->
  Plot.plot_constraint i t =
  (Ok tt, Plot.Tab (Plot.form_of t) (Plot.add_contour line (Plot.ax t))
            (Plot.draws t)).
Proof.
  intros Hread Hdrawn. unfold Plot.plot_constraint.
  unfold bind at 1, Plot.on_form at 1, gets at 1. tab_simpl.
  unfold bind at 1, lift at 1. rewrite Hread.
  unfold bind at 1, lift at 1. destruct line as [[a1 a2] b].
  unfold Plot.drawn in Hdrawn. cbn [fst snd] in Hdrawn. rewrite Hdrawn.
  reflexivity.
Qed.

Lemma plot_constraints_run (rows : list nat) : forall lines (t : Plot.tab),
  map_result (Plot.read_line (Plot.form_of t)) rows = Ok lines ->
  Forall Plot.drawn lines ->
  for_each rows Plot.plot_constraint t =
  (Ok tt,
   Plot.Tab (Plot.form_of t)
     (Plot.Axes (Plot.contours (Plot.ax t) ++ lines) (Plot.xlim (Plot.ax t))
        (Plot.ylim (Plot.ax t)) (Plot.xlabel (Plot.ax t))
        (Plot.ylabel (Plot.ax t)) (Plot.title (Plot.ax t))
        (Plot.grid (Plot.ax t)))
     (Plot.draws t)).
Proof.
  induction rows as [|i rows IH]; intros lines t Hmap Hdrawn.
  - injection Hmap as <-. cbn [for_each]. unfold ret. rewrite app_nil_r.
    destruct t as [st [] d]. reflexivity.
  - cbn [map_result] in Hmap.
    apply rbind_ok in Hmap as (line & Hline & Hmap).
    apply rbind_ok in Hmap as (rest & Hrest & Hmap).
    injection Hmap as <-. inversion Hdrawn as [|? ? Hd Hds]; subst.
    cbn [for_each]. unfold bind.
    rewrite (plot_constraint_run t i line Hline Hd).
    rewrite (IH rest) by (tab_simpl; assumption).
    tab_simpl. unfold Plot.add_contour. tab_simpl.
    rewrite <- app_assoc. reflexivity.
Qed.

Lemma read_line_reads (st : app) (i : nat) :
  consistent st ->
  num_variables st = 2%Z ->
  Forall (Forall reads_as_float) (constraint_entries st) ->
  Forall reads_as_float (bound_entries st) ->
  (i < Z.to_nat (num_constraints st))%nat ->
  exists line, Plot.read_line st i = Ok line.
Proof.
  intros (Hn & Hm & Ht & Hb & Hw) Hn2 Hrows Hbounds Hi.
  rewrite Hm, Nat2Z.id in Hi.
  destruct (index_in_range (constraint_entries st) i Hi) as (row & Erow & Irow).
  assert (Hi' := Hi). rewrite <- Hb in Hi'.
  destruct (index_in_range (bound_entries st) i Hi') as (b & Eb & Ib).
  assert (Hi'' := Hi). rewrite <- Ht in Hi''.
  destruct (index_in_range (type_combos st) i Hi'') as (t & Et & It).
  rewrite Forall_forall in Hw, Hrows, Hbounds.
  pose proof (Hw row (nth_error_In _ _ Erow)) as Hwidth.
  pose proof (Hrows row (nth_error_In _ _ Erow)) as Hrow.
  rewrite Forall_forall in Hrow.
  destruct (Hbounds b (nth_error_In _ _ Eb)) as (bv & Ebv).
  assert (Hlen : List.length row = 2%nat).
  { rewrite Hwidth. apply Nat2Z.inj. rewrite <- Hn, Hn2. reflexivity. }
  destruct (index_in_range row 0) as (e0 & Ee0 & Ie0); [lia|].
  destruct (index_in_range row 1) as (e1 & Ee1 & Ie1); [lia|].
  destruct (Hrow e0 (nth_error_In _ _ Ee0)) as (v0 & Ev0).
  destruct (Hrow e1 (nth_error_In _ _ Ee1)) as (v1 & Ev1).
  exists (v0, v1, bv). unfold Plot.read_line.
  rewrite Irow. cbn [rbind]. rewrite Ie0. cbn [rbind]. rewrite Ev0.
  cbn [rbind]. rewrite Ie1. cbn [rbind]. rewrite Ev1. cbn [rbind].
  rewrite Ib. cbn [rbind]. rewrite Ebv. cbn [rbind]. rewrite It.
  reflexivity.
Qed.

(** X21. [plot_feasible_region] draws for two variables only, and then one
    line per constraint.  With another number of variables it shows a
    warning and leaves the axes as they are.  On a consistent form with two
    variables whose entries read as floats, every constraint is read; when
    [contour] returns for each, the axes hold exactly these lines, in the
    order of the constraints, with the limits, labels, title and grid of
    lines 344-349, whatever was on the axes before; the canvas is drawn
    once and the form is not touched. *)
Theorem plot_draws_one_line_per_constraint (t : Plot.tab) :
  (num_variables (Plot.form_of t) <> 2%Z ->
   Plot.plot_feasible_region t =
   (Ok tt,
    Plot.Tab
      (set_dialogs
         (dialogs (Plot.form_of t)
          ++ [Dialog showwarning "Warning"
                "Visualization only available for 2-variable problems"])
         (Plot.form_of t))
      (Plot.ax t) (Plot.draws t))) /\
  (num_variables (Plot.form_of t) = 2%Z ->
   consistent (Plot.form_of t) ->
   Forall (Forall reads_as_float) (constraint_entries (Plot.form_of t)) ->
   Forall reads_as_float (bound_entries (Plot.form_of t)) ->
   exists lines,
     map_result (Plot.read_line (Plot.form_of t))
       (range (num_constraints (Plot.form_of t))) = Ok lines /\
     List.length lines = Z.to_nat (num_constraints (Plot.form_of t)) /\
     (Forall Plot.drawn lines ->
      Plot.plot_feasible_region t =
      (Ok tt,
       Plot.Tab (Plot.form_of t)
         (Plot.Axes lines (Some (0, 10)%Z) (Some (0, 10)%Z) "x1" "x2"
            "Constraint Visualization" true)
         (S (Plot.draws t))))).
Proof.
  split.
  - intros Hn. unfold Plot.plot_feasible_region.
    unfold bind at 1, Plot.on_form at 1, gets at 1. tab_simpl.
    destruct (Z.eqb_spec (num_variables (Plot.form_of t)) 2) as [E|_];
      [contradiction|].
    cbn [negb]. unfold Plot.on_form, messagebox, modify. reflexivity.
  - intros Hn Hc Hrows Hbounds.
    destruct (map_result_all (Plot.read_line (Plot.form_of t))
                (range (num_constraints (Plot.form_of t)))) as (lines & Hl).
    { intros i Hi. unfold range in Hi. apply in_seq in Hi.
      apply read_line_reads; try assumption. lia. }
    exists lines. split; [exact Hl|]. split.
    { rewrite (map_result_length _ _ _ Hl). unfold range.
      apply length_seq. }
    intros Hdrawn. unfold Plot.plot_feasible_region.
    unfold bind at 1, Plot.on_form at 1, gets at 1. tab_simpl.
    rewrite Hn. cbn [Z.eqb Pos.eqb negb].
    unfold try_except.
    unfold bind at 1, Plot.on_ax at 1, modify at 1. tab_simpl.
    unfold bind at 1, Plot.on_form at 1, gets at 1. tab_simpl.
    unfold bind at 1.
    rewrite (plot_constraints_run _ lines) by (tab_simpl; assumption).
    tab_simpl.
    unfold bind, Plot.on_ax, Plot.canvas_draw, modify. tab_simpl.
    reflexivity.
Qed.

End PlotLines.

Lemma plot_draws_one_line_per_constraint_witness :
  Plot.plot_feasible_region (RT := Sample.runtime)
    (MP := Plot.sample_matplotlib) Plotted.mixed_tab
  = (Ok tt,
     Plot.Tab
       (LinearProgrammingInterface.set_dialogs
          [LinearProgrammingInterface.Dialog
             LinearProgrammingInterface.showwarning "Warning"
             "Visualization only available for 2-variable problems"]
          Examples.mixed_form)
       (Plot.ax Plotted.mixed_tab) 4) /\
  exists lines,
    List.length lines = 3%nat /\
    (Forall (Plot.drawn (MP := Plot.sample_matplotlib)) lines ->
     Plot.plot_feasible_region (RT := Sample.runtime)
       (MP := Plot.sample_matplotlib) Plotted.production_tab
     = (Ok tt,
        Plot.Tab Examples.production_form
          (Plot.Axes lines (Some (0, 10)%Z) (Some (0, 10)%Z) "x1" "x2"
             "Constraint Visualization" true)
          5)).
Proof.
  split.
  - apply (proj1 (plot_draws_one_line_per_constraint Sample.runtime
                    Plot.sample_matplotlib Plotted.mixed_tab)).
    discriminate.
  - destruct (proj2 (plot_draws_one_line_per_constraint Sample.runtime
                       Plot.sample_matplotlib Plotted.production_tab))
      as (lines & _ & Hlen & Hplot).
    + reflexivity.
    + unfold consistent. simpl. repeat split; repeat constructor.
    + repeat constructor; eexists; vm_compute; reflexivity.
    + repeat constructor; eexists; vm_compute; reflexivity.
    + exists lines. split; [exact Hlen | exact Hplot].
Defined.

Section PlotOperators.
Import LinearProgrammingInterface.
Context (RT : Runtime) (MP : Plot.Matplotlib).

Lemma blind_bind {A B} (m : M Plot.tab A) (k : A -> M Plot.tab B) :
  Plot.blind_to_operators m ->
  (forall a, Plot.blind_to_operators (k a)) ->
  Plot.blind_to_operators (bind m k).
Proof.
  intros Hm Hk t t' Ht. unfold bind.
  destruct (Hm t t' Ht) as [Hr Hs].
  destruct (m t) as [[a|e] t1], (m t') as [[a'|e'] t1'];
    cbn [fst snd] in *; try discriminate.
  - injection Hr as ->. apply (Hk a t1 t1' Hs).
  - injection Hr as ->. split; [reflexivity | exact Hs].
Qed.

Lemma blind_try_except {A} (m : M Plot.tab A) (h : exn -> M Plot.tab A) :
  Plot.blind_to_operators m ->
  (forall e, Plot.blind_to_operators (h e)) ->
  Plot.blind_to_operators (try_except m h).
Proof.
  intros Hm Hh t t' Ht. unfold try_except.
  destruct (Hm t t' Ht) as [Hr Hs].
  destruct (m t) as [[a|e] t1], (m t') as [[a'|e'] t1'];
    cbn [fst snd] in *; try discriminate.
  - split; [exact Hr | exact Hs].
  - injection Hr as ->. apply (Hh e t1 t1' Hs).
Qed.

Lemma blind_for_each {X} (xs : list X) (body : X -> M Plot.tab unit) :
  (forall x, Plot.blind_to_operators (body x)) ->
  Plot.blind_to_operators (for_each xs body).
Proof.
  intros Hb. induction xs as [|x xs IH]; cbn [for_each].
  - intros t t' Ht. split; [reflexivity | exact Ht].
  - apply blind_bind; [apply Hb | intros _; exact IH].
Qed.

Lemma blind_on_ax (f : Plot.axes -> Plot.axes) :
  Plot.blind_to_operators (Plot.on_ax f).
Proof.
  intros t t' (tcs & Hlen & Hform & Hax & Hdraws).
  split; [reflexivity|]. exists tcs. cbn. rewrite Hax. auto.
Qed.

Lemma blind_canvas_draw : Plot.blind_to_operators Plot.canvas_draw.
Proof.
  intros t t' (tcs & Hlen & Hform & Hax & Hdraws).
  split; [reflexivity|]. exists tcs. cbn. rewrite Hdraws. auto.
Qed.

Lemma blind_messagebox k title text :
  Plot.blind_to_operators (Plot.on_form (messagebox k title text)).
Proof.
  intros t t' (tcs & Hlen & Hform & Hax & Hdraws).
  split; [reflexivity|]. exists tcs. cbn. rewrite Hform. cbn. auto.
Qed.

Lemma index_same_length {A B} (l : list A) (l' : list B) (i : nat) :
  List.length l = List.length l' ->
  (exists v v', index l i = Ok v /\ index l' i = Ok v') \/
  (index l i = Raise index_error /\ index l' i = Raise index_error).
Proof.
  intros Hlen. unfold index.
  destruct (nth_error l i) as [v|] eqn:E, (nth_error l' i) as [v'|] eqn:E'.
  - left. eauto.
  - apply nth_error_None in E'.
    assert (i < List.length l)%nat by (apply nth_error_Some; congruence). lia.
  - apply nth_error_None in E.
    assert (i < List.length l')%nat by (apply nth_error_Some; congruence). lia.
  - right. split; reflexivity.
Qed.

Lemma read_line_other_operators (st : app) (tcs : list string) (i : nat) :
  List.length tcs = List.length (type_combos st) ->
  Plot.read_line (set_type_combos tcs st) i = Plot.read_line st i.
Proof.
  intros Hlen. unfold Plot.read_line. gui_simpl.
  destruct (index (constraint_entries st) i) as [r|e]; [|reflexivity].
  cbn [rbind].
  destruct (index r 0) as [e0|e]; [|reflexivity]. cbn [rbind].
  destruct (py_float e0) as [v0|e]; [|reflexivity]. cbn [rbind].
  destruct (index r 1) as [e1|e]; [|reflexivity]. cbn [rbind].
  destruct (py_float e1) as [v1|e]; [|reflexivity]. cbn [rbind].
  destruct (index (bound_entries st) i) as [be|e]; [|reflexivity].
  cbn [rbind].
  destruct (py_float be) as [bv|e]; [|reflexivity]. cbn [rbind].
  destruct (index_same_length tcs (type_combos st) i Hlen)
    as [(v & v' & -> & ->)|[-> ->]]; reflexivity.
Qed.

Lemma plot_constraint_cases (i : nat) (t : Plot.tab) :
  Plot.plot_constraint i t =
  match Plot.read_line (Plot.form_of t) i with
  | Raise e => (Raise e, Plot.Tab (Plot.form_of t) (Plot.ax t) (Plot.draws t))
  | Ok line =>
      match Plot.contour_call (fst (fst line)) (snd (fst line)) (snd line) with
      | Raise e =>
          (Raise e, Plot.Tab (Plot.form_of t) (Plot.ax t) (Plot.draws t))
      | Ok _ =>
          (Ok tt,
           Plot.Tab (Plot.form_of t) (Plot.add_contour line (Plot.ax t))
             (Plot.draws t))
      end
  end.
Proof.
  unfold Plot.plot_constraint, bind, Plot.on_form, gets, lift, Plot.on_ax,
    modify.
  cbn [Plot.form_of Plot.ax Plot.draws].
  destruct (Plot.read_line (Plot.form_of t) i) as [[[a1 a2] b]|e];
    [|reflexivity].
  cbn [fst snd]. destruct (Plot.contour_call a1 a2 b) as [[]|e]; reflexivity.
Qed.

Lemma blind_plot_constraint (i : nat) :
  Plot.blind_to_operators (Plot.plot_constraint i).
Proof.
  intros t t' (tcs & Hlen & Hform & Hax & Hdraws).
  rewrite !plot_constraint_cases.
  rewrite Hform, (read_line_other_operators _ tcs i Hlen), Hax, Hdraws.
  destruct (Plot.read_line (Plot.form_of t) i) as [line|e].
  - destruct (Plot.contour_call _ _ _) as [[]|e];
      (split; [reflexivity|]; exists tcs; cbn; auto).
  - split; [reflexivity|]. exists tcs. cbn. auto.
Qed.

Lemma on_form_gets {A B} (f : app -> A) (k : A -> M Plot.tab B)
  (t : Plot.tab) :
  bind (Plot.on_form (gets f)) k t = k (f (Plot.form_of t)) t.
Proof. destruct t. reflexivity. Qed.

Lemma blind_gets {A B} (f : app -> A) (k : A -> M Plot.tab B) :
  (forall st tcs, f (set_type_combos tcs st) = f st) ->
  (forall a, Plot.blind_to_operators (k a)) ->
  Plot.blind_to_operators (bind (Plot.on_form (gets f)) k).
Proof.
  intros Hf Hk t t' Ht. rewrite !on_form_gets.
  destruct Ht as (tcs & Hlen & Hform & Hax & Hdraws).
  rewrite Hform, Hf. apply Hk. exists tcs. auto.
Qed.

Lemma blind_plot_feasible_region :
  Plot.blind_to_operators Plot.plot_feasible_region.
Proof.
  unfold Plot.plot_feasible_region.
  apply blind_gets; [reflexivity|]. intros n.
  destruct (negb (n =? 2)%Z); [apply blind_messagebox|].
  apply blind_try_except; [|intros e; apply blind_messagebox].
  apply blind_bind; [apply blind_on_ax | intros _].
  apply blind_gets; [reflexivity|]. intros m.
  apply blind_bind;
    [apply blind_for_each; intros i; apply blind_plot_constraint|].
  intros _. apply blind_bind; [apply blind_on_ax | intros _].
  apply blind_canvas_draw.
Qed.

(** X22. What [plot_feasible_region] draws does not depend on the
    operators.  Each constraint is drawn as the line where it holds with
    equality: run on two forms that differ only in the text of their
    comboboxes, the method ends the same way, with the same axes, the same
    number of draws and the same dialogs. *)
Theorem plot_ignores_the_operators (t t' : Plot.tab) :
  Plot.other_operators t t' ->
  fst (Plot.plot_feasible_region t') = fst (Plot.plot_feasible_region t) /\
  Plot.ax (snd (Plot.plot_feasible_region t'))
  = Plot.ax (snd (Plot.plot_feasible_region t)) /\
  Plot.draws (snd (Plot.plot_feasible_region t'))
  = Plot.draws (snd (Plot.plot_feasible_region t)) /\
  dialogs (Plot.form_of (snd (Plot.plot_feasible_region t')))
  = dialogs (Plot.form_of (snd (Plot.plot_feasible_region t))).
Proof.
  intros Ht.
  destruct (blind_plot_feasible_region t t' Ht)
    as [Hr (tcs & _ & Hform & Hax & Hdraws)].
  split; [exact Hr|]. split; [exact Hax|]. split; [exact Hdraws|].
  rewrite Hform. reflexivity.
Qed.

End PlotOperators.

Lemma plot_ignores_the_operators_witness :
  fst (Plot.plot_feasible_region (RT := Sample.runtime)
         (MP := Plot.sample_matplotlib) Plotted.production_tab_reversed)
  = fst (Plot.plot_feasible_region (RT := Sample.runtime)
           (MP := Plot.sample_matplotlib) Plotted.production_tab) /\
  Plot.ax (snd (Plot.plot_feasible_region (RT := Sample.runtime)
                  (MP := Plot.sample_matplotlib)
                  Plotted.production_tab_reversed))
  = Plot.ax (snd (Plot.plot_feasible_region (RT := Sample.runtime)
                    (MP := Plot.sample_matplotlib) Plotted.production_tab)).
Proof.
  destruct (plot_ignores_the_operators Sample.runtime Plot.sample_matplotlib
              Plotted.production_tab Plotted.production_tab_reversed)
    as (Hr & Hax & _).
  - exists [">="; "="; "no operator"]. repeat split.
  - split; [exact Hr | exact Hax].
Defined.

Lemma command_line_methods_catch_witness :
  fst (save_problem (FS := Disk.files) "nodir/p.json" Stored.production)
  = Ok tt /\
  directory
    (snd (save_problem (FS := Disk.files) "nodir/p.json" Stored.production))
  = directory Stored.production /\
  stdout
    (snd (save_problem (FS := Disk.files) "nodir/p.json" Stored.production))
  = ["Error saving problem: [Errno 2] No such file or directory: 'nodir/p.json'"].
Proof.
  destruct (command_line_methods_catch Sample.runtime Disk.files
              Stored.production "nodir/p.json")
    as (_ & (Hret & _ & _ & _ & _ & Hfail & _) & _).
  destruct (Hfail (Exn FileNotFoundError
                     "[Errno 2] No such file or directory: 'nodir/p.json'")
              eq_refl) as [Hdir Hout].
  split; [exact Hret|]. split; [exact Hdir | exact Hout].
Defined.
